(** * Toxicity detector: a shallow embedding of
      [src/services/toxicity_detector.py] and its verified properties.

    Conventions of the embedding.

    - A Python [str] is a [string]; characters are the code points 0..255
      and the character classes ([\s], [\w], [str.lower]) are the
      restrictions of Python's Unicode classes to that range.
    - A Python [float] is an exact rational ([Q]); numeric statements are
      up to [Qeq] ([==]).  [round(x, n)] is rounding half to even on the
      exact value.
      Where a statement would depend on the last bit of a float (a value
      next to a rounding tie, the order of the terms of a sum), it is
      stated with a margin or about the data before the sum.
    - The trained model (tokenizer, network, [expit]) and the clock are
      outside the program: they live in a [world] record.  The model may
      raise, in which case the oracle returns [Raise].
    - Methods of [ToxicityDetector] are computations in a state and
      exception monad over the attributes of [self].  Reading an attribute
      that was never assigned raises [AttributeError], as in Python.
    - Calls to [logger] have no effect on results and are left out. *)

From Stdlib Require Import Ascii String QArith Qround Qabs Qminmax Lqa.
From stdpp Require Import base list strings gmap sorting pretty.

Local Open Scope string_scope.
Local Open Scope list_scope.

(** ** Characters and text normalisation *)

Module Text.

Definition code (c : ascii) : N := N_of_ascii c.

Definition in_range (lo hi : N) (c : ascii) : bool :=
  ((lo <=? code c) && (code c <=? hi))%N.

(** [\s] and [str.isspace] below code point 256. *)
Definition py_isspace (c : ascii) : bool :=
  in_range 9 13 c || in_range 28 32 c || (code c =? 133)%N || (code c =? 160)%N.

(** [\w] below code point 256: alphanumeric characters and the underscore. *)
Definition py_isword (c : ascii) : bool :=
  in_range 48 57 c || in_range 65 90 c || (code c =? 95)%N || in_range 97 122 c
  || (code c =? 170)%N || in_range 178 179 c || (code c =? 181)%N
  || in_range 185 186 c || in_range 188 190 c
  || in_range 192 214 c || in_range 216 246 c || in_range 248 255 c.

(** [str.lower] on one character. *)
Definition py_lower (c : ascii) : ascii :=
  if in_range 65 90 c || (in_range 192 222 c && negb (code c =? 215)%N)
  then ascii_of_N (code c + 32) else c.

Fixpoint str_map (f : ascii -> ascii) (s : string) : string :=
  match s with
  | EmptyString => EmptyString
  | String c t => String (f c) (str_map f t)
  end.

Fixpoint str_filter (p : ascii -> bool) (s : string) : string :=
  match s with
  | EmptyString => EmptyString
  | String c t => if p c then String c (str_filter p t) else str_filter p t
  end.

Definition lower (s : string) : string := str_map py_lower s.

(** [re.sub(r'\s+', ' ', s)]: [in_run] tells that the previous character
    was whitespace already replaced. *)
Fixpoint collapse_ws_from (in_run : bool) (s : string) : string :=
  match s with
  | EmptyString => EmptyString
  | String c t =>
      if py_isspace c
      then (if in_run then collapse_ws_from true t
            else String " " (collapse_ws_from true t))
      else String c (collapse_ws_from false t)
  end.

Definition collapse_ws (s : string) : string := collapse_ws_from false s.

Fixpoint lstrip (s : string) : string :=
  match s with
  | EmptyString => EmptyString
  | String c t => if py_isspace c then lstrip t else s
  end.

Fixpoint rstrip (s : string) : string :=
  match s with
  | EmptyString => EmptyString
  | String c t =>
      match rstrip t with
      | EmptyString => if py_isspace c then EmptyString else String c EmptyString
      | t' => String c t'
      end
  end.

(** [str.strip()] *)
Definition strip (s : string) : string := rstrip (lstrip s).

(** [s[:n]] *)
Fixpoint take (n : nat) (s : string) : string :=
  match n, s with
  | S n', String c t => String c (take n' t)
  | _, _ => EmptyString
  end.

(** [w in s] for strings. *)
Fixpoint contains (w s : string) : bool :=
  String.prefix w s
  || match s with
     | EmptyString => false
     | String _ t => contains w t
     end.

(** [re.sub('[...]', repl, s)] for a one-character class and a
    one-character replacement. *)
Definition replace_class (cls : ascii -> bool) (repl : ascii) (s : string) : string :=
  str_map (fun c => if cls c then repl else c) s.

Definition is_one_of (l : list ascii) (c : ascii) : bool :=
  existsb (Ascii.eqb c) l.

(** [_clean_content]: normalisation for the rule-based path. *)
Definition _clean_content (content : string) : string :=
  let clean := lower content in
  let clean := strip (collapse_ws clean) in
  let clean := replace_class (is_one_of ["4"; "@"]%char) "a" clean in
  let clean := replace_class (is_one_of ["3"]%char) "e" clean in
  let clean := replace_class (is_one_of ["1"; "!"]%char) "i" clean in
  let clean := replace_class (is_one_of ["0"]%char) "o" clean in
  let clean := replace_class (is_one_of ["5"; "$"]%char) "s" clean in
  str_filter (fun c => in_range 97 122 c || in_range 48 57 c || py_isspace c) clean.

(** [_clean_content_for_ml]: normalisation for the model. *)
Definition _clean_content_for_ml (content : string) : string :=
  let clean := strip (collapse_ws content) in
  let keep c :=
    py_isword c || py_isspace c
    || is_one_of ["."; "!"; "?"; ","; ";"; ":"; "-"; "'"; "034"]%char c in
  let clean := replace_class (fun c => negb (keep c)) " " clean in
  if (512 <? String.length clean)%nat then take 512 clean else clean.

End Text.

(** ** Regular expressions: the fragment used by the detector's patterns,
       with the backtracking semantics of Python's [re] *)

Module Regex.

Inductive regex : Type :=
| REmpty
| RChar (c : ascii)
| RDotStar
| RWordBoundary
| RSeq (r1 r2 : regex)
| RAlt (r1 r2 : regex)
| RGroup (r : regex).

(** State of a match attempt: the character before the current position,
    the text still to read, and the captured groups so far. *)
Definition outcome : Type := string * list string.
Definition cont : Type := option ascii -> string -> list string -> option outcome.

Definition word_before (prev : option ascii) : bool :=
  match prev with Some c => Text.py_isword c | None => false end.

Definition word_after (s : string) : bool :=
  match s with String c _ => Text.py_isword c | EmptyString => false end.

(** The part of [s] read when [rest] is what remains of it. *)
Definition consumed (s rest : string) : string :=
  Text.take (String.length s - String.length rest) s.

(** [.*], greedy: read as many characters other than a newline as
    possible, and give characters back one at a time when the rest of the
    pattern fails. *)
Fixpoint dot_star (k : option ascii -> string -> option outcome)
    (prev : option ascii) (s : string) : option outcome :=
  match s with
  | EmptyString => k prev s
  | String c t =>
      if (Text.code c =? 10)%N then k prev s
      else match dot_star k (Some c) t with
           | Some r => Some r
           | None => k prev s
           end
  end.

(** Matching under [re.IGNORECASE]. *)
Fixpoint rmatch (r : regex) (prev : option ascii) (s : string)
    (caps : list string) (k : cont) {struct r} : option outcome :=
  match r with
  | REmpty => k prev s caps
  | RChar l =>
      match s with
      | String c t =>
          if Ascii.eqb (Text.py_lower c) (Text.py_lower l)
          then k (Some c) t caps else None
      | EmptyString => None
      end
  | RDotStar => dot_star (fun p s' => k p s' caps) prev s
  | RWordBoundary =>
      if xorb (word_before prev) (word_after s) then k prev s caps else None
  | RSeq r1 r2 =>
      rmatch r1 prev s caps (fun p s' caps' => rmatch r2 p s' caps' k)
  | RAlt r1 r2 =>
      match rmatch r1 prev s caps k with
      | Some x => Some x
      | None => rmatch r2 prev s caps k
      end
  | RGroup r1 =>
      rmatch r1 prev s caps
        (fun p s' caps' => k p s' (caps' ++ [consumed s s']))
  end.

Definition match_here (r : regex) (prev : option ascii) (s : string) : option outcome :=
  rmatch r prev s [] (fun _ s' caps => Some (s', caps)).

(** [pattern.findall(s)]: leftmost matches, not overlapping.  [skip] counts
    the characters of the last match that are still to be passed over.
    Each result is the list of the groups' texts. *)
Fixpoint findall_from (r : regex) (prev : option ascii) (skip : nat)
    (s : string) : list (list string) :=
  let here := match skip with
              | O => match_here r prev s
              | S _ => None
              end in
  match here with
  | Some (rest, caps) =>
      caps ::
      match s with
      | EmptyString => []
      | String c t =>
          findall_from r (Some c) (String.length s - String.length rest - 1) t
      end
  | None =>
      match s with
      | EmptyString => []
      | String c t => findall_from r (Some c) (skip - 1) t
      end
  end.

Definition findall (r : regex) (s : string) : list (list string) :=
  findall_from r None 0 s.

Fixpoint lit (w : string) : regex :=
  match w with
  | EmptyString => REmpty
  | String c EmptyString => RChar c
  | String c t => RSeq (RChar c) (lit t)
  end.

Fixpoint alts (ws : list string) : regex :=
  match ws with
  | [] => REmpty
  | [w] => lit w
  | w :: ws' => RAlt (lit w) (alts ws')
  end.

(** [\b(w1|...|wn)\b] *)
Definition word_of (ws : list string) : regex :=
  RSeq RWordBoundary (RSeq (RGroup (alts ws)) RWordBoundary).

(** [\b(w1|...|wn).*(v1|...|vm)\b] *)
Definition word_then (ws vs : list string) : regex :=
  RSeq RWordBoundary
    (RSeq (RGroup (alts ws)) (RSeq RDotStar (RSeq (RGroup (alts vs)) RWordBoundary))).

End Regex.

(** ** Python values, exceptions and floats *)

Module Py.

Inductive exn : Type :=
| ValueError (msg : string)
| AttributeError (attr : string)
| KeyError (key : string)
| TypeError (msg : string)
| RuntimeError (msg : string).

Inductive result (A : Type) : Type :=
| Ok (a : A)
| Raise (e : exn).
Arguments Ok {A} a.
Arguments Raise {A} e.

(** What a caller may pass as [content]. *)
#[warnings="-register-all"]
Inductive value : Type :=
| VNone
| VBool (b : bool)
| VInt (n : Z)
| VStr (s : string)
| VList (l : list value).

(** Truth value of an object, as tested by [not content]. *)
Definition truthy (v : value) : bool :=
  match v with
  | VNone => false
  | VBool b => b
  | VInt n => negb (n =? 0)%Z
  | VStr s => negb (String.eqb s "")
  | VList l => negb (Nat.eqb (length l) 0)
  end.

(** [isinstance(v, str)] *)
Definition is_str (v : value) : bool :=
  match v with VStr _ => true | _ => false end.

Definition str_of (v : value) : string :=
  match v with VStr s => s | _ => "" end.

(** Comparisons of floats. *)
Definition Qgeb (x y : Q) : bool := Qle_bool y x.
Definition Qgtb (x y : Q) : bool := negb (Qle_bool x y).

(** Nearest integer, ties to the even one. *)
Definition round_half_even (x : Q) : Z :=
  let f := Qfloor x in
  match (x - inject_Z f ?= 1 # 2)%Q with
  | Lt => f
  | Gt => (f + 1)%Z
  | Eq => if Z.even f then f else (f + 1)%Z
  end.

(** [round(x, ndigits)] *)
Definition round (x : Q) (ndigits : nat) : Q :=
  let scale := inject_Z (10 ^ Z.of_nat ndigits) in
  (inject_Z (round_half_even (x * scale)) / scale)%Q.

(** A [dict] from strings to floats, in insertion order. *)
Definition dict : Type := list (string * Q).

Definition dict_mem (k : string) (d : dict) : bool :=
  existsb (fun kv => String.eqb (fst kv) k) d.

Fixpoint dict_get (k : string) (d : dict) : option Q :=
  match d with
  | [] => None
  | (k', v) :: d' => if String.eqb k' k then Some v else dict_get k d'
  end.

(** [d[k] = v] *)
Fixpoint dict_set (k : string) (v : Q) (d : dict) : dict :=
  match d with
  | [] => [(k, v)]
  | (k', v') :: d' =>
      if String.eqb k' k then (k', v) :: d' else (k', v') :: dict_set k v d'
  end.

(** [sum(d.values())], which starts from 0 and adds from the left. *)
Definition dict_sum (d : dict) : Q :=
  fold_left (fun acc kv => acc + snd kv)%Q d 0%Q.

(** Order of [str] values: by code points, lexicographic. *)
Definition str_le (a b : string) : Prop := String.leb a b = true.

#[global] Instance str_le_dec : RelDecision str_le.
Proof. intros a b. unfold str_le. apply _. Defined.

(** [sorted(list(s))] for a set of strings. *)
Definition sorted_list (s : gset string) : list string :=
  merge_sort str_le (elements s).

End Py.

(** ** The detector object and the monad of its methods *)

Module ToxicityDetector.
Import Text Regex Py.

(** [self.toxicity_categories] is a table of thresholds after the model was
    loaded and a table of pattern indices after [_initialize_rule_based]. *)
Inductive categories_table : Type :=
| ThresholdTable (t : list (string * Q))
| PatternTable (t : list (string * list nat)).

(** The attributes of [self] that the methods read; [None] is an attribute
    that was never assigned.  The handles [tokenizer], [model] and
    [classifier] belong to the model, which is in the [world]. *)
Record detector : Type := {
  use_ml_model : bool;
  optimal_threshold : option Q;
  max_length : option nat;
  model_name_loaded : option string;
  compiled_patterns : option (list regex);
  toxicity_categories : option categories_table;
  severity_weights : option (list (string * Q))
}.

Definition new_object : detector :=
  {| use_ml_model := false; optimal_threshold := None; max_length := None;
     model_name_loaded := None; compiled_patterns := None;
     toxicity_categories := None; severity_weights := None |}.

Definition set_use_ml_model (b : bool) (d : detector) : detector :=
  {| use_ml_model := b; optimal_threshold := optimal_threshold d;
     max_length := max_length d; model_name_loaded := model_name_loaded d;
     compiled_patterns := compiled_patterns d;
     toxicity_categories := toxicity_categories d;
     severity_weights := severity_weights d |}.

Definition set_optimal_threshold (t : Q) (d : detector) : detector :=
  {| use_ml_model := use_ml_model d; optimal_threshold := Some t;
     max_length := max_length d; model_name_loaded := model_name_loaded d;
     compiled_patterns := compiled_patterns d;
     toxicity_categories := toxicity_categories d;
     severity_weights := severity_weights d |}.

Definition set_max_length (n : nat) (d : detector) : detector :=
  {| use_ml_model := use_ml_model d; optimal_threshold := optimal_threshold d;
     max_length := Some n; model_name_loaded := model_name_loaded d;
     compiled_patterns := compiled_patterns d;
     toxicity_categories := toxicity_categories d;
     severity_weights := severity_weights d |}.

Definition set_model_name_loaded (s : string) (d : detector) : detector :=
  {| use_ml_model := use_ml_model d; optimal_threshold := optimal_threshold d;
     max_length := max_length d; model_name_loaded := Some s;
     compiled_patterns := compiled_patterns d;
     toxicity_categories := toxicity_categories d;
     severity_weights := severity_weights d |}.

Definition set_compiled_patterns (ps : list regex) (d : detector) : detector :=
  {| use_ml_model := use_ml_model d; optimal_threshold := optimal_threshold d;
     max_length := max_length d; model_name_loaded := model_name_loaded d;
     compiled_patterns := Some ps;
     toxicity_categories := toxicity_categories d;
     severity_weights := severity_weights d |}.

Definition set_toxicity_categories (t : categories_table) (d : detector) : detector :=
  {| use_ml_model := use_ml_model d; optimal_threshold := optimal_threshold d;
     max_length := max_length d; model_name_loaded := model_name_loaded d;
     compiled_patterns := compiled_patterns d;
     toxicity_categories := Some t;
     severity_weights := severity_weights d |}.

Definition set_severity_weights (ws : list (string * Q)) (d : detector) : detector :=
  {| use_ml_model := use_ml_model d; optimal_threshold := optimal_threshold d;
     max_length := max_length d; model_name_loaded := model_name_loaded d;
     compiled_patterns := compiled_patterns d;
     toxicity_categories := toxicity_categories d;
     severity_weights := Some ws |}.

(** A method body: it reads and writes [self] and returns or raises. *)
Definition action (A : Type) : Type := detector -> result A * detector.

#[global] Instance action_ret : MRet action :=
  fun A a d => (Ok a, d).

#[global] Instance action_bind : MBind action :=
  fun A B f m d =>
    match m d with
    | (Ok a, d') => f a d'
    | (Raise e, d') => (Raise e, d')
    end.

Definition raise {A : Type} (e : exn) : action A :=
  fun d => (Raise e, d).

(** [try: body  except Exception as e: handler e] *)
Definition try_except {A : Type} (body : action A) (handler : exn -> action A)
    : action A :=
  fun d =>
    match body d with
    | (Ok a, d') => (Ok a, d')
    | (Raise e, d') => handler e d'
    end.

(** [self.name] *)
Definition getattr {A : Type} (name : string) (field : detector -> option A)
    : action A :=
  fun d =>
    match field d with
    | Some a => (Ok a, d)
    | None => (Raise (AttributeError name), d)
    end.

(** [self.name] for an attribute assigned by the first statement of
    [__init__]. *)
Definition read {A : Type} (field : detector -> A) : action A :=
  fun d => (Ok (field d), d).

(** [getattr(self, name, default)] *)
Definition getattr_default {A : Type} (field : detector -> option A)
    (default : A) : action A :=
  fun d => (Ok (from_option id default (field d)), d).

(** [self.name = v] *)
Definition setattr (update : detector -> detector) : action unit :=
  fun d => (Ok tt, update d).

(** A result computed outside the object. *)
Definition lift {A : Type} (r : result A) : action A :=
  fun d => (r, d).

(** A [for] loop that updates local variables [a]. *)
Fixpoint for_each {A B : Type} (body : A -> B -> action A) (a : A)
    (l : list B) : action A :=
  match l with
  | [] => mret a
  | x :: l' => a' ← body a x; for_each body a' l'
  end.

(** How loading the model ends, the model as a function from the cleaned
    text and [max_length] to [expit] of its logit, and the clock. *)
Inductive load_outcome : Type :=
| LoadedLocal (threshold : Q) (max_len : nat) (name : string)
| LoadedFromHub
| LoadFailed (e : exn).

Record world : Type := {
  transformers_available : bool;
  model_load : load_outcome;
  model_probability : string -> nat -> result Q;
  utcnow_isoformat : string
}.

(** The [dict] that [check_toxicity] returns; the last two keys are present
    on the model path only. *)
Record verdict : Type := {
  is_toxic : bool;
  toxicity_score : Q;
  confidence : Q;
  categories : list string;
  content_length : nat;
  timestamp : string;
  detector_version : string;
  model_used : string;
  threshold_used : option Q;
  raw_score : option Q
}.

Definition rule_patterns : list regex :=
  [ word_of ["fuck"; "shit"; "damn"; "bitch"; "asshole"; "bastard"];
    word_of ["nigger"; "faggot"; "retard"; "cunt"];
    word_of ["kill yourself"; "kys"; "die"];
    word_then ["hate"; "despise"] ["you"; "him"; "her"; "them"];
    word_then ["stupid"; "idiot"; "moron"; "dumb"] ["person"; "people"; "you"];
    word_of ["spam"; "troll"; "harassment"] ].

Definition rule_categories : list (string * list nat) :=
  [ ("profanity", [0; 1]); ("hate_speech", [2; 3]);
    ("harassment", [4; 5]); ("toxic_behavior", [6]) ]%nat.

Definition rule_weights : list (string * Q) :=
  [ ("profanity", 3 # 10); ("hate_speech", 9 # 10);
    ("harassment", 7 # 10); ("toxic_behavior", 5 # 10) ].

Definition ml_categories : list (string * Q) :=
  [ ("general_toxicity", 5 # 10); ("severe_toxicity", 7 # 10);
    ("obscene", 6 # 10); ("threat", 8 # 10); ("insult", 6 # 10);
    ("identity_attack", 7 # 10) ].

Definition _initialize_rule_based : action unit :=
  setattr (set_compiled_patterns rule_patterns);;
  setattr (set_toxicity_categories (PatternTable rule_categories));;
  setattr (set_severity_weights rule_weights).

Definition _initialize_ml_model (w : world) : action unit :=
  try_except
    (match model_load w with
     | LoadedLocal threshold max_len name =>
         setattr (set_optimal_threshold threshold);;
         setattr (set_max_length max_len);;
         setattr (set_model_name_loaded name)
     | LoadedFromHub => mret tt
     | LoadFailed e => raise e
     end;;
     setattr (set_toxicity_categories (ThresholdTable ml_categories)))
    (fun _ =>
       setattr (set_use_ml_model false);;
       _initialize_rule_based).

Definition __init__ (w : world) (use_ml : bool) : action unit :=
  setattr (set_use_ml_model (use_ml && transformers_available w));;
  flag ← read use_ml_model;
  if flag : bool then _initialize_ml_model w else _initialize_rule_based.

(** [any(word in content_lower for word in keywords)] *)
Definition any_in (keywords : list string) (content_lower : string) : bool :=
  existsb (fun word => contains word content_lower) keywords.

Definition _analyze_toxicity_categories_ml (content : string)
    (toxicity_score : Q) : list string :=
  let categories := [] in
  let content_lower := lower content in
  if Qgtb toxicity_score (3 # 10) then
    let categories :=
      if any_in ["fuck"; "shit"; "damn"; "bitch"; "asshole"] content_lower
      then categories ++ ["profanity"] else categories in
    let categories :=
      if any_in ["hate"; "kill"; "die"; "murder"] content_lower
      then categories ++ ["hate_speech"] else categories in
    let categories :=
      if any_in ["stupid"; "idiot"; "moron"; "loser"; "pathetic"] content_lower
      then categories ++ ["harassment"] else categories in
    let categories :=
      if any_in ["kill you"; "hurt you"; "destroy you"; "eliminate"] content_lower
      then categories ++ ["threat"] else categories in
    if negb (bool_decide (categories <> [])) && Qgtb toxicity_score (6 # 10)
    then categories ++ ["general_toxicity"] else categories
  else categories.

(** An element of [matches]: the groups of one match and the index of the
    pattern that matched. *)
Definition pattern_match : Type := list string * nat.

(** The body of [_find_toxic_patterns]: the matches of every pattern, in
    the order of the patterns, each with the index of its pattern. *)
Definition all_matches (patterns : list regex) (content : string)
    : list pattern_match :=
  mjoin (imap (fun i pattern => (fun m => (m, i)) <$> findall pattern content)
              patterns).

Definition _find_toxic_patterns (content : string)
    : action (list pattern_match) :=
  patterns ← getattr "compiled_patterns" compiled_patterns;
  mret (all_matches patterns content).

(** [self.toxicity_categories.items()], as the loop below uses it: the
    values must be lists of indices. *)
Definition category_items : action (list (string * list nat)) :=
  table ← getattr "toxicity_categories" toxicity_categories;
  match table with
  | PatternTable t => mret t
  | ThresholdTable _ => raise (TypeError "argument of type 'float' is not iterable")
  end.

(** [self.severity_weights[category]] *)
Definition severity_weight (category : string) : action Q :=
  weights ← getattr "severity_weights" severity_weights;
  match dict_get category weights with
  | Some w => mret w
  | None => raise (KeyError category)
  end.

(** The loops of [_calculate_toxicity_score], with their two local
    variables [category_scores] and [identified_categories]: the body of
    the inner loop, the body of the outer loop, and the outer loop. *)
Definition score_item (pattern_index : nat) (acc : dict * gset string)
    (item : string * list nat) : action (dict * gset string) :=
  let '(category_scores, identified_categories) := acc in
  let '(category, pattern_indices) := item in
  if bool_decide (pattern_index ∈ pattern_indices) then
    let category_scores :=
      if dict_mem category category_scores then category_scores
      else dict_set category 0%Q category_scores in
    weight ← severity_weight category;
    let category_scores :=
      dict_set category
        (from_option id 0%Q (dict_get category category_scores) + weight)%Q
        category_scores in
    mret (category_scores, {[category]} ∪ identified_categories)
  else mret (category_scores, identified_categories).

Definition score_match (acc : dict * gset string) (m : pattern_match)
    : action (dict * gset string) :=
  items ← category_items;
  for_each (score_item (snd m)) acc items.

Definition score_matches (matches : list pattern_match)
    : action (dict * gset string) :=
  for_each score_match ([], ∅) matches.

Definition _calculate_toxicity_score (matches : list pattern_match)
    : action (Q * list string) :=
  if bool_decide (matches = []) then mret (0%Q, [])
  else
    acc ← score_matches matches;
    let '(category_scores, identified_categories) := acc in
    let final_score :=
      if bool_decide (category_scores <> []) then
        let total_score :=
          (dict_sum category_scores
           / inject_Z (Z.of_nat (length category_scores)))%Q in
        Qmin 1 total_score
      else 0%Q in
    mret (final_score, sorted_list identified_categories).

Definition _check_toxicity_rule_based (w : world) (content : string)
    : action verdict :=
  let clean_content := _clean_content content in
  matches ← _find_toxic_patterns clean_content;
  scored ← _calculate_toxicity_score matches;
  let '(toxicity_score, categories) := scored in
  let is_toxic := Qgtb toxicity_score (5 # 10) in
  let confidence :=
    Qmin (9 # 10)
         ((3 # 10) + inject_Z (Z.of_nat (length matches)) * (2 # 10))%Q in
  mret {| is_toxic := is_toxic;
          toxicity_score := round toxicity_score 3;
          confidence := round confidence 3;
          categories := categories;
          content_length := String.length content;
          timestamp := utcnow_isoformat w;
          detector_version := "1.0.0-rule-based";
          model_used := "rule-based-patterns";
          threshold_used := None;
          raw_score := None |}.

(** The confidence of the model path before it is rounded. *)
Definition ml_confidence (toxicity_score toxicity_threshold : Q) : Q :=
  let threshold_distance := Qabs (toxicity_score - toxicity_threshold) in
  let confidence := Qmin 1 (Qmax (threshold_distance * 2) 0) in
  let confidence :=
    Qmax confidence (1 - Qabs ((5 # 10) - toxicity_score) * 2) in
  let confidence :=
    if Qle_bool toxicity_score (1 # 10) || Qgeb toxicity_score (9 # 10)
    then Qmax confidence (85 # 100) else confidence in
  Qmin 1 confidence.

Definition _check_toxicity_ml (w : world) (content : string)
    : action verdict :=
  try_except
    (let clean_content := _clean_content_for_ml content in
     max_len ← getattr_default max_length 512%nat;
     probability ← lift (model_probability w clean_content max_len);
     let toxicity_score := Qmax 0 (Qmin 1 probability) in
     toxicity_threshold ← getattr_default optimal_threshold (5 # 10);
     let is_toxic := Qgeb toxicity_score toxicity_threshold in
     let confidence := ml_confidence toxicity_score toxicity_threshold in
     let categories :=
       _analyze_toxicity_categories_ml clean_content toxicity_score in
     name ← getattr_default model_name_loaded "toxicity-model-fast";
     mret {| is_toxic := is_toxic;
             toxicity_score := round toxicity_score 3;
             confidence := round confidence 3;
             categories := categories;
             content_length := String.length content;
             timestamp := utcnow_isoformat w;
             detector_version := "2.0.5-ml-fast";
             model_used := name;
             threshold_used := Some toxicity_threshold;
             raw_score := Some (round toxicity_score 4) |})
    (fun _ => _check_toxicity_rule_based w content).

Definition check_toxicity (w : world) (content : value) : action verdict :=
  if negb (truthy content) || negb (is_str content)
  then raise (ValueError "Content must be a non-empty string")
  else
    let content := str_of content in
    flag ← read use_ml_model;
    if flag : bool then _check_toxicity_ml w content
    else _check_toxicity_rule_based w content.

(** The [dict] that [get_detector_info] returns; each mode has keys of its
    own. *)
Record detector_info : Type := {
  detector_type : string;
  version : string;
  model_name : option string;
  framework : option string;
  total_patterns : option nat;
  info_categories : option (list string);
  description : string
}.

(** [list(self.toxicity_categories.keys())] *)
Definition table_keys (t : categories_table) : list string :=
  match t with
  | ThresholdTable t => t.*1
  | PatternTable t => t.*1
  end.

Definition get_detector_info : action detector_info :=
  flag ← read use_ml_model;
  if flag : bool then
    mret {| detector_type := "ml_model";
            version := "2.0.5";
            model_name := Some "toxicity-model-fast";
            framework := Some "transformers";
            total_patterns := None;
            info_categories := None;
            description :=
              "ML-based toxicity detector using custom-trained DistilBERT regression model" |}
  else
    patterns ← getattr "compiled_patterns" compiled_patterns;
    table ← getattr "toxicity_categories" toxicity_categories;
    mret {| detector_type := "rule_based";
            version := "1.0.0";
            model_name := None;
            framework := None;
            total_patterns := Some (length patterns);
            info_categories := Some (table_keys table);
            description :=
              "Rule-based toxicity detector for social media content" |}.

End ToxicityDetector.

(** ** The validators of the service: [utils/validators.py] *)

Module Validators.
Import Text Py.

(** The bound 10000 on the length of a text. *)
Definition max_content_length : nat := Z.to_nat 10000.

(** The [dict] that [validate_content] returns. *)
Record validation : Type := {
  valid : bool;
  error : option string
}.

Definition validate_content (content : value) : validation :=
  match content with
  | VNone => {| valid := false; error := Some "Content cannot be None" |}
  | VStr s =>
      if Nat.eqb (String.length (strip s)) 0 then
        {| valid := false; error := Some "Content cannot be empty" |}
      else if (max_content_length <? String.length s)%nat then
        {| valid := false;
           error := Some "Content exceeds maximum length of 10,000 characters" |}
      else {| valid := true; error := None |}
  | _ => {| valid := false; error := Some "Content must be a string" |}
  end.

(** The class [[\x00-\x08\x0B\x0C\x0E-\x1F\x7F]]. *)
Definition is_control (c : ascii) : bool :=
  in_range 0 8 c || in_range 11 12 c || in_range 14 31 c || (code c =? 127)%N.

Definition sanitize_input (text : value) : string :=
  match text with
  | VStr s =>
      let sanitized := str_filter (fun c => negb (is_control c)) s in
      let sanitized := take max_content_length sanitized in
      strip sanitized
  | _ => EmptyString
  end.

(** The class [[a-zA-Z0-9\-_]]. *)
Definition is_id_char (c : ascii) : bool :=
  in_range 97 122 c || in_range 65 90 c || in_range 48 57 c
  || (code c =? 45)%N || (code c =? 95)%N.

(** [$] without [re.MULTILINE]: the end of the text, or the place before a
    newline that ends the text. *)
Definition at_end (s : string) : bool :=
  match s with
  | EmptyString => true
  | String c EmptyString => (code c =? 10)%N
  | _ => false
  end.

(** [[a-zA-Z0-9\-_]{lo,hi}] followed by [$], greedy: read one more
    character of the class while the upper bound allows it, and give
    characters back while the end is not reached and the lower bound
    allows it.  [n] counts the characters read so far. *)
Fixpoint id_chars_then_end (lo hi n : nat) (s : string) : bool :=
  let stop := (lo <=? n)%nat && at_end s in
  match s with
  | String c t =>
      if is_id_char c && (n <? hi)%nat
      then id_chars_then_end lo hi (S n) t || stop
      else stop
  | EmptyString => stop
  end.

(** [bool(re.match(r'^[a-zA-Z0-9\-_]{1,50}$', s))] *)
Definition id_pattern_matches (s : string) : bool :=
  id_chars_then_end 1 50 0 s.

Definition validate_yeet_id (yeet_id : value) : bool :=
  match yeet_id with
  | VNone => true
  | VStr s => id_pattern_matches s
  | _ => false
  end.

Definition validate_user_id (user_id : value) : bool :=
  match user_id with
  | VNone => true
  | VStr s => id_pattern_matches s
  | _ => false
  end.

End Validators.

(** ** The routes of the service: [endpoints/yeet_check.py] *)

Module Endpoints.
Import Text Py ToxicityDetector Validators.

(** What [request.get_json()] can return.  Numbers are the integers; the
    pairs of an object are in the order of its keys, and a key is looked
    up from the left. *)
#[warnings="-register-all"]
Inductive json : Type :=
| JNull
| JBool (b : bool)
| JNum (n : Z)
| JStr (s : string)
| JList (l : list json)
| JDict (kvs : list (string * json)).

(** The object that Python hands to the validators and to the detector.
    These only test [is None], [isinstance(_, str)] and the truth value; an
    object of JSON is handed on as the list of its values, which has the
    same truth value and is no string either. *)
Fixpoint to_value (j : json) : value :=
  match j with
  | JNull => VNone
  | JBool b => VBool b
  | JNum n => VInt n
  | JStr s => VStr s
  | JList l => VList (map to_value l)
  | JDict kvs => VList (map (fun kv => to_value (snd kv)) kvs)
  end.

Fixpoint assoc (key : string) (kvs : list (string * json)) : option json :=
  match kvs with
  | [] => None
  | (k, v) :: kvs' => if String.eqb k key then Some v else assoc key kvs'
  end.

Definition is_json_str (s : string) (j : json) : bool :=
  match j with JStr s' => String.eqb s' s | _ => false end.

(** [key in data] for a string [key] *)
Definition py_in (key : string) (data : json) : result bool :=
  match data with
  | JDict kvs => Ok (bool_decide (is_Some (assoc key kvs)))
  | JList l => Ok (existsb (is_json_str key) l)
  | JStr s => Ok (contains key s)
  | _ => Raise (TypeError "argument is not iterable")
  end.

(** [data[key]] for a string [key] *)
Definition py_getitem (data : json) (key : string) : result json :=
  match data with
  | JDict kvs =>
      match assoc key kvs with
      | Some v => Ok v
      | None => Raise (KeyError key)
      end
  | JList _ | JStr _ => Raise (TypeError "indices must be integers")
  | _ => Raise (TypeError "object is not subscriptable")
  end.

(** [data.get(key)]; the text of the exception of an object without [get]
    reaches no response. *)
Definition py_get (data : json) (key : string) : result json :=
  match data with
  | JDict kvs => Ok (default JNull (assoc key kvs))
  | _ => Raise (AttributeError "get")
  end.

(** [isinstance(j, list)] and the elements of a list. *)
Definition is_list (j : json) : bool :=
  match j with JList _ => true | _ => false end.

Definition elements_of (j : json) : list json :=
  match j with JList l => l | _ => [] end.

(** [str(e)] *)
Definition exn_str (e : exn) : string :=
  match e with
  | ValueError msg => msg
  | AttributeError attr =>
      String.append "'ToxicityDetector' object has no attribute '"
                    (String.append attr "'")
  | KeyError key => String.append "'" (String.append key "'")
  | TypeError msg => msg
  | RuntimeError msg => msg
  end.

(** The request as the routes read it; [get_json] may raise. *)
Record request : Type := {
  is_json : bool;
  get_json : result json
}.

(** One element of [results] in the batch route. *)
Inductive batch_result : Type :=
| ResultVerdict (v : verdict) (yeet_id user_id : json)
| ResultError (error : string) (yeet_id user_id : json).

(** The argument of [jsonify]. *)
Inductive body : Type :=
| ErrorBody (error : option string) (message : option string)
| VerdictBody (v : verdict) (yeet_id user_id : json)
| BatchBody (results : list batch_result) (total_processed : nat).

Record response : Type := {
  payload : body;
  status : nat
}.

Definition respond (b : body) (code : nat) : action response :=
  mret {| payload := b; status := code |}.

Definition check_yeet_toxicity (w : world) (req : request) : action response :=
  try_except
    (if negb (is_json req) then
       respond (ErrorBody (Some "Content-Type must be application/json") None) 400
     else
       data ← lift (get_json req);
       present ← lift (py_in "content" data);
       if negb present then
         respond (ErrorBody (Some "Missing required field: content") None) 400
       else
         raw ← lift (py_getitem data "content");
         let content := sanitize_input (to_value raw) in
         yeet_id ← lift (py_get data "yeet_id");
         user_id ← lift (py_get data "user_id");
         let content_validation := validate_content (VStr content) in
         if negb (valid content_validation) then
           respond (ErrorBody (error content_validation) None) 400
         else if negb (validate_yeet_id (to_value yeet_id)) then
           respond (ErrorBody (Some "Invalid yeet_id format") None) 400
         else if negb (validate_user_id (to_value user_id)) then
           respond (ErrorBody (Some "Invalid user_id format") None) 400
         else
           result ← check_toxicity w (VStr content);
           respond (VerdictBody result yeet_id user_id) 200)
    (fun _ =>
       respond (ErrorBody (Some "Internal server error")
                          (Some "Failed to check content toxicity")) 500).

(** The body of the loop of [check_batch_toxicity] for the element [yeet]
    at index [i]. *)
Definition check_batch_item (w : world) (results : list batch_result)
    (item : nat * json) : action (list batch_result) :=
  let '(i, yeet) := item in
  present ← lift (py_in "content" yeet);
  if negb present then
    yeet_id ← lift (py_get yeet "yeet_id");
    user_id ← lift (py_get yeet "user_id");
    mret (results ++ [ResultError
                        (String.append "Missing content for yeet at index "
                                       (pretty i))
                        yeet_id user_id])
  else
    try_except
      (raw ← lift (py_getitem yeet "content");
       result ← check_toxicity w (to_value raw);
       yeet_id ← lift (py_get yeet "yeet_id");
       user_id ← lift (py_get yeet "user_id");
       mret (results ++ [ResultVerdict result yeet_id user_id]))
      (fun e =>
         yeet_id ← lift (py_get yeet "yeet_id");
         user_id ← lift (py_get yeet "user_id");
         mret (results ++ [ResultError
                             (String.append "Failed to check toxicity: "
                                            (exn_str e))
                             yeet_id user_id])).

Definition check_batch_toxicity (w : world) (req : request) : action response :=
  try_except
    (if negb (is_json req) then
       respond (ErrorBody (Some "Content-Type must be application/json") None) 400
     else
       data ← lift (get_json req);
       present ← lift (py_in "yeets" data);
       usable ← (if negb present then mret false
                 else yeets ← lift (py_getitem data "yeets");
                      mret (is_list yeets));
       if negb usable then
         respond (ErrorBody
                    (Some "Missing or invalid field: yeets (must be an array)")
                    None) 400
       else
         yeets ← lift (py_getitem data "yeets");
         let yeets := elements_of yeets in
         if Nat.eqb (length yeets) 0 then
           respond (ErrorBody (Some "Yeets array cannot be empty") None) 400
         else if (100 <? length yeets)%nat then
           respond (ErrorBody (Some "Batch size cannot exceed 100 yeets") None)
                   400
         else
           results ← for_each (check_batch_item w) []
                              (imap (fun i yeet => (i, yeet)) yeets);
           respond (BatchBody results (length results)) 200)
    (fun _ =>
       respond (ErrorBody (Some "Internal server error")
                          (Some "Failed to process batch toxicity check")) 500).

End Endpoints.

(** * Definitions used in the statements and proofs *)

Import Text Regex Py ToxicityDetector Validators Endpoints.

(** ** The scoring loop as a fold over category hits *)

(** [list(d.keys())] *)
Definition keys (d : dict) : list string := d.*1.

(** Sum of a list of floats. *)
Definition Qsum (l : list Q) : Q := foldr Qplus 0%Q l.

(** The weight of a category in a table of weights. *)
Definition weight_of (weights : dict) (category : string) : Q :=
  from_option id 0%Q (dict_get category weights).

(** One execution of the guarded part of the inner loop's body. *)
Definition add_hit (weights : dict) (acc : dict * gset string)
    (category : string) : dict * gset string :=
  let category_scores :=
    if dict_mem category acc.1 then acc.1 else dict_set category 0%Q acc.1 in
  (dict_set category
     (from_option id 0%Q (dict_get category category_scores)
      + weight_of weights category)%Q
     category_scores,
   {[category]} ∪ acc.2).

(** The categories, among [its], that own pattern [i]. *)
Definition owners (its : list (string * list nat)) (i : nat) : list string :=
  (filter (fun item => i ∈ item.2) its).*1.

(** The categories hit by a list of matches, in the order of the loops. *)
Definition hits (items : list (string * list nat)) (ms : list pattern_match)
    : list string :=
  ms ≫= (fun m => owners items m.2).

(** How many times a category is hit. *)
Definition count (c : string) (hs : list string) : nat :=
  length (filter (eq c) hs).

(** The two local variables after the loop over a list of hits. *)
Definition tally (weights : dict) (hs : list string) : dict * gset string :=
  fold_left (add_hit weights) hs ([], ∅).

(** The invariant of the loop. *)
Record tally_inv (weights : dict) (hs : list string)
    (acc : dict * gset string) : Prop := {
  inv_nodup : NoDup (keys acc.1);
  inv_keys : forall c, c ∈ keys acc.1 <-> c ∈ hs;
  inv_vals : forall c v, dict_get c acc.1 = Some v ->
    (v == inject_Z (Z.of_nat (count c hs)) * weight_of weights c)%Q;
  inv_ids : forall c, c ∈ acc.2 <-> c ∈ hs
}.

(** [category_scores[c]] after [n] hits of a category of weight [w]: the
    entry starts at 0 and [w] is added [n] times. *)
Definition accumulated (w : Q) (n : nat) : Q :=
  Nat.iter n (fun x => x + w)%Q 0%Q.

(** The score that [_calculate_toxicity_score] derives from
    [category_scores]. *)
Definition final_score (category_scores : dict) : Q :=
  if bool_decide (category_scores <> []) then
    Qmin 1 (dict_sum category_scores
            / inject_Z (Z.of_nat (length category_scores)))
  else 0%Q.

(** ** The aggregate score and the confidence in the words of the
       specification *)

Module Spec.

(** Match occurrences of the patterns that a category owns. *)
Definition occurrences (ms : list pattern_match) (indices : list nat) : nat :=
  length (filter (fun m => m.2 ∈ indices) ms).

(** Each occurrence adds the fixed severity weight of the category. *)
Definition accumulated_weight (weights : dict) (ms : list pattern_match)
    (item : string * list nat) : Q :=
  (inject_Z (Z.of_nat (occurrences ms item.2)) * weight_of weights item.1)%Q.

(** The categories with at least one match. *)
Definition matched_categories (items : list (string * list nat))
    (ms : list pattern_match) : list (string * list nat) :=
  filter (fun item => occurrences ms item.2 <> 0%nat) items.

(** Mean of the accumulated weights over the matched categories, clamped
    above at 1; 0 when nothing matched. *)
Definition mean_score (items : list (string * list nat)) (weights : dict)
    (ms : list pattern_match) : Q :=
  let matched := matched_categories items ms in
  if decide (matched = []) then 0%Q
  else Qmin 1 (Qsum (accumulated_weight weights ms <$> matched)
               / inject_Z (Z.of_nat (length matched))).

(** The confidence of the classifier path. *)
Definition clamp01 (x : Q) : Q := Qmax 0 (Qmin 1 x).

Definition classifier_confidence (s t : Q) : Q :=
  let c := clamp01 (Qmax (Qabs (s - t) * 2) (1 - Qabs ((1 # 2) - s) * 2)) in
  if Qle_bool s (1 # 10) || Qle_bool (9 # 10) s then Qmax c (85 # 100) else c.

End Spec.

(** ** Constructed objects, verdicts of the two paths, and processes *)

(** [d] is the object that [ToxicityDetector(use_ml_model=use_ml)] builds in
    the process [w]. *)
Definition constructed (w : world) (use_ml : bool) (d : detector) : Prop :=
  __init__ w use_ml new_object = (Ok tt, d).

(** The object after [_initialize_rule_based]. *)
Definition rule_detector : detector :=
  {| use_ml_model := false; optimal_threshold := None; max_length := None;
     model_name_loaded := None; compiled_patterns := Some rule_patterns;
     toxicity_categories := Some (PatternTable rule_categories);
     severity_weights := Some rule_weights |}.

(** The matches, the local variables of the loop, the confidence and the
    verdict of the pattern path on [content]. *)
Definition rule_matches (content : string) : list pattern_match :=
  all_matches rule_patterns (_clean_content content).

Definition rule_tally (content : string) : dict * gset string :=
  tally rule_weights (hits rule_categories (rule_matches content)).

Definition rule_confidence (content : string) : Q :=
  Qmin (9 # 10)
       ((3 # 10)
        + inject_Z (Z.of_nat (length (rule_matches content))) * (2 # 10))%Q.

Definition rule_verdict (w : world) (content : string) : verdict :=
  {| is_toxic := Qgtb (final_score (rule_tally content).1) (5 # 10);
     toxicity_score := round (final_score (rule_tally content).1) 3;
     confidence := round (rule_confidence content) 3;
     categories := sorted_list (rule_tally content).2;
     content_length := String.length content;
     timestamp := utcnow_isoformat w;
     detector_version := "1.0.0-rule-based";
     model_used := "rule-based-patterns";
     threshold_used := None;
     raw_score := None |}.

(** The score of the model path: the probability clamped to [0, 1]. *)
Definition ml_score (p : Q) : Q := Qmax 0 (Qmin 1 p).

(** [getattr(self, 'optimal_threshold', 0.5)] and
    [getattr(self, 'max_length', 512)] *)
Definition threshold_of (d : detector) : Q :=
  from_option id (5 # 10) (optimal_threshold d).

Definition max_length_of (d : detector) : nat :=
  from_option id 512%nat (max_length d).

(** The verdict of the model path when the model gives probability [p]. *)
Definition ml_verdict (w : world) (d : detector) (content : string) (p : Q)
    : verdict :=
  {| is_toxic := Qgeb (ml_score p) (threshold_of d);
     toxicity_score := round (ml_score p) 3;
     confidence := round (ml_confidence (ml_score p) (threshold_of d)) 3;
     categories :=
       _analyze_toxicity_categories_ml (_clean_content_for_ml content)
                                       (ml_score p);
     content_length := String.length content;
     timestamp := utcnow_isoformat w;
     detector_version := "2.0.5-ml-fast";
     model_used := from_option id "toxicity-model-fast" (model_name_loaded d);
     threshold_used := Some (threshold_of d);
     raw_score := Some (round (ml_score p) 4) |}.

(** The order in which [_analyze_toxicity_categories_ml] appends. *)
Definition ml_category_order : list string :=
  ["profanity"; "hate_speech"; "harassment"; "threat"].

(** A method body that leaves every attribute as it was. *)
Definition read_only {A : Type} (m : action A) : Prop :=
  forall d, (m d).2 = d.

(** A method body that does not raise [ValueError]. *)
Definition never_value_error {A : Type} (m : action A) : Prop :=
  forall d msg, (m d).1 <> Raise (ValueError msg).

(** A sequence of calls on one object. *)
Fixpoint run_calls (calls : list (world * value)) (d : detector)
    : list (result verdict) * detector :=
  match calls with
  | [] => ([], d)
  | (w, content) :: rest =>
      let '(r, d') := check_toxicity w content d in
      let '(rs, d'') := run_calls rest d' in
      (r :: rs, d'')
  end.

(** What a call returns on the pattern path: a verdict of the rules or the
    rejection of the input. *)
Definition pattern_result (r : result verdict) : Prop :=
  match r with
  | Ok v => detector_version v = "1.0.0-rule-based"
            /\ model_used v = "rule-based-patterns"
  | Raise e => exists msg, e = ValueError msg
  end.

(** A process without the [transformers] library. *)
Definition offline : world :=
  {| transformers_available := false;
     model_load := LoadFailed (RuntimeError "transformers is not installed");
     model_probability := fun _ _ => Raise (RuntimeError "no model");
     utcnow_isoformat := "2024-01-01T00:00:00" |}.

(** A process whose local model loads, with threshold [t], and gives
    probability [p] to every text. *)
Definition serving (t p : Q) : world :=
  {| transformers_available := true;
     model_load := LoadedLocal t 512 "toxicity-model-fast";
     model_probability := fun _ _ => Ok p;
     utcnow_isoformat := "2024-01-01T00:00:00" |}.

(** A process whose model loads and then fails on every text. *)
Definition failing (t : Q) : world :=
  {| transformers_available := true;
     model_load := LoadedLocal t 512 "toxicity-model-fast";
     model_probability := fun _ _ => Raise (RuntimeError "inference failed");
     utcnow_isoformat := "2024-01-01T00:00:00" |}.

(** A process whose model cannot be loaded. *)
Definition unloadable : world :=
  {| transformers_available := true;
     model_load := LoadFailed (RuntimeError "model files are missing");
     model_probability := fun _ _ => Ok (95 # 100);
     utcnow_isoformat := "2024-01-01T00:00:00" |}.

(** The object built in a process whose local model loads. *)
Definition served_detector (t : Q) : detector :=
  {| use_ml_model := true; optimal_threshold := Some t;
     max_length := Some 512%nat;
     model_name_loaded := Some "toxicity-model-fast";
     compiled_patterns := None;
     toxicity_categories := Some (ThresholdTable ml_categories);
     severity_weights := None |}.

(** ** Characters of normalised texts *)

(** The characters of a text. *)
Definition chars (s : string) : list ascii := list_ascii_of_string s.

(** What [_clean_content] can leave in a text: a lower-case letter, one of
    the digits that stand for no letter, or a space. *)
Definition is_clean_char (c : ascii) : bool :=
  in_range 97 122 c || is_one_of ["2"; "6"; "7"; "8"; "9"]%char c
  || Ascii.eqb c " ".

(** The substitutions of [_clean_content] on one character, in their
    order. *)
Definition unleet (c : ascii) : ascii :=
  let c := if is_one_of ["4"; "@"]%char c then "a"%char else c in
  let c := if is_one_of ["3"]%char c then "e"%char else c in
  let c := if is_one_of ["1"; "!"]%char c then "i"%char else c in
  let c := if is_one_of ["0"]%char c then "o"%char else c in
  if is_one_of ["5"; "$"]%char c then "s"%char else c.

(** Lower case, then the substitutions. *)
Definition fold_char (c : ascii) : ascii := unleet (py_lower c).

(** What [_clean_content_for_ml] can leave in a text: a character of a
    word, a space, or one of the punctuation marks that it keeps. *)
Definition is_ml_char (c : ascii) : bool :=
  py_isword c || Ascii.eqb c " "
  || is_one_of ["."; "!"; "?"; ","; ";"; ":"; "-"; "'"; "034"]%char c.

(** The characters that [_clean_content] keeps at its last step. *)
Definition is_kept (c : ascii) : bool :=
  in_range 97 122 c || in_range 48 57 c || py_isspace c.

(** ** Requests and what the batch route answers for one element *)

Definition is_dict (j : json) : bool :=
  match j with JDict _ => true | _ => false end.

(** The pairs of an object, and [j.get(key)] for an object [j]. *)
Definition pairs_of (j : json) : list (string * json) :=
  match j with JDict kvs => kvs | _ => [] end.

Definition field (key : string) (j : json) : json :=
  default JNull (assoc key (pairs_of j)).

(** [null], a boolean or a number: a value without [in]. *)
Definition is_scalar (j : json) : bool :=
  match j with JNull | JBool _ | JNum _ => true | _ => false end.

(** A request that carries the JSON value [data]. *)
Definition json_request (data : json) : request :=
  {| is_json := true; get_json := Ok data |}.

(** The element of [results] for the object [yeet] at index [i]. *)
Definition batch_item_result (w : world) (d : detector) (item : nat * json)
    : batch_result :=
  match assoc "content" (pairs_of item.2) with
  | None =>
      ResultError (String.append "Missing content for yeet at index "
                                 (pretty item.1))
                  (field "yeet_id" item.2) (field "user_id" item.2)
  | Some raw =>
      match (check_toxicity w (to_value raw) d).1 with
      | Ok v => ResultVerdict v (field "yeet_id" item.2) (field "user_id" item.2)
      | Raise e =>
          ResultError (String.append "Failed to check toxicity: " (exn_str e))
                      (field "yeet_id" item.2) (field "user_id" item.2)
      end
  end.

(** * Lemmas *)

(** ** Dictionaries *)

Section dict_facts.
Implicit Types (d : dict) (k : string) (v : Q).

Lemma dict_get_set_eq d k v : dict_get k (dict_set k v d) = Some v.
Proof.
  induction d as [|[k' v'] d IH]; simpl.
  - by rewrite String.eqb_refl.
  - destruct (String.eqb k' k) eqn:E; simpl; rewrite E; auto.
Qed.

Lemma dict_get_set_ne d k k' v :
  k <> k' -> dict_get k' (dict_set k v d) = dict_get k' d.
Proof.
  intros Hne. induction d as [|[k0 v0] d IH]; simpl.
  - destruct (String.eqb_spec k k'); congruence.
  - destruct (String.eqb_spec k0 k) as [->|]; simpl.
    + destruct (String.eqb_spec k k'); congruence.
    + destruct (String.eqb_spec k0 k'); auto.
Qed.

Lemma dict_mem_keys d k : dict_mem k d = true <-> k ∈ keys d.
Proof.
  unfold dict_mem, keys. rewrite existsb_exists, list_elem_of_fmap.
  split.
  - intros ([k' v] & Hin & Heq). apply String.eqb_eq in Heq. simpl in Heq.
    subst. exists (k, v). split; [done|]. by apply list_elem_of_In.
  - intros ([k' v] & -> & Hin). exists (k', v). split.
    + by apply list_elem_of_In.
    + apply String.eqb_refl.
Qed.

Lemma dict_get_keys d k : is_Some (dict_get k d) <-> k ∈ keys d.
Proof.
  unfold keys. induction d as [|[k' v'] d IH]; csimpl.
  - split; [by intros [? ?]|by intros ?%elem_of_nil].
  - destruct (String.eqb_spec k' k) as [->|Hne].
    + split; [intros _; left|eauto].
    + rewrite IH. split; [by right|].
      intros [?|?]%elem_of_cons; [congruence|done].
Qed.

Lemma keys_dict_set d k v :
  keys (dict_set k v d) = if dict_mem k d then keys d else keys d ++ [k].
Proof.
  unfold keys, dict_mem. induction d as [|[k' v'] d IH]; csimpl; [done|].
  destruct (String.eqb_spec k' k) as [->|Hne]; csimpl; [done|].
  rewrite IH. by destruct (existsb _ d).
Qed.

Lemma fold_left_Qplus d a :
  (fold_left (fun acc kv => acc + snd kv) d a == a + Qsum d.*2)%Q.
Proof.
  revert a. induction d as [|[k v] d IH]; intros a; csimpl.
  - ring.
  - rewrite IH. simpl. ring.
Qed.

Lemma dict_sum_Qsum d : (dict_sum d == Qsum d.*2)%Q.
Proof. unfold dict_sum. rewrite fold_left_Qplus. ring. Qed.

Lemma Qsum_fmap_ext {A} (f g : A -> Q) (l : list A) :
  (forall x, x ∈ l -> (f x == g x)%Q) -> (Qsum (f <$> l) == Qsum (g <$> l))%Q.
Proof.
  induction l as [|x l IH]; intros Hfg; csimpl; [reflexivity|].
  rewrite (Hfg x), IH; [reflexivity| |left].
  intros y Hy. apply Hfg. by right.
Qed.

Lemma Qsum_Permutation (l1 l2 : list Q) :
  l1 ≡ₚ l2 -> (Qsum l1 == Qsum l2)%Q.
Proof.
  induction 1 as [|x l1 l2 _ IH|x y l|l1 l2 l3 _ IH1 _ IH2]; simpl.
  - reflexivity.
  - by rewrite IH.
  - ring.
  - by rewrite IH1.
Qed.

(** With distinct keys, the sum of the values is the sum over the keys of
    any function that agrees with the dictionary. *)
Lemma dict_sum_by_key d (f : string -> Q) :
  NoDup (keys d) ->
  (forall k v, dict_get k d = Some v -> (v == f k)%Q) ->
  (dict_sum d == Qsum (f <$> keys d))%Q.
Proof.
  rewrite dict_sum_Qsum. unfold keys.
  induction d as [|[k v] d IH]; csimpl; intros Hnd Hget; [reflexivity|].
  apply NoDup_cons in Hnd as [Hk Hnd].
  rewrite (Hget k v); [|by rewrite String.eqb_refl].
  rewrite IH; [reflexivity|done|].
  intros k' v' Hk'. apply Hget.
  destruct (String.eqb_spec k k') as [->|]; [|done].
  exfalso. apply Hk. apply dict_get_keys. eauto.
Qed.
End dict_facts.

(** ** Running method bodies *)

Lemma bind_run {A B} (m : action A) (f : A -> action B) (d : detector) :
  (m ≫= f) d =
  match m d with
  | (Ok a, d') => f a d'
  | (Raise e, d') => (Raise e, d')
  end.
Proof. reflexivity. Qed.

Lemma ret_run {A} (a : A) (d : detector) : (mret a : action A) d = (Ok a, d).
Proof. reflexivity. Qed.

Lemma for_each_app {A B} (body : A -> B -> action A) (a : A) (l1 l2 : list B)
    (d : detector) :
  for_each body a (l1 ++ l2) d =
  match for_each body a l1 d with
  | (Ok a', d') => for_each body a' l2 d'
  | (Raise e, d') => (Raise e, d')
  end.
Proof.
  revert a d. induction l1 as [|x l1 IH]; intros a d; simpl; [done|].
  rewrite !bind_run. destruct (body a x d) as [[a'|e] d']; [apply IH|done].
Qed.

(** ** The loops run as the fold *)

Section scoring.
Variable items : list (string * list nat).
Variable weights : dict.

Variable d : detector.
Hypothesis d_items : toxicity_categories d = Some (PatternTable items).
Hypothesis d_weights : severity_weights d = Some weights.

Lemma score_items_run (i : nat) (its : list (string * list nat))
    (acc : dict * gset string) :
  (forall item, item ∈ its -> is_Some (dict_get item.1 weights)) ->
  for_each (score_item i) acc its d
  = (Ok (fold_left (add_hit weights) (owners its i) acc), d).
Proof.
  revert acc. induction its as [|[c idxs] its IH]; intros acc Hw; [done|].
  destruct (Hw (c, idxs)) as [wv Hwv]; [left|]. simpl in Hwv.
  assert (Hits : forall item, item ∈ its -> is_Some (dict_get item.1 weights))
    by (intros; apply Hw; by right).
  simpl for_each. rewrite bind_run. destruct acc as [cs ids].
  unfold owners. rewrite filter_cons. simpl.
  unfold score_item. case_bool_decide as Hin.
  - rewrite decide_True by done. csimpl.
    rewrite bind_run. unfold severity_weight. rewrite bind_run.
    unfold getattr. rewrite d_weights, Hwv, ret_run, ret_run.
    rewrite IH by done. unfold add_hit, weight_of. simpl. by rewrite Hwv.
  - rewrite decide_False by done. rewrite ret_run. by apply IH.
Qed.

Hypothesis weights_total :
  forall item, item ∈ items -> is_Some (dict_get item.1 weights).

Lemma score_match_run (acc : dict * gset string) (m : pattern_match) :
  score_match acc m d = (Ok (fold_left (add_hit weights) (owners items m.2) acc), d).
Proof.
  unfold score_match, category_items. rewrite !bind_run.
  unfold getattr. rewrite d_items, ret_run.
  by apply score_items_run.
Qed.

Lemma for_each_score_match_run (ms : list pattern_match)
    (acc : dict * gset string) :
  for_each score_match acc ms d = (Ok (fold_left (add_hit weights) (hits items ms) acc), d).
Proof.
  revert acc. induction ms as [|m ms IH]; intros acc; [done|].
  simpl for_each. rewrite bind_run, score_match_run, IH.
  unfold hits. csimpl. by rewrite fold_left_app.
Qed.

Lemma score_matches_run (ms : list pattern_match) :
  score_matches ms d = (Ok (fold_left (add_hit weights) (hits items ms) ([], ∅)), d).
Proof. apply for_each_score_match_run. Qed.
End scoring.

(** ** What the fold computes *)

Lemma count_app c hs1 hs2 : count c (hs1 ++ hs2) = (count c hs1 + count c hs2)%nat.
Proof. unfold count. by rewrite filter_app, length_app. Qed.

Lemma count_zero c hs : count c hs = 0%nat <-> c ∉ hs.
Proof.
  unfold count. split.
  - intros Hlen Hin. apply length_zero_iff_nil in Hlen.
    assert (c ∈ filter (eq c) hs) as Hc by (by apply list_elem_of_filter).
    rewrite Hlen in Hc. by apply elem_of_nil in Hc.
  - intros Hnot. apply length_zero_iff_nil.
    apply elem_of_nil_inv. intros x [<- Hx]%list_elem_of_filter. done.
Qed.

Lemma count_singleton c x :
  count c [x] = if decide (c = x) then 1%nat else 0%nat.
Proof. unfold count. rewrite filter_cons. by destruct (decide (c = x)). Qed.

Section tally.
Variable weights : dict.

Lemma tally_inv_nil : tally_inv weights [] ([], ∅).
Proof.
  split; simpl.
  - constructor.
  - done.
  - done.
  - intros c. by rewrite elem_of_empty, elem_of_nil.
Qed.

Lemma tally_inv_snoc hs acc c :
  tally_inv weights hs acc -> tally_inv weights (hs ++ [c]) (add_hit weights acc c).
Proof.
  intros [Hnd Hkeys Hvals Hids]. destruct acc as [cs ids]. simpl in *.
  unfold add_hit. simpl.
  destruct (dict_mem c cs) eqn:Hmem.
  - pose proof (proj1 (dict_mem_keys cs c) Hmem) as Hc.
    destruct (proj2 (dict_get_keys cs c) Hc) as [v0 Hv0].
    split; simpl.
    + by rewrite keys_dict_set, Hmem.
    + intros x. rewrite keys_dict_set, Hmem, Hkeys.
      rewrite elem_of_app, list_elem_of_singleton.
      split; [by left|]. intros [?| ->]; [done|by apply Hkeys].
    + intros x v. rewrite count_app, count_singleton.
      destruct (decide (x = c)) as [->|Hne].
      * rewrite dict_get_set_eq, Hv0. intros [= <-]. simpl.
        rewrite (Hvals c v0 Hv0), Nat2Z.inj_add, inject_Z_plus. simpl. ring.
      * rewrite dict_get_set_ne by done. intros Hx.
        rewrite (Hvals x v Hx), Nat.add_0_r. reflexivity.
    + intros x. rewrite elem_of_union, elem_of_singleton, Hids.
      rewrite elem_of_app, list_elem_of_singleton. tauto.
  - assert (c ∉ keys cs) as Hc.
    { intros Hc%dict_mem_keys. congruence. }
    assert (dict_mem c (dict_set c 0%Q cs) = true) as Hmem'.
    { apply dict_mem_keys, dict_get_keys. rewrite dict_get_set_eq. eauto. }
    split; simpl.
    + rewrite keys_dict_set, Hmem', keys_dict_set, Hmem.
      apply NoDup_app. split_and!; [done| |apply NoDup_singleton].
      intros x Hx ->%list_elem_of_singleton. done.
    + intros x. rewrite keys_dict_set, Hmem', keys_dict_set, Hmem.
      rewrite !elem_of_app, Hkeys. done.
    + intros x v. rewrite count_app, count_singleton.
      destruct (decide (x = c)) as [->|Hne].
      * rewrite !dict_get_set_eq. intros [= <-]. simpl.
        assert (count c hs = 0%nat) as ->.
        { apply count_zero. by rewrite <-Hkeys. }
        simpl. ring.
      * rewrite !dict_get_set_ne by done. intros Hx.
        rewrite (Hvals x v Hx), Nat.add_0_r. reflexivity.
    + intros x. rewrite elem_of_union, elem_of_singleton, Hids.
      rewrite elem_of_app, list_elem_of_singleton. tauto.
Qed.

Lemma tally_ok hs : tally_inv weights hs (tally weights hs).
Proof.
  unfold tally. induction hs as [|c hs IH] using rev_ind.
  - apply tally_inv_nil.
  - rewrite fold_left_app. simpl. by apply tally_inv_snoc.
Qed.
End tally.

Section hits_facts.
Variable items : list (string * list nat).

Lemma owners_cons (c : string) (idxs : list nat) its i :
  owners ((c, idxs) :: its) i
  = (if decide (i ∈ idxs) then [c] else []) ++ owners its i.
Proof.
  unfold owners. rewrite filter_cons. simpl.
  by destruct (decide (i ∈ idxs)).
Qed.

Lemma owners_subset its i c : c ∈ owners its i -> c ∈ its.*1.
Proof.
  unfold owners. intros ([c' idxs] & -> & Hin%list_elem_of_filter)%list_elem_of_fmap.
  apply list_elem_of_fmap. exists (c', idxs). by destruct Hin.
Qed.

Lemma count_owners its i c idxs :
  NoDup its.*1 -> (c, idxs) ∈ its ->
  count c (owners its i) = if decide (i ∈ idxs) then 1%nat else 0%nat.
Proof.
  induction its as [|[c0 idxs0] its IH]; csimpl; intros Hnd Hin.
  - by apply elem_of_nil in Hin.
  - apply NoDup_cons in Hnd as [Hc0 Hnd].
    rewrite owners_cons, count_app.
    apply elem_of_cons in Hin as [[= <- <-]|Hin].
    + assert (count c (owners its i) = 0%nat) as ->.
      { apply count_zero. intros H%owners_subset. done. }
      destruct (decide (i ∈ idxs)); [|done].
      rewrite count_singleton, decide_True; done.
    + assert (c <> c0) as Hne.
      { intros ->. apply Hc0, list_elem_of_fmap. by exists (c0, idxs). }
      rewrite IH by done.
      destruct (decide (i ∈ idxs0)); [|done].
      rewrite count_singleton, decide_False; done.
Qed.

Lemma count_hits ms c idxs :
  NoDup items.*1 -> (c, idxs) ∈ items ->
  count c (hits items ms) = Spec.occurrences ms idxs.
Proof.
  intros Hnd Hin. unfold hits, Spec.occurrences.
  induction ms as [|m ms IH]; csimpl; [done|].
  rewrite count_app, IH, (count_owners _ _ _ idxs), filter_cons by done.
  by destruct (decide (m.2 ∈ idxs)).
Qed.

Lemma occurrences_nonzero ms idxs :
  Spec.occurrences ms idxs <> 0%nat <-> exists m, m ∈ ms /\ m.2 ∈ idxs.
Proof.
  unfold Spec.occurrences. rewrite length_zero_iff_nil. split.
  - intros Hne. destruct (filter _ ms) as [|m l] eqn:E; [done|].
    assert (m ∈ filter (fun m => m.2 ∈ idxs) ms) as Hm by (rewrite E; left).
    apply list_elem_of_filter in Hm as [? ?]. eauto.
  - intros (m & Hm & Hi) E.
    assert (m ∈ filter (fun m => m.2 ∈ idxs) ms) as Hm'
      by (by apply list_elem_of_filter).
    rewrite E in Hm'. by apply elem_of_nil in Hm'.
Qed.

Lemma elem_of_hits ms c :
  c ∈ hits items ms <-> c ∈ (Spec.matched_categories items ms).*1.
Proof.
  unfold hits, Spec.matched_categories.
  rewrite list_elem_of_bind, list_elem_of_fmap. split.
  - intros (m & Hc & Hm). unfold owners in Hc.
    apply list_elem_of_fmap in Hc as ([c' idxs] & -> & [Hi Hin]%list_elem_of_filter).
    exists (c', idxs). split; [done|]. apply list_elem_of_filter. split; [|done].
    apply occurrences_nonzero. eauto.
  - intros ([c' idxs] & -> & [Hocc Hin]%list_elem_of_filter).
    apply occurrences_nonzero in Hocc as (m & Hm & Hi).
    exists m. split; [|done]. unfold owners.
    apply list_elem_of_fmap. exists (c', idxs). split; [done|].
    by apply list_elem_of_filter.
Qed.

Lemma matched_names_NoDup ms :
  NoDup items.*1 -> NoDup (Spec.matched_categories items ms).*1.
Proof.
  intros Hnd. eapply sublist_NoDup; [exact Hnd|].
  apply fmap_sublist, sublist_filter.
Qed.
End hits_facts.

(** ** [_calculate_toxicity_score] on an object initialised for the rules *)

Lemma sorted_list_empty : sorted_list ∅ = [].
Proof. unfold sorted_list. by rewrite elements_empty. Qed.

Section calculate.
Variable items : list (string * list nat).
Variable weights : dict.
Variable d : detector.
Hypothesis d_items : toxicity_categories d = Some (PatternTable items).
Hypothesis d_weights : severity_weights d = Some weights.
Hypothesis weights_total :
  forall item, item ∈ items -> is_Some (dict_get item.1 weights).
Hypothesis items_nodup : NoDup items.*1.

Lemma calculate_run (ms : list pattern_match) :
  _calculate_toxicity_score ms d
  = (Ok (final_score (tally weights (hits items ms)).1,
         sorted_list (tally weights (hits items ms)).2), d).
Proof.
  unfold _calculate_toxicity_score. case_bool_decide as Hms.
  - subst ms. rewrite ret_run. unfold hits, tally. csimpl.
    by rewrite sorted_list_empty.
  - rewrite bind_run, (score_matches_run items weights) by done.
    fold (tally weights (hits items ms)).
    by destruct (tally weights (hits items ms)).
Qed.

Lemma tally_keys_matched (ms : list pattern_match) :
  keys (tally weights (hits items ms)).1
  ≡ₚ (Spec.matched_categories items ms).*1.
Proof.
  pose proof (tally_ok weights (hits items ms)) as [Hnd Hkeys _ _].
  apply NoDup_Permutation; [done|by apply matched_names_NoDup|].
  intros c. by rewrite Hkeys, elem_of_hits.
Qed.

Lemma tally_sum_matched (ms : list pattern_match) :
  (dict_sum (tally weights (hits items ms)).1
   == Qsum (Spec.accumulated_weight weights ms
            <$> Spec.matched_categories items ms))%Q.
Proof.
  pose proof (tally_ok weights (hits items ms)) as [Hnd _ Hvals _].
  rewrite (dict_sum_by_key _
    (fun c => inject_Z (Z.of_nat (count c (hits items ms))) * weight_of weights c)%Q)
    by done.
  rewrite (Qsum_Permutation _ _
    (fmap_Permutation _ _ _ (tally_keys_matched ms))).
  rewrite <-list_fmap_compose. apply Qsum_fmap_ext.
  intros [c idxs] [_ Hin]%list_elem_of_filter.
  unfold Spec.accumulated_weight. simpl.
  by rewrite (count_hits items ms c idxs).
Qed.

Lemma final_score_mean (ms : list pattern_match) :
  (final_score (tally weights (hits items ms)).1
   == Spec.mean_score items weights ms)%Q.
Proof.
  pose proof (tally_keys_matched ms) as Hperm.
  pose proof (tally_sum_matched ms) as Hsum.
  unfold final_score, Spec.mean_score.
  assert (length (tally weights (hits items ms)).1
          = length (Spec.matched_categories items ms)) as Hlen.
  { apply Permutation_length in Hperm. unfold keys in Hperm.
    by rewrite !length_fmap in Hperm. }
  case_bool_decide as Hcs; destruct (decide _) as [Hm|Hm].
  - rewrite Hm in Hlen. by apply length_zero_iff_nil in Hlen.
  - rewrite Hlen. apply Q.min_compat; [reflexivity|]. by rewrite Hsum.
  - reflexivity.
  - rewrite Hcs in Hlen. simpl in Hlen.
    symmetry in Hlen. by apply length_zero_iff_nil in Hlen.
Qed.
End calculate.

(** ** Objects that [__init__] builds *)

Lemma constructed_rule w use_ml d :
  constructed w use_ml d -> use_ml_model d = false -> d = rule_detector.
Proof.
  unfold constructed, __init__, _initialize_ml_model.
  rewrite !bind_run. unfold setattr, read. simpl.
  destruct (use_ml && transformers_available w); simpl.
  - unfold try_except. rewrite bind_run.
    destruct (model_load w); simpl; intros [= <-] Hmode;
      first [discriminate Hmode | reflexivity].
  - by intros [= <-].
Qed.

Lemma constructed_ml w use_ml d :
  constructed w use_ml d -> use_ml_model d = true ->
  compiled_patterns d = None /\ severity_weights d = None
  /\ toxicity_categories d = Some (ThresholdTable ml_categories).
Proof.
  unfold constructed, __init__, _initialize_ml_model.
  rewrite !bind_run. unfold setattr, read. simpl.
  destruct (use_ml && transformers_available w); simpl.
  - unfold try_except. rewrite bind_run.
    destruct (model_load w); simpl; intros [= <-]; simpl; try done.
  - by intros [= <-].
Qed.

Lemma constructed_mode w use_ml d :
  constructed w use_ml d ->
  use_ml_model d = true ->
  use_ml = true /\ transformers_available w = true
  /\ forall e, model_load w <> LoadFailed e.
Proof.
  unfold constructed, __init__, _initialize_ml_model.
  rewrite !bind_run. unfold setattr, read. simpl.
  destruct use_ml, (transformers_available w); simpl;
    try (by intros [= <-]).
  unfold try_except. rewrite bind_run.
  destruct (model_load w); simpl; intros [= <-]; simpl; try done.
Qed.

(** ** The two paths of [check_toxicity] *)

Lemma check_toxicity_str w content d :
  content <> "" ->
  check_toxicity w (VStr content) d
  = if use_ml_model d then _check_toxicity_ml w content d
    else _check_toxicity_rule_based w content d.
Proof.
  intros Hne. unfold check_toxicity. simpl.
  destruct (String.eqb_spec content ""); [done|]. simpl.
  rewrite bind_run. unfold read. by destruct (use_ml_model d).
Qed.

Lemma rule_weights_total :
  forall item, item ∈ rule_categories -> is_Some (dict_get item.1 rule_weights).
Proof.
  intros item Hin. unfold rule_categories in Hin.
  repeat (apply elem_of_cons in Hin as [->|Hin]; [simpl; eauto|]).
  by apply elem_of_nil in Hin.
Qed.

Lemma rule_categories_NoDup : NoDup rule_categories.*1.
Proof. apply (bool_decide_unpack _). by vm_compute. Qed.

Lemma rule_calculate_run ms :
  _calculate_toxicity_score ms rule_detector
  = (Ok (final_score (tally rule_weights (hits rule_categories ms)).1,
         sorted_list (tally rule_weights (hits rule_categories ms)).2),
     rule_detector).
Proof.
  apply calculate_run; [done|done|apply rule_weights_total].
Qed.

Lemma rule_based_run w content :
  _check_toxicity_rule_based w content rule_detector
  = (Ok (rule_verdict w content), rule_detector).
Proof.
  unfold _check_toxicity_rule_based, _find_toxic_patterns.
  rewrite !bind_run. unfold getattr. simpl compiled_patterns. cbv iota.
  rewrite ret_run, bind_run.
  fold (rule_matches content). by rewrite rule_calculate_run.
Qed.

Lemma ml_run w d content p :
  model_probability w (_clean_content_for_ml content) (max_length_of d) = Ok p ->
  _check_toxicity_ml w content d = (Ok (ml_verdict w d content p), d).
Proof.
  intros Hp. unfold _check_toxicity_ml, try_except.
  rewrite !bind_run. unfold getattr_default, lift.
  fold (max_length_of d). by rewrite Hp.
Qed.

Lemma ml_failure_run w d content e :
  model_probability w (_clean_content_for_ml content) (max_length_of d) = Raise e ->
  compiled_patterns d = None ->
  _check_toxicity_ml w content d = (Raise (AttributeError "compiled_patterns"), d).
Proof.
  intros Hp Hnone. unfold _check_toxicity_ml, try_except.
  rewrite !bind_run. unfold getattr_default, lift.
  fold (max_length_of d). rewrite Hp.
  unfold _check_toxicity_rule_based, _find_toxic_patterns.
  rewrite !bind_run. unfold getattr. by rewrite Hnone.
Qed.

(** ** Order of strings, and rounding *)

#[global] Instance str_le_total : Total str_le.
Proof. intros a b. apply String.leb_total. Qed.

Lemma sorted_list_Sorted (s : gset string) : Sorted str_le (sorted_list s).
Proof. apply (Sorted_merge_sort str_le). Qed.

Lemma sorted_list_Permutation (s : gset string) : sorted_list s ≡ₚ elements s.
Proof. apply (merge_sort_Permutation str_le). Qed.

Lemma sorted_list_NoDup (s : gset string) : NoDup (sorted_list s).
Proof. rewrite sorted_list_Permutation. apply NoDup_elements. Qed.

Lemma elem_of_sorted_list (s : gset string) c : c ∈ sorted_list s <-> c ∈ s.
Proof. by rewrite sorted_list_Permutation, elem_of_elements. Qed.

Lemma round_half_even_bounds (y : Q) :
  (Qfloor y <= round_half_even y <= Qfloor y + 1)%Z.
Proof.
  unfold round_half_even.
  destruct (y - inject_Z (Qfloor y) ?= 1 # 2)%Q; [destruct (Z.even _)|..]; lia.
Qed.

Lemma round_half_even_ge (k : Z) (y : Q) :
  (inject_Z k <= y)%Q -> (k <= round_half_even y)%Z.
Proof.
  intros Hk. pose proof (round_half_even_bounds y) as [Hlo _].
  apply Qfloor_resp_le in Hk. rewrite Qfloor_Z in Hk. lia.
Qed.

Lemma round_half_even_le (k : Z) (y : Q) :
  (y <= inject_Z k)%Q -> (round_half_even y <= k)%Z.
Proof.
  intros Hk. pose proof (round_half_even_bounds y) as [_ Hhi].
  pose proof (Qfloor_resp_le _ _ Hk) as Hfl. rewrite Qfloor_Z in Hfl.
  destruct (decide (Qfloor y = k)) as [Heq|Hne]; [|lia].
  unfold round_half_even. rewrite Heq.
  destruct (Qcompare_spec (y - inject_Z k) (1 # 2)); [lra|lia|lra].
Qed.

#[global] Instance round_half_even_proper : Proper (Qeq ==> eq) round_half_even.
Proof.
  intros x y Hxy. unfold round_half_even.
  rewrite (Qfloor_comp _ _ Hxy).
  assert (x - inject_Z (Qfloor y) == y - inject_Z (Qfloor y))%Q as ->
    by (by rewrite Hxy).
  done.
Qed.

#[global] Instance round_proper : Proper (Qeq ==> eq ==> Qeq) round.
Proof.
  intros x y Hxy n ? <-. unfold round.
  assert (x * inject_Z (10 ^ Z.of_nat n) == y * inject_Z (10 ^ Z.of_nat n))%Q
    as Hs by (by rewrite Hxy).
  by rewrite (round_half_even_proper _ _ Hs).
Qed.

Lemma round3_multiple (x : Q) :
  (round x 3 == round_half_even (x * 1000) # 1000)%Q.
Proof. unfold round. simpl. by rewrite (Qmake_Qdiv _ 1000). Qed.

Lemma round3_ge (k : Z) (x : Q) :
  (k # 1000 <= x)%Q -> (k # 1000 <= round x 3)%Q.
Proof.
  intros Hk. rewrite round3_multiple.
  assert (k <= round_half_even (x * 1000))%Z as Hle.
  { apply round_half_even_ge. revert Hk. unfold Qle. simpl.
    rewrite Pos.mul_1_r. lia. }
  unfold Qle. simpl. lia.
Qed.

Lemma round3_le (k : Z) (x : Q) :
  (x <= k # 1000)%Q -> (round x 3 <= k # 1000)%Q.
Proof.
  intros Hk. rewrite round3_multiple.
  assert (round_half_even (x * 1000) <= k)%Z as Hle.
  { apply round_half_even_le. revert Hk. unfold Qle. simpl.
    rewrite Pos.mul_1_r. lia. }
  unfold Qle. simpl. lia.
Qed.

Lemma round_half_even_mono (x y : Q) :
  (x <= y)%Q -> (round_half_even x <= round_half_even y)%Z.
Proof.
  intros Hxy. pose proof (Qfloor_resp_le _ _ Hxy) as Hfl.
  pose proof (round_half_even_bounds x) as [_ Hx].
  pose proof (round_half_even_bounds y) as [Hy _].
  destruct (decide (Qfloor x = Qfloor y)) as [Heq|Hne]; [|lia].
  unfold round_half_even. rewrite Heq.
  destruct (Qcompare_spec (x - inject_Z (Qfloor y)) (1 # 2)),
           (Qcompare_spec (y - inject_Z (Qfloor y)) (1 # 2));
    try lia; try lra; destruct (Z.even (Qfloor y)); lia.
Qed.

(** [round(_, 3)] is monotone. *)
Lemma round3_mono (x y : Q) : (x <= y)%Q -> (round x 3 <= round y 3)%Q.
Proof.
  intros Hxy. rewrite !round3_multiple.
  assert (round_half_even (x * 1000) <= round_half_even (y * 1000))%Z
    by (apply round_half_even_mono; lra).
  unfold Qle. simpl. lia.
Qed.

Lemma round_half_even_near (y : Q) :
  (y - (1 # 2) <= inject_Z (round_half_even y) <= y + (1 # 2))%Q.
Proof.
  pose proof (Qfloor_le y) as Hlo. pose proof (Qlt_floor y) as Hhi.
  rewrite inject_Z_plus in Hhi. change (inject_Z 1) with 1%Q in Hhi.
  unfold round_half_even.
  destruct (Qcompare_spec (y - inject_Z (Qfloor y)) (1 # 2)) as [He|Hl|Hg];
    [destruct (Z.even (Qfloor y))|..];
    rewrite ?inject_Z_plus; change (inject_Z 1) with 1%Q; lra.
Qed.

(** [round(x, 3)] is within 0.0005 of [x]. *)
Lemma round3_near (x : Q) : (x - (1 # 2000) <= round x 3 <= x + (1 # 2000))%Q.
Proof.
  pose proof (round_half_even_near (x * 1000)) as [Hlo Hhi].
  rewrite round3_multiple.
  set (k := round_half_even (x * 1000)) in *.
  assert (k # 1000 == inject_Z k * (1 # 1000))%Q as ->.
  { unfold Qeq, Qmult, inject_Z. simpl. lia. }
  lra.
Qed.

(** ** Methods that only read the object *)

Lemma read_only_ret {A} (a : A) : read_only (mret a : action A).
Proof. by intros d. Qed.

Lemma read_only_raise {A} (e : exn) : read_only (raise e : action A).
Proof. by intros d. Qed.

Lemma read_only_lift {A} (r : result A) : read_only (lift r).
Proof. by intros d. Qed.

Lemma read_only_read {A} (field : detector -> A) : read_only (read field).
Proof. by intros d. Qed.

Lemma read_only_getattr {A} name (field : detector -> option A) :
  read_only (getattr name field).
Proof. intros d. unfold getattr. by destruct (field d). Qed.

Lemma read_only_getattr_default {A} (field : detector -> option A) default :
  read_only (getattr_default field default).
Proof. by intros d. Qed.

Lemma read_only_bind {A B} (m : action A) (f : A -> action B) :
  read_only m -> (forall a, read_only (f a)) -> read_only (m ≫= f).
Proof.
  intros Hm Hf d. rewrite bind_run. specialize (Hm d).
  destruct (m d) as [[a|e] d']; simpl in Hm; subst d'; [apply Hf|done].
Qed.

Lemma read_only_try_except {A} (body : action A) (handler : exn -> action A) :
  read_only body -> (forall e, read_only (handler e)) ->
  read_only (try_except body handler).
Proof.
  intros Hm Hh d. unfold try_except. specialize (Hm d).
  destruct (body d) as [[a|e] d']; simpl in Hm; subst d'; [done|apply Hh].
Qed.

Lemma read_only_for_each {A B} (body : A -> B -> action A) (a : A) (l : list B) :
  (forall a x, read_only (body a x)) -> read_only (for_each body a l).
Proof.
  intros Hbody. revert a. induction l as [|x l IH]; intros a; simpl.
  - apply read_only_ret.
  - apply read_only_bind; auto.
Qed.

Create HintDb frame discriminated.
#[local] Hint Resolve read_only_ret read_only_raise read_only_lift
  read_only_read read_only_getattr read_only_getattr_default
  read_only_bind read_only_try_except read_only_for_each : frame.

Lemma read_only_severity_weight category : read_only (severity_weight category).
Proof.
  unfold severity_weight. apply read_only_bind; [auto with frame|].
  intros ws. destruct (dict_get category ws); auto with frame.
Qed.

Lemma read_only_score_item i acc item : read_only (score_item i acc item).
Proof.
  destruct acc as [cs ids], item as [c idxs]. unfold score_item.
  case_bool_decide; [|auto with frame].
  apply read_only_bind; [apply read_only_severity_weight|auto with frame].
Qed.

Lemma read_only_score_match acc m : read_only (score_match acc m).
Proof.
  unfold score_match, category_items.
  apply read_only_bind.
  - apply read_only_bind; [auto with frame|].
    intros [t|t]; auto with frame.
  - intros items. apply read_only_for_each. apply read_only_score_item.
Qed.

Lemma read_only_calculate ms : read_only (_calculate_toxicity_score ms).
Proof.
  unfold _calculate_toxicity_score, score_matches.
  case_bool_decide; [auto with frame|].
  apply read_only_bind.
  - apply read_only_for_each. apply read_only_score_match.
  - intros [cs ids]. auto with frame.
Qed.

Lemma read_only_rule_based w content :
  read_only (_check_toxicity_rule_based w content).
Proof.
  unfold _check_toxicity_rule_based, _find_toxic_patterns.
  apply read_only_bind; [auto with frame|]. intros ms.
  apply read_only_bind; [apply read_only_calculate|].
  intros [score cats]. auto with frame.
Qed.

Lemma read_only_ml w content : read_only (_check_toxicity_ml w content).
Proof.
  unfold _check_toxicity_ml.
  apply read_only_try_except; [|intros; apply read_only_rule_based].
  repeat (apply read_only_bind; [auto with frame|intros ?]).
  auto with frame.
Qed.

Lemma read_only_check_toxicity w content : read_only (check_toxicity w content).
Proof.
  unfold check_toxicity.
  destruct (negb (truthy content) || negb (is_str content)); [auto with frame|].
  apply read_only_bind; [auto with frame|].
  intros [|]; [apply read_only_ml|apply read_only_rule_based].
Qed.

(** * Verified properties *)

Lemma constructed_offline : constructed offline false rule_detector.
Proof. reflexivity. Qed.

Lemma constructed_serving t p : constructed (serving t p) true (served_detector t).
Proof. reflexivity. Qed.

Lemma constructed_failing t : constructed (failing t) true (served_detector t).
Proof. reflexivity. Qed.

Lemma constructed_unloadable : constructed unloadable true rule_detector.
Proof. reflexivity. Qed.

(** C1, as stated, fails: on the pattern path the text
    "you are an idiot and a moron" matches no pattern, so the verdict has
    no category and is not toxic. *)
Lemma C1_idiot_and_moron_is_not_flagged :
  exists v,
    check_toxicity offline (VStr "you are an idiot and a moron") rule_detector
    = (Ok v, rule_detector)
    /\ ~ (categories v <> [] /\ "harassment" ∈ categories v /\ is_toxic v = true).
Proof.
  eexists. split.
  - rewrite check_toxicity_str by done. apply rule_based_run.
  - intros (Hne & _ & _). apply Hne. by vm_compute.
Qed.

(** C1, amended: on the pattern path the text
    "you are an idiot and a moron" yields no category, score 0 and
    [is_toxic = false], because the harassment pattern fires only when one
    of its keywords is followed, later in the text, by "person", "people" or
    "you"; with the keywords first ("idiot and moron you are") the verdict
    has the category harassment and is toxic. *)
Theorem C1_pattern_path_needs_keyword_before_target
    (w0 : world) (use_ml : bool) (d : detector) (w : world) :
  constructed w0 use_ml d -> use_ml_model d = false ->
  (exists v,
     check_toxicity w (VStr "you are an idiot and a moron") d = (Ok v, d)
     /\ categories v = [] /\ is_toxic v = false
     /\ (toxicity_score v == 0)%Q)
  /\ (exists v,
        check_toxicity w (VStr "idiot and moron you are") d = (Ok v, d)
        /\ categories v = ["harassment"] /\ is_toxic v = true
        /\ (toxicity_score v == 7 # 10)%Q).
Proof.
  intros Hc Hmode. rewrite (constructed_rule _ _ _ Hc Hmode).
  split; eexists; (split; [rewrite check_toxicity_str by done;
                            apply rule_based_run|]);
    by vm_compute.
Qed.

(** C1, amended, for the object built without the library. *)
Lemma C1_pattern_path_witness :
  (exists v,
     check_toxicity offline (VStr "you are an idiot and a moron") rule_detector
     = (Ok v, rule_detector)
     /\ categories v = [] /\ is_toxic v = false
     /\ (toxicity_score v == 0)%Q)
  /\ (exists v,
        check_toxicity offline (VStr "idiot and moron you are") rule_detector
        = (Ok v, rule_detector)
        /\ categories v = ["harassment"] /\ is_toxic v = true
        /\ (toxicity_score v == 7 # 10)%Q).
Proof.
  apply (C1_pattern_path_needs_keyword_before_target offline false).
  - reflexivity.
  - reflexivity.
Defined.

(** C2: when the model raises during a call on an object that was
    initialised in model mode, [check_toxicity] does not return the verdict
    of the rules: the fallback reads [self.compiled_patterns], which
    [_initialize_ml_model] never assigns, and the [AttributeError] reaches
    the caller. *)
Theorem C2_fallback_raises_attribute_error
    (w0 : world) (use_ml : bool) (d : detector)
    (w : world) (content : string) (e : exn) :
  constructed w0 use_ml d -> use_ml_model d = true -> content <> "" ->
  model_probability w (_clean_content_for_ml content) (max_length_of d) = Raise e ->
  check_toxicity w (VStr content) d
  = (Raise (AttributeError "compiled_patterns"), d).
Proof.
  intros Hc Hmode Hne Hp.
  destruct (constructed_ml _ _ _ Hc Hmode) as (Hnone & _ & _).
  rewrite check_toxicity_str, Hmode by done.
  by apply (ml_failure_run w d content e).
Qed.

(** C2 for the text "hello" and a model that raises. *)
Lemma C2_fallback_witness :
  check_toxicity (failing (1 # 2)) (VStr "hello") (served_detector (1 # 2))
  = (Raise (AttributeError "compiled_patterns"), served_detector (1 # 2)).
Proof.
  apply (C2_fallback_raises_attribute_error (failing (1 # 2)) true
           (served_detector (1 # 2)) (failing (1 # 2)) "hello"
           (RuntimeError "inference failed")).
  - reflexivity.
  - reflexivity.
  - discriminate.
  - reflexivity.
Defined.

Lemma rule_detector_calls (calls : list (world * value)) :
  (run_calls calls rule_detector).2 = rule_detector
  /\ Forall pattern_result (run_calls calls rule_detector).1.
Proof.
  induction calls as [|[w content] calls [IHd IHr]]; simpl; [by split|].
  assert (exists r, check_toxicity w content rule_detector = (r, rule_detector)
                    /\ pattern_result r) as (r & -> & Hr).
  { unfold check_toxicity.
    destruct (negb (truthy content) || negb (is_str content)) eqn:Hguard.
    - eexists. split; [reflexivity|]. simpl. eauto.
    - rewrite bind_run. simpl. rewrite rule_based_run.
      eexists. split; [reflexivity|]. by simpl. }
  destruct (run_calls calls rule_detector) as [rs d'']. simpl in *.
  split; [done|by constructor].
Qed.

(** C8: a call leaves the object as it was, whatever the model did, so
    after a failure of the model the next call runs the model again; when
    loading the model fails in [__init__], the object is in pattern mode
    and every later call stays on the pattern path. *)
Theorem C8_strategy_changes_only_at_construction
    (w0 : world) (use_ml : bool) (d : detector) :
  constructed w0 use_ml d ->
  (forall w content, (check_toxicity w content d).2 = d)
  /\ (use_ml_model d = true ->
      forall w1 content1 e,
        model_probability w1 (_clean_content_for_ml content1) (max_length_of d)
        = Raise e ->
        let d' := (check_toxicity w1 (VStr content1) d).2 in
        d' = d /\ use_ml_model d' = true
        /\ forall w2 content2 p,
             content2 <> "" ->
             model_probability w2 (_clean_content_for_ml content2)
                               (max_length_of d) = Ok p ->
             check_toxicity w2 (VStr content2) d'
             = (Ok (ml_verdict w2 d content2 p), d'))
  /\ (use_ml = true -> transformers_available w0 = true ->
      (exists e, model_load w0 = LoadFailed e) ->
      use_ml_model d = false
      /\ forall calls,
           (run_calls calls d).2 = d
           /\ Forall pattern_result (run_calls calls d).1).
Proof.
  intros Hc. split_and!.
  - intros w content. apply read_only_check_toxicity.
  - intros Hmode w1 content1 e Hfail d'.
    assert (d' = d) as -> by apply read_only_check_toxicity.
    split_and!; [done..|].
    intros w2 content2 p Hne Hp.
    rewrite check_toxicity_str, Hmode by done. by apply ml_run.
  - intros -> Havail [e Hload].
    assert (use_ml_model d = false) as Hmode.
    { destruct (use_ml_model d) eqn:Hmode; [|done].
      destruct (constructed_mode _ _ _ Hc Hmode) as (_ & _ & Hok).
      by destruct (Hok e). }
    split; [done|]. intros calls.
    rewrite (constructed_rule _ _ _ Hc Hmode). apply rule_detector_calls.
Qed.

(** C8 after a failed call, and after a failed load. *)
Lemma C8_strategy_witness :
  (let d' :=
     (check_toxicity (failing (1 # 2)) (VStr "hello") (served_detector (1 # 2))).2
   in d' = served_detector (1 # 2) /\ use_ml_model d' = true)
  /\ (use_ml_model rule_detector = false
      /\ (run_calls [(serving (1 # 2) (95 # 100), VStr "you idiot")]
                    rule_detector).2 = rule_detector).
Proof.
  split.
  - destruct (C8_strategy_changes_only_at_construction
                (failing (1 # 2)) true (served_detector (1 # 2)) eq_refl)
      as (_ & Hcall & _).
    destruct (Hcall eq_refl (failing (1 # 2)) "hello"
                (RuntimeError "inference failed") eq_refl) as (H1 & H2 & _).
    by split.
  - destruct (C8_strategy_changes_only_at_construction
                unloadable true rule_detector eq_refl)
      as (_ & _ & Hinit).
    destruct (Hinit eq_refl eq_refl
                (ex_intro _ (RuntimeError "model files are missing") eq_refl))
      as (H1 & H2).
    split; [exact H1|].
    exact (proj1 (H2 [(serving (1 # 2) (95 # 100), VStr "you idiot")])).
Defined.

(** ** The categories and the accumulated weights of the rule tables *)

Lemma rule_categories_matched (ms : list pattern_match) :
  sorted_list (tally rule_weights (hits rule_categories ms)).2
  ≡ₚ (Spec.matched_categories rule_categories ms).*1.
Proof.
  pose proof (tally_ok rule_weights (hits rule_categories ms)) as [_ _ _ Hids].
  apply NoDup_Permutation.
  - apply sorted_list_NoDup.
  - apply matched_names_NoDup, rule_categories_NoDup.
  - intros c. by rewrite elem_of_sorted_list, Hids, elem_of_hits.
Qed.

Lemma rule_accumulated (ms : list pattern_match) category indices :
  (category, indices) ∈ rule_categories ->
  match dict_get category (tally rule_weights (hits rule_categories ms)).1 with
  | Some v =>
      Spec.occurrences ms indices <> 0%nat
      /\ (v == Spec.accumulated_weight rule_weights ms (category, indices))%Q
  | None => Spec.occurrences ms indices = 0%nat
  end.
Proof.
  intros Hin.
  pose proof (tally_ok rule_weights (hits rule_categories ms))
    as [_ Hkeys Hvals _].
  pose proof (count_hits rule_categories ms category indices
                rule_categories_NoDup Hin) as Hcount.
  destruct (dict_get category _) as [v|] eqn:Hget.
  - split.
    + rewrite <-Hcount, count_zero. intros Hnot. apply Hnot, Hkeys.
      apply dict_get_keys. eauto.
    + rewrite (Hvals _ _ Hget). unfold Spec.accumulated_weight. simpl.
      by rewrite Hcount.
  - rewrite <-Hcount. apply count_zero. rewrite <-Hkeys, <-dict_get_keys.
    rewrite Hget. by intros [? ?].
Qed.

(** C4: on the pattern path every match occurrence adds the fixed weight
    of its category to the accumulated weight of that category; the score
    is the mean of the accumulated weights over the categories that matched,
    clamped above at 1; with no match the score is 0 and there is no
    category. *)
Theorem C4_score_is_clamped_mean_of_accumulated_weights
    (w0 : world) (use_ml : bool) (d : detector) (ms : list pattern_match) :
  constructed w0 use_ml d -> use_ml_model d = false ->
  exists category_scores identified score cats,
    score_matches ms d = (Ok (category_scores, identified), d)
    /\ (forall category indices,
          (category, indices) ∈ rule_categories ->
          match dict_get category category_scores with
          | Some v =>
              Spec.occurrences ms indices <> 0%nat
              /\ (v == Spec.accumulated_weight rule_weights ms
                         (category, indices))%Q
          | None => Spec.occurrences ms indices = 0%nat
          end)
    /\ _calculate_toxicity_score ms d = (Ok (score, cats), d)
    /\ (score == Spec.mean_score rule_categories rule_weights ms)%Q
    /\ cats ≡ₚ (Spec.matched_categories rule_categories ms).*1
    /\ (ms = [] -> score = 0%Q /\ cats = [])
    /\ (forall w content,
          rule_matches content = [] ->
          exists v,
            _check_toxicity_rule_based w content d = (Ok v, d)
            /\ (toxicity_score v == 0)%Q /\ categories v = []).
Proof.
  intros Hc Hmode. rewrite (constructed_rule _ _ _ Hc Hmode).
  destruct (tally rule_weights (hits rule_categories ms)) as [cs ids] eqn:Ht.
  exists cs, ids, (final_score cs), (sorted_list ids). split_and!.
  - rewrite (score_matches_run rule_categories rule_weights);
      [by rewrite <-Ht|done|done|apply rule_weights_total].
  - intros category indices Hin.
    pose proof (rule_accumulated ms category indices Hin) as H.
    by rewrite Ht in H.
  - by rewrite rule_calculate_run, Ht.
  - pose proof (final_score_mean rule_categories rule_weights
                  rule_categories_NoDup ms) as H.
    by rewrite Ht in H.
  - pose proof (rule_categories_matched ms) as H. by rewrite Ht in H.
  - intros ->. by injection Ht as <- <-.
  - intros w content Hnone. eexists. split; [apply rule_based_run|].
    unfold rule_verdict, rule_tally. rewrite Hnone. by vm_compute.
Qed.

(** C4 for one match of profanity and one of harassment. *)
Lemma C4_score_witness :
  exists category_scores identified score cats,
    score_matches [(["shit"], 0%nat); (["idiot"; "you"], 4%nat)] rule_detector
    = (Ok (category_scores, identified), rule_detector)
    /\ _calculate_toxicity_score
         [(["shit"], 0%nat); (["idiot"; "you"], 4%nat)] rule_detector
       = (Ok (score, cats), rule_detector)
    /\ (score == Spec.mean_score rule_categories rule_weights
                   [(["shit"], 0%nat); (["idiot"; "you"], 4%nat)])%Q.
Proof.
  destruct (C4_score_is_clamped_mean_of_accumulated_weights
              offline false rule_detector
              [(["shit"], 0%nat); (["idiot"; "you"], 4%nat)]
              eq_refl eq_refl)
    as (cs & ids & score & cats & H1 & _ & H2 & H3 & _).
  exists cs, ids, score, cats. split; [exact H1|]. split; [exact H2|exact H3].
Defined.

(** ** Lower bound of the score of the rules *)

Lemma Qsum_lower_bound {A} (f : A -> Q) (b : Q) (l : list A) :
  (forall x, x ∈ l -> (b <= f x)%Q) ->
  (inject_Z (Z.of_nat (length l)) * b <= Qsum (f <$> l))%Q.
Proof.
  induction l as [|x l IH]; intros Hb.
  - change (0 * b <= 0)%Q. lra.
  - rewrite length_cons, Nat2Z.inj_succ, <-Z.add_1_r, inject_Z_plus. csimpl.
    assert (b <= f x)%Q by (apply Hb; left).
    assert (inject_Z (Z.of_nat (length l)) * b <= Qsum (f <$> l))%Q
      by (apply IH; intros; apply Hb; by right).
    change (inject_Z 1) with 1%Q. lra.
Qed.

Lemma tally_categories_nil weights hs :
  sorted_list (tally weights hs).2 = [] <-> (tally weights hs).1 = [].
Proof.
  pose proof (tally_ok weights hs) as [_ Hkeys _ Hids].
  split; intros Hnil.
  - destruct (tally weights hs).1 as [|[c v] cs] eqn:E; [done|].
    assert (c ∈ sorted_list (tally weights hs).2) as Hc.
    { apply elem_of_sorted_list, Hids, Hkeys. unfold keys. csimpl. left. }
    rewrite Hnil in Hc. by apply elem_of_nil in Hc.
  - apply elem_of_nil_inv. intros c Hc%elem_of_sorted_list.
    apply Hids, Hkeys in Hc. rewrite Hnil in Hc. by apply elem_of_nil in Hc.
Qed.

Lemma rule_weight_at_least c :
  c ∈ rule_categories.*1 -> (3 # 10 <= weight_of rule_weights c)%Q.
Proof.
  unfold rule_categories. csimpl. intros Hin.
  repeat (apply elem_of_cons in Hin as [->|Hin]; [by vm_compute|]).
  by apply elem_of_nil in Hin.
Qed.

Lemma hits_subset items ms c : c ∈ hits items ms -> c ∈ items.*1.
Proof.
  unfold hits. intros (m & Hc & _)%list_elem_of_bind.
  by apply owners_subset in Hc.
Qed.

Lemma rule_final_score_bounds (ms : list pattern_match) :
  let cs := (tally rule_weights (hits rule_categories ms)).1 in
  (cs = [] -> final_score cs = 0%Q)
  /\ (cs <> [] -> (3 # 10 <= final_score cs)%Q).
Proof.
  intros cs. split; intros Hcs; unfold final_score.
  - by rewrite Hcs.
  - rewrite bool_decide_eq_true_2 by done.
    pose proof (tally_ok rule_weights (hits rule_categories ms))
      as [Hnd Hkeys Hvals _]. fold cs in Hnd, Hkeys, Hvals.
    set (f := fun c => (inject_Z (Z.of_nat (count c (hits rule_categories ms)))
                        * weight_of rule_weights c)%Q).
    assert (inject_Z (Z.of_nat (length cs)) * (3 # 10) <= dict_sum cs)%Q as Hsum.
    { rewrite (dict_sum_by_key cs f Hnd Hvals).
      replace (length cs) with (length (keys cs))
        by (unfold keys; by rewrite length_fmap).
      apply Qsum_lower_bound. intros c Hc%Hkeys. unfold f.
      assert (count c (hits rule_categories ms) <> 0%nat) as Hcount
        by (by rewrite count_zero; intros ?).
      pose proof (rule_weight_at_least c (hits_subset _ _ _ Hc)) as Hw.
      assert (1 <= inject_Z (Z.of_nat (count c (hits rule_categories ms))))%Q.
      { change 1%Q with (inject_Z 1). rewrite <-Zle_Qle. lia. }
      nra. }
    assert (0 < inject_Z (Z.of_nat (length cs)))%Q as Hlen.
    { change 0%Q with (inject_Z 0). rewrite <-Zlt_Qlt.
      destruct cs; [done|simpl; lia]. }
    apply Q.min_glb; [lra|].
    apply Qle_shift_div_l; [done|]. lra.
Qed.

Lemma round3_at_least_weight (x : Q) :
  (3 # 10 <= x)%Q -> (3 # 10 <= round x 3)%Q.
Proof.
  intros Hx. assert (300 # 1000 <= round x 3)%Q by (apply round3_ge; lra).
  lra.
Qed.

(** C10: on the pattern path the categories are non-empty exactly when the
    score is positive, and then the score is at least 0.3, the least of the
    severity weights. *)
Theorem C10_categories_iff_positive_score
    (w0 : world) (use_ml : bool) (d : detector) (w : world) (content : string) :
  constructed w0 use_ml d -> use_ml_model d = false ->
  exists v,
    _check_toxicity_rule_based w content d = (Ok v, d)
    /\ (categories v <> [] <-> (0 < toxicity_score v)%Q)
    /\ (categories v <> [] -> (3 # 10 <= toxicity_score v)%Q).
Proof.
  intros Hc Hmode. rewrite (constructed_rule _ _ _ Hc Hmode).
  eexists. split; [apply rule_based_run|].
  unfold rule_verdict, rule_tally. simpl.
  pose proof (rule_final_score_bounds (rule_matches content)) as [Hzero Hpos].
  pose proof (tally_categories_nil rule_weights
                (hits rule_categories (rule_matches content))) as Hnil.
  split; [split|].
  - intros Hcats.
    assert (3 # 10 <= round (final_score (tally rule_weights
              (hits rule_categories (rule_matches content))).1) 3)%Q.
    { apply round3_at_least_weight, Hpos. by rewrite <-Hnil. }
    lra.
  - intros Hscore Hcats. apply Hnil in Hcats.
    rewrite (Hzero Hcats) in Hscore. by vm_compute in Hscore.
  - intros Hcats. apply round3_at_least_weight, Hpos. by rewrite <-Hnil.
Qed.

(** C10 for a text with one match. *)
Lemma C10_categories_witness :
  exists v,
    _check_toxicity_rule_based offline "what a shit show" rule_detector
    = (Ok v, rule_detector)
    /\ (categories v <> [] <-> (0 < toxicity_score v)%Q)
    /\ (categories v <> [] -> (3 # 10 <= toxicity_score v)%Q).
Proof.
  apply (C10_categories_iff_positive_score offline false rule_detector).
  - reflexivity.
  - reflexivity.
Defined.

(** ** Decisions on floats *)

Lemma Qgeb_true (x y : Q) : Qgeb x y = true <-> (y <= x)%Q.
Proof. unfold Qgeb. apply Qle_bool_iff. Qed.

Lemma Qgtb_true (x y : Q) : Qgtb x y = true <-> (y < x)%Q.
Proof.
  unfold Qgtb. rewrite negb_true_iff, <-not_true_iff_false, Qle_bool_iff.
  split; [apply Qnot_le_lt|apply Qlt_not_le].
Qed.

(** A sum of tenths is a tenth. *)
Lemma Qsum_tenths {A} (f : A -> Q) (l : list A) :
  (forall x, x ∈ l -> exists m : Z, (f x == m # 10)%Q) ->
  exists m : Z, (Qsum (f <$> l) == m # 10)%Q.
Proof.
  induction l as [|x l IH]; intros Hf; csimpl.
  - by exists 0%Z.
  - destruct (Hf x) as [m Hm]; [left|].
    destruct IH as [n Hn]; [intros; apply Hf; by right|].
    exists (m + n)%Z. rewrite Hm, Hn. unfold Qeq, Qplus. simpl. lia.
Qed.

Lemma rule_weight_tenth c :
  c ∈ rule_categories.*1 -> exists m : Z, (weight_of rule_weights c == m # 10)%Q.
Proof.
  unfold rule_categories. csimpl. intros Hin.
  repeat (apply elem_of_cons in Hin as [->|Hin];
          [match goal with
           | |- exists m : Z, (?w == _)%Q => exists (Qnum w); by vm_compute
           end|]).
  by apply elem_of_nil in Hin.
Qed.

(** The score of the rules is a number of tenths divided by at most four,
    or 1: it is never above 0.5 and below 0.501. *)
Lemma rule_final_score_gap (ms : list pattern_match) :
  let x := final_score (tally rule_weights (hits rule_categories ms)).1 in
  (5 # 10 < x)%Q -> (501 # 1000 <= x)%Q.
Proof.
  intros x. subst x. set (cs := (tally rule_weights (hits rule_categories ms)).1).
  pose proof (tally_ok rule_weights (hits rule_categories ms))
    as [Hnd Hkeys Hvals _]. fold cs in Hnd, Hkeys, Hvals.
  unfold final_score. case_bool_decide as Hcs; [|lra].
  set (f := fun c => (inject_Z (Z.of_nat (count c (hits rule_categories ms)))
                      * weight_of rule_weights c)%Q).
  destruct (Qsum_tenths f (keys cs)) as [m Hm].
  { intros c Hc%Hkeys%hits_subset. destruct (rule_weight_tenth c Hc) as [k Hk].
    exists (Z.of_nat (count c (hits rule_categories ms)) * k)%Z.
    unfold f. rewrite Hk. unfold Qeq, Qmult, inject_Z. simpl. lia. }
  rewrite <-(dict_sum_by_key cs f Hnd Hvals) in Hm.
  assert (1 <= Z.of_nat (length cs))%Z as Hlen by (destruct cs; [done|simpl; lia]).
  set (n := Z.of_nat (length cs)) in *.
  assert (0 < inject_Z n)%Q as Hn.
  { change 0%Q with (inject_Z 0). rewrite <-Zlt_Qlt. lia. }
  assert (inject_Z n <= 100)%Q as Hn100.
  { assert (n <= 4)%Z as H4.
    { subst n. replace (length cs) with (length (keys cs))
        by (unfold keys; by rewrite length_fmap).
      assert (keys cs ⊆+ rule_categories.*1) as Hsub.
      { apply NoDup_submseteq; [done|]. intros c Hc%Hkeys. by eapply hits_subset. }
      apply submseteq_length in Hsub. simpl in Hsub. lia. }
    change 100%Q with (inject_Z 100). rewrite <-Zle_Qle. lia. }
  intros Hgt.
  apply Q.min_glb; [lra|].
  assert (5 # 10 < dict_sum cs / inject_Z n)%Q as Hdiv.
  { eapply Qlt_le_trans; [exact Hgt|]. apply Q.le_min_r. }
  pose proof (Qmult_div_r (dict_sum cs) (inject_Z n)) as Hq.
  set (q := (dict_sum cs / inject_Z n)%Q) in *.
  assert (inject_Z n * q == dict_sum cs)%Q as Hs by (apply Hq; lra).
  assert (inject_Z n * (5 # 10) < dict_sum cs)%Q as Hhalf by nra.
  assert (inject_Z m == 10 * dict_sum cs)%Q as Hm10.
  { rewrite Hm. unfold Qeq, Qmult, inject_Z. simpl. lia. }
  assert (5 * n + 1 <= m)%Z as Hz.
  { assert (inject_Z (5 * n) < inject_Z m)%Q as Hlt.
    { rewrite inject_Z_mult. change (inject_Z 5) with 5%Q. lra. }
    rewrite <-Zlt_Qlt in Hlt. lia. }
  rewrite Zle_Qle, inject_Z_plus, inject_Z_mult in Hz.
  change (inject_Z 5) with 5%Q in Hz. change (inject_Z 1) with 1%Q in Hz.
  apply Qle_shift_div_l; [done|]. lra.
Qed.

(** On the pattern path the rounded score is above 0.5 exactly when the
    score is. *)
Lemma rule_verdict_is_toxic w content :
  is_toxic (rule_verdict w content) = true
  <-> (5 # 10 < toxicity_score (rule_verdict w content))%Q.
Proof.
  simpl. rewrite Qgtb_true. unfold rule_tally.
  set (x := final_score _). split.
  - intros Hx%rule_final_score_gap. fold x in Hx.
    assert (501 # 1000 <= round x 3)%Q by (by apply round3_ge). lra.
  - intros Hr. apply Qnot_le_lt. intros Hx.
    assert (round x 3 <= 500 # 1000)%Q by (apply round3_le; lra). lra.
Qed.

(** C6, as stated, fails on the model path: [is_toxic] is decided before
    the score is rounded, so at score 0.4996 and threshold 0.5 the verdict
    has [toxicity_score] 0.5, equal to [threshold_used], and is not
    toxic. *)
Lemma C6_is_toxic_differs_from_comparison_of_fields :
  exists v t,
    check_toxicity (serving (1 # 2) (4996 # 10000)) (VStr "hello")
                   (served_detector (1 # 2))
    = (Ok v, served_detector (1 # 2))
    /\ threshold_used v = Some t
    /\ ~ (is_toxic v = true <-> (t <= toxicity_score v)%Q).
Proof.
  eexists _, _. split; [|split].
  - rewrite check_toxicity_str by done. by apply ml_run.
  - reflexivity.
  - intros [_ Hback]. specialize (Hback ltac:(by vm_compute)).
    vm_compute in Hback. discriminate.
Qed.

(** C6, amended: [is_toxic] is decided on the score that the path
    computed, before it is rounded for the field [toxicity_score].  On the
    model path it is [score >= threshold_used], so a score equal to the
    threshold is toxic; of the fields it holds that [is_toxic] implies
    [toxicity_score >= round(threshold_used, 3)] and that
    [toxicity_score > round(threshold_used, 3)] implies [is_toxic].  On the
    pattern path it is [score > 0.5], strictly, and also
    [toxicity_score > 0.5] for the rounded field. *)
Theorem C6_is_toxic_compares_unrounded_score_with_threshold
    (w0 : world) (use_ml : bool) (d : detector) (w : world) (content : string) :
  constructed w0 use_ml d -> content <> "" ->
  (use_ml_model d = true ->
   forall p,
     model_probability w (_clean_content_for_ml content) (max_length_of d) = Ok p ->
     exists v t,
       check_toxicity w (VStr content) d = (Ok v, d)
       /\ threshold_used v = Some t
       /\ (is_toxic v = true <-> (t <= ml_score p)%Q)
       /\ ((ml_score p == t)%Q -> is_toxic v = true)
       /\ (toxicity_score v == round (ml_score p) 3)%Q
       /\ (is_toxic v = true -> (round t 3 <= toxicity_score v)%Q)
       /\ ((round t 3 < toxicity_score v)%Q -> is_toxic v = true))
  /\ (use_ml_model d = false ->
      exists v score cats,
        check_toxicity w (VStr content) d = (Ok v, d)
        /\ _calculate_toxicity_score
             (all_matches rule_patterns (_clean_content content)) d
           = (Ok (score, cats), d)
        /\ (is_toxic v = true <-> (5 # 10 < score)%Q)
        /\ ((score == 5 # 10)%Q -> is_toxic v = false)
        /\ (toxicity_score v == round score 3)%Q
        /\ (is_toxic v = true <-> (5 # 10 < toxicity_score v)%Q)).
Proof.
  intros Hc Hne. split; intros Hmode.
  - intros p Hp. exists (ml_verdict w d content p), (threshold_of d).
    split; [|split; [|split; [|split; [|split; [|split]]]]].
    + rewrite check_toxicity_str, Hmode by done. by apply ml_run.
    + done.
    + apply Qgeb_true.
    + intros Heq. apply Qgeb_true. simpl. lra.
    + reflexivity.
    + intros Ht%Qgeb_true. simpl. by apply round3_mono.
    + simpl. intros Hlt. apply Qgeb_true. apply Qnot_lt_le. intros Hs.
      assert (round (ml_score p) 3 <= round (threshold_of d) 3)%Q
        by (apply round3_mono; lra).
      lra.
  - rewrite (constructed_rule _ _ _ Hc Hmode).
    eexists (rule_verdict w content), _, _.
    split; [|split; [|split; [|split; [|split]]]].
    + rewrite check_toxicity_str by done. apply rule_based_run.
    + apply rule_calculate_run.
    + apply Qgtb_true.
    + intros Heq. apply not_true_is_false. intros Ht%Qgtb_true.
      fold (rule_matches content) in Heq. unfold rule_tally in Ht. lra.
    + reflexivity.
    + apply rule_verdict_is_toxic.
Qed.

(** C6, amended, at a score equal to the threshold, on each path. *)
Lemma C6_is_toxic_witness :
  (exists v t,
     check_toxicity (serving (1 # 2) (1 # 2)) (VStr "hello")
                    (served_detector (1 # 2))
     = (Ok v, served_detector (1 # 2))
     /\ threshold_used v = Some t
     /\ (is_toxic v = true <-> (t <= ml_score (1 # 2))%Q)
     /\ ((ml_score (1 # 2) == t)%Q -> is_toxic v = true)
     /\ (toxicity_score v == round (ml_score (1 # 2)) 3)%Q
     /\ (is_toxic v = true -> (round t 3 <= toxicity_score v)%Q)
     /\ ((round t 3 < toxicity_score v)%Q -> is_toxic v = true))
  /\ (exists v score cats,
        check_toxicity offline (VStr "shit, idiot you") rule_detector
        = (Ok v, rule_detector)
        /\ _calculate_toxicity_score
             (all_matches rule_patterns (_clean_content "shit, idiot you"))
             rule_detector
           = (Ok (score, cats), rule_detector)
        /\ (is_toxic v = true <-> (5 # 10 < score)%Q)
        /\ ((score == 5 # 10)%Q -> is_toxic v = false)
        /\ (toxicity_score v == round score 3)%Q
        /\ (is_toxic v = true <-> (5 # 10 < toxicity_score v)%Q)).
Proof.
  split.
  - refine (proj1 (C6_is_toxic_compares_unrounded_score_with_threshold
                     (serving (1 # 2) (1 # 2)) true (served_detector (1 # 2))
                     (serving (1 # 2) (1 # 2)) "hello" eq_refl _)
                  eq_refl (1 # 2) eq_refl).
    discriminate.
  - refine (proj2 (C6_is_toxic_compares_unrounded_score_with_threshold
                     offline false rule_detector offline
                     "shit, idiot you" eq_refl _)
                  eq_refl).
    discriminate.
Defined.

(** C9: on both paths the [toxicity_score] and the [confidence] of the
    verdict are rounded to three decimals, that is, they are multiples of
    0.001, while [is_toxic] was decided on the score before rounding. *)
Theorem C9_score_and_confidence_are_rounded
    (w0 : world) (use_ml : bool) (d : detector) (w : world) (content : string) :
  constructed w0 use_ml d -> content <> "" ->
  (use_ml_model d = true ->
   forall p,
     model_probability w (_clean_content_for_ml content) (max_length_of d) = Ok p ->
     exists v,
       check_toxicity w (VStr content) d = (Ok v, d)
       /\ toxicity_score v = round (ml_score p) 3
       /\ confidence v = round (ml_confidence (ml_score p) (threshold_of d)) 3
       /\ (exists k : Z, (toxicity_score v == k # 1000)%Q)
       /\ (exists k : Z, (confidence v == k # 1000)%Q)
       /\ is_toxic v = Qgeb (ml_score p) (threshold_of d))
  /\ (use_ml_model d = false ->
      exists v score cats,
        check_toxicity w (VStr content) d = (Ok v, d)
        /\ _calculate_toxicity_score
             (all_matches rule_patterns (_clean_content content)) d
           = (Ok (score, cats), d)
        /\ toxicity_score v = round score 3
        /\ confidence v = round (rule_confidence content) 3
        /\ (exists k : Z, (toxicity_score v == k # 1000)%Q)
        /\ (exists k : Z, (confidence v == k # 1000)%Q)
        /\ is_toxic v = Qgtb score (5 # 10)).
Proof.
  intros Hc Hne. split; intros Hmode.
  - intros p Hp. exists (ml_verdict w d content p). split_and!.
    + rewrite check_toxicity_str, Hmode by done. by apply ml_run.
    + done.
    + done.
    + eexists. apply round3_multiple.
    + eexists. apply round3_multiple.
    + done.
  - rewrite (constructed_rule _ _ _ Hc Hmode).
    eexists (rule_verdict w content), _, _. split_and!.
    + rewrite check_toxicity_str by done. apply rule_based_run.
    + apply rule_calculate_run.
    + done.
    + done.
    + eexists. apply round3_multiple.
    + eexists. apply round3_multiple.
    + done.
Qed.

(** C9 on each path. *)
Lemma C9_rounded_witness :
  (exists v,
     check_toxicity (serving (1 # 2) (4996 # 10000)) (VStr "hello")
                    (served_detector (1 # 2))
     = (Ok v, served_detector (1 # 2))
     /\ (exists k : Z, (toxicity_score v == k # 1000)%Q)
     /\ (exists k : Z, (confidence v == k # 1000)%Q))
  /\ (exists v,
        check_toxicity offline (VStr "shit person, you idiot") rule_detector
        = (Ok v, rule_detector)
        /\ (exists k : Z, (toxicity_score v == k # 1000)%Q)
        /\ (exists k : Z, (confidence v == k # 1000)%Q)).
Proof.
  split.
  - destruct (proj1 (C9_score_and_confidence_are_rounded
                       (serving (1 # 2) (4996 # 10000)) true
                       (served_detector (1 # 2))
                       (serving (1 # 2) (4996 # 10000)) "hello" eq_refl
                       ltac:(discriminate))
                    eq_refl (4996 # 10000) eq_refl)
      as (v & H1 & _ & _ & H2 & H3 & _).
    exists v. split; [exact H1|]. split; [exact H2|exact H3].
  - destruct (proj2 (C9_score_and_confidence_are_rounded
                       offline false rule_detector offline
                       "shit person, you idiot" eq_refl ltac:(discriminate))
                    eq_refl)
      as (v & score & cats & H1 & _ & _ & _ & H2 & H3 & _).
    exists v. split; [exact H1|]. split; [exact H2|exact H3].
Defined.

(** The rounded score of a verdict can reach the threshold although the
    verdict is not toxic. *)
Example rounded_score_reaches_threshold :
  exists v,
    check_toxicity (serving (1 # 2) (4996 # 10000)) (VStr "hello")
                   (served_detector (1 # 2))
    = (Ok v, served_detector (1 # 2))
    /\ is_toxic v = false
    /\ (toxicity_score v == 1 # 2)%Q
    /\ threshold_used v = Some (1 # 2).
Proof.
  eexists. split.
  - rewrite check_toxicity_str by done. by apply ml_run.
  - by vm_compute.
Qed.

(** ** The confidence of the model path *)

Lemma Qabs_spec (x : Q) :
  (0 <= x /\ Qabs x == x)%Q \/ (x <= 0 /\ Qabs x == - x)%Q.
Proof.
  apply (Qabs_case x (fun y => (0 <= x /\ y == x)%Q \/ (x <= 0 /\ y == - x)%Q));
    intros; [left|right]; split; auto; reflexivity.
Qed.

(** Replaces the innermost [Qmax], [Qmin] and [Qabs] by variables that
    carry their specifications, then decides the linear goal by cases. *)
Ltac no_minmax t :=
  lazymatch t with
  | context [Qmax _ _] => fail
  | context [Qmin _ _] => fail
  | context [Qabs _] => fail
  | _ => idtac
  end.

Ltac name_minmax :=
  repeat match goal with
    | |- context [Qmax ?a ?b] =>
        no_minmax a; no_minmax b;
        let H := fresh "Hmax" in
        pose proof (Q.max_spec a b) as H;
        generalize dependent (Qmax a b); intros ? H
    | |- context [Qmin ?a ?b] =>
        no_minmax a; no_minmax b;
        let H := fresh "Hmin" in
        pose proof (Q.min_spec a b) as H;
        generalize dependent (Qmin a b); intros ? H
    | |- context [Qabs ?a] =>
        no_minmax a;
        let H := fresh "Habs" in
        pose proof (Qabs_spec a) as H;
        generalize dependent (Qabs a); intros ? H
    end.

Ltac by_cases_lra :=
  repeat match goal with
    | H : _ \/ _ |- _ => destruct H as [H|H]
    | H : _ /\ _ |- _ => destruct H
    end;
  lra.

Lemma ml_score_range (p : Q) : (0 <= ml_score p <= 1)%Q.
Proof. unfold ml_score. split; name_minmax; by_cases_lra. Qed.

Lemma ml_confidence_spec (s t : Q) :
  (0 <= s <= 1)%Q ->
  (ml_confidence s t == Spec.classifier_confidence s t)%Q.
Proof.
  intros [Hs0 Hs1]. unfold ml_confidence, Spec.classifier_confidence, Spec.clamp01.
  change (Qgeb s (9 # 10)) with (Qle_bool (9 # 10) s).
  destruct (Qle_bool s (1 # 10) || Qle_bool (9 # 10) s);
    name_minmax; by_cases_lra.
Qed.

Lemma ml_confidence_floor (s t : Q) :
  (s <= 1 # 10 \/ 9 # 10 <= s)%Q -> (85 # 100 <= ml_confidence s t)%Q.
Proof.
  intros Hs. unfold ml_confidence.
  assert (Qle_bool s (1 # 10) || Qgeb s (9 # 10) = true) as ->.
  { apply orb_true_iff. destruct Hs; [left|right]; by apply Qle_bool_iff. }
  name_minmax; by_cases_lra.
Qed.

(** C5, as stated, fails: the confidence of the verdict is the rounded
    value, which differs from the formula at score 0.5004 and threshold
    0.5 (0.999 against 0.9992). *)
Lemma C5_returned_confidence_differs_from_formula :
  exists v,
    check_toxicity (serving (1 # 2) (5004 # 10000)) (VStr "hello")
                   (served_detector (1 # 2))
    = (Ok v, served_detector (1 # 2))
    /\ ~ (confidence v
          == Spec.classifier_confidence (5004 # 10000) (1 # 2))%Q.
Proof.
  eexists. split.
  - rewrite check_toxicity_str by done. by apply ml_run.
  - by vm_compute.
Qed.

(** Rounding a value that is within 0.00025 of [y] gives a value within
    0.001 of [y]: the bound below leaves room for the errors of the
    floating-point operations that compute the value. *)
Lemma round3_within (x y : Q) :
  (Qabs (x - y) <= 1 # 4000)%Q -> (Qabs (round x 3 - y) < 1 # 1000)%Q.
Proof.
  intros Hxy. pose proof (round3_near x) as [Hlo Hhi].
  revert Hxy. name_minmax. by_cases_lra.
Qed.

(** C5, amended: on the model path the confidence of the verdict is the
    computed confidence rounded to three decimals, so it equals the
    formula of the specification only up to that rounding: the two differ
    by less than 0.001.  It lies between 0 and 1 and is at least 0.85 when
    the score is at most 0.1 or at least 0.9, in particular at score
    0.95. *)
Theorem C5_confidence_is_formula_up_to_rounding
    (w0 : world) (use_ml : bool) (d : detector) (w : world) (content : string)
    (p : Q) :
  constructed w0 use_ml d -> use_ml_model d = true -> content <> "" ->
  model_probability w (_clean_content_for_ml content) (max_length_of d) = Ok p ->
  exists v,
    check_toxicity w (VStr content) d = (Ok v, d)
    /\ (Qabs (confidence v
              - Spec.classifier_confidence (ml_score p) (threshold_of d))
        < 1 # 1000)%Q
    /\ (0 <= confidence v <= 1)%Q
    /\ ((ml_score p <= 1 # 10 \/ 9 # 10 <= ml_score p)%Q ->
        (85 # 100 <= confidence v)%Q)
    /\ ((ml_score p == 95 # 100)%Q -> (85 # 100 <= confidence v)%Q).
Proof.
  intros Hc Hmode Hne Hp. exists (ml_verdict w d content p).
  assert (forall s t, (s <= 1 # 10 \/ 9 # 10 <= s)%Q ->
            (85 # 100 <= round (ml_confidence s t) 3)%Q) as Hfloor.
  { intros s t Hs. pose proof (ml_confidence_floor s t Hs).
    assert (850 # 1000 <= round (ml_confidence s t) 3)%Q
      by (apply round3_ge; lra).
    lra. }
  pose proof (ml_confidence_spec (ml_score p) (threshold_of d)
                (ml_score_range p)) as Heq.
  split; [|split; [|split; [|split]]].
  - rewrite check_toxicity_str, Hmode by done. by apply ml_run.
  - simpl. apply round3_within. revert Heq. name_minmax. by_cases_lra.
  - simpl.
    assert (0 <= ml_confidence (ml_score p) (threshold_of d) <= 1)%Q
      as [H0 H1].
    { unfold ml_confidence.
      destruct (Qle_bool (ml_score p) (1 # 10) || Qgeb (ml_score p) (9 # 10));
        split; name_minmax; by_cases_lra. }
    assert (0 # 1000 <= round (ml_confidence (ml_score p) (threshold_of d)) 3)%Q
      by (apply round3_ge; lra).
    assert (round (ml_confidence (ml_score p) (threshold_of d)) 3 <= 1000 # 1000)%Q
      by (apply round3_le; lra).
    lra.
  - simpl. apply Hfloor.
  - simpl. intros Hs. apply Hfloor. right. lra.
Qed.

(** C5, amended, at score 0.95. *)
Lemma C5_confidence_witness :
  exists v,
    check_toxicity (serving (1 # 2) (95 # 100)) (VStr "hello")
                   (served_detector (1 # 2))
    = (Ok v, served_detector (1 # 2))
    /\ (Qabs (confidence v
              - Spec.classifier_confidence (95 # 100) (1 # 2))
        < 1 # 1000)%Q
    /\ (85 # 100 <= confidence v)%Q.
Proof.
  destruct (C5_confidence_is_formula_up_to_rounding
              (serving (1 # 2) (95 # 100)) true (served_detector (1 # 2))
              (serving (1 # 2) (95 # 100)) "hello" (95 # 100)
              eq_refl eq_refl ltac:(discriminate) eq_refl)
    as (v & H1 & H2 & _ & _ & H3).
  exists v. split; [exact H1|]. split; [exact H2|]. apply H3. reflexivity.
Defined.

(** ** Categories on the two paths *)

Lemma ml_categories_shape (content : string) (score : Q) :
  let cats := _analyze_toxicity_categories_ml content score in
  NoDup cats
  /\ (cats `sublist_of` ml_category_order \/ cats = ["general_toxicity"]).
Proof.
  unfold _analyze_toxicity_categories_ml, ml_category_order.
  destruct (Qgtb score (3 # 10)), (Qgtb score (6 # 10));
    repeat match goal with
      | |- context [any_in ?ks ?s] => destruct (any_in ks s)
      end;
    vm_compute;
    (split;
     [apply (bool_decide_unpack _); by vm_compute
     |first [by right
            |left; repeat first [apply sublist_nil | apply sublist_skip
                                | apply sublist_cons]]]).
Qed.

(** C3, as stated, fails on the model path: for "damn you idiot" with
    score 0.95 the categories are profanity, harassment, in the order of the
    checks and not in the order of the strings. *)
Lemma C3_model_path_categories_are_not_sorted :
  exists v,
    check_toxicity (serving (1 # 2) (95 # 100)) (VStr "damn you idiot")
                   (served_detector (1 # 2))
    = (Ok v, served_detector (1 # 2))
    /\ ~ (NoDup (categories v) /\ Sorted str_le (categories v)).
Proof.
  eexists. split.
  - rewrite check_toxicity_str by done. by apply ml_run.
  - intros [_ Hsorted].
    assert (categories
              (ml_verdict (serving (1 # 2) (95 # 100)) (served_detector (1 # 2))
                          "damn you idiot" (95 # 100))
            = ["profanity"; "harassment"]) as Hcats by (by vm_compute).
    rewrite Hcats in Hsorted.
    apply Sorted_inv in Hsorted as [_ Hhd]. apply HdRel_inv in Hhd.
    by vm_compute in Hhd.
Qed.

(** C3, amended: for every non-empty text the categories of the verdict
    have no duplicates; on the pattern path they are sorted in ascending
    order of strings; on the model path they follow the fixed order
    profanity, hate_speech, harassment, threat, or are general_toxicity
    alone. *)
Theorem C3_categories_without_duplicates_and_their_order
    (w0 : world) (use_ml : bool) (d : detector) (w : world) (content : string) :
  constructed w0 use_ml d -> content <> "" ->
  (use_ml_model d = false ->
   exists v,
     check_toxicity w (VStr content) d = (Ok v, d)
     /\ NoDup (categories v) /\ Sorted str_le (categories v))
  /\ (use_ml_model d = true ->
      forall p,
        model_probability w (_clean_content_for_ml content) (max_length_of d)
        = Ok p ->
        exists v,
          check_toxicity w (VStr content) d = (Ok v, d)
          /\ NoDup (categories v)
          /\ (categories v `sublist_of` ml_category_order
              \/ categories v = ["general_toxicity"])).
Proof.
  intros Hc Hne. split; intros Hmode.
  - rewrite (constructed_rule _ _ _ Hc Hmode).
    exists (rule_verdict w content). split_and!.
    + rewrite check_toxicity_str by done. apply rule_based_run.
    + apply sorted_list_NoDup.
    + apply sorted_list_Sorted.
  - intros p Hp. exists (ml_verdict w d content p). split.
    + rewrite check_toxicity_str, Hmode by done. by apply ml_run.
    + apply ml_categories_shape.
Qed.

(** C3, amended, on each path. *)
Lemma C3_categories_witness :
  (exists v,
     check_toxicity offline (VStr "shit, idiot you") rule_detector
     = (Ok v, rule_detector)
     /\ NoDup (categories v) /\ Sorted str_le (categories v))
  /\ (exists v,
        check_toxicity (serving (1 # 2) (95 # 100)) (VStr "damn you idiot")
                       (served_detector (1 # 2))
        = (Ok v, served_detector (1 # 2))
        /\ NoDup (categories v)
        /\ (categories v `sublist_of` ml_category_order
            \/ categories v = ["general_toxicity"])).
Proof.
  split.
  - refine (proj1 (C3_categories_without_duplicates_and_their_order
                     offline false rule_detector offline "shit, idiot you"
                     eq_refl _) eq_refl).
    discriminate.
  - refine (proj2 (C3_categories_without_duplicates_and_their_order
                     (serving (1 # 2) (95 # 100)) true (served_detector (1 # 2))
                     (serving (1 # 2) (95 # 100)) "damn you idiot"
                     eq_refl _) eq_refl (95 # 100) eq_refl).
    discriminate.
Defined.

(** ** Which exceptions the scorers raise *)

Lemma nve_ret {A} (a : A) : never_value_error (mret a : action A).
Proof. by intros d msg. Qed.

Lemma nve_getattr {A} name (field : detector -> option A) :
  never_value_error (getattr name field).
Proof. intros d msg. unfold getattr. by destruct (field d). Qed.

Lemma nve_bind {A B} (m : action A) (f : A -> action B) :
  never_value_error m -> (forall a, never_value_error (f a)) ->
  never_value_error (m ≫= f).
Proof.
  intros Hm Hf d msg. rewrite bind_run. specialize (Hm d msg).
  destruct (m d) as [[a|e] d']; [apply Hf|].
  simpl in *. intros [= ->]. by apply Hm.
Qed.

Lemma nve_try_except {A} (body : action A) (handler : exn -> action A) :
  (forall e, never_value_error (handler e)) ->
  never_value_error (try_except body handler).
Proof.
  intros Hh d msg. unfold try_except.
  destruct (body d) as [[a|e] d']; [done|apply Hh].
Qed.

Lemma nve_for_each {A B} (body : A -> B -> action A) (a : A) (l : list B) :
  (forall a x, never_value_error (body a x)) ->
  never_value_error (for_each body a l).
Proof.
  intros Hbody. revert a. induction l as [|x l IH]; intros a; simpl.
  - apply nve_ret.
  - apply nve_bind; auto.
Qed.

Lemma nve_score_item i acc item : never_value_error (score_item i acc item).
Proof.
  destruct acc as [cs ids], item as [c idxs]. unfold score_item.
  case_bool_decide; [|apply nve_ret].
  apply nve_bind; [|intros; apply nve_ret].
  unfold severity_weight. apply nve_bind; [apply nve_getattr|].
  intros ws. destruct (dict_get c ws); [apply nve_ret|by intros d msg].
Qed.

Lemma nve_score_match acc m : never_value_error (score_match acc m).
Proof.
  unfold score_match, category_items. apply nve_bind.
  - apply nve_bind; [apply nve_getattr|].
    intros [t|t]; [by intros d msg|apply nve_ret].
  - intros items. apply nve_for_each, nve_score_item.
Qed.

Lemma nve_rule_based w content :
  never_value_error (_check_toxicity_rule_based w content).
Proof.
  unfold _check_toxicity_rule_based, _find_toxic_patterns.
  apply nve_bind.
  { apply nve_bind; [apply nve_getattr|intros; apply nve_ret]. }
  intros ms. apply nve_bind.
  - unfold _calculate_toxicity_score, score_matches.
    case_bool_decide; [apply nve_ret|].
    apply nve_bind; [apply nve_for_each, nve_score_match|].
    intros [cs ids]. apply nve_ret.
  - intros [score cats]. apply nve_ret.
Qed.

(** C7, as stated, fails: a text of spaces only is accepted and scored. *)
Lemma C7_whitespace_only_is_accepted :
  strip "   " = EmptyString
  /\ exists v,
       check_toxicity offline (VStr "   ") rule_detector = (Ok v, rule_detector).
Proof.
  split; [reflexivity|]. eexists.
  rewrite check_toxicity_str by done. apply rule_based_run.
Qed.

(** C7, amended: [check_toxicity] raises [ValueError], with neither scorer
    run, exactly when the input is not a string or is the empty string; in
    particular [None] and the empty string are rejected. *)
Theorem C7_invalid_input_is_non_string_or_empty
    (w : world) (content : value) (d : detector) :
  ((exists msg, (check_toxicity w content d).1 = Raise (ValueError msg))
   <-> (is_str content = false \/ content = VStr EmptyString))
  /\ ((is_str content = false \/ content = VStr EmptyString) ->
      forall w' d',
        check_toxicity w' content d'
        = (Raise (ValueError "Content must be a non-empty string"), d'))
  /\ check_toxicity w VNone d
     = (Raise (ValueError "Content must be a non-empty string"), d)
  /\ check_toxicity w (VStr EmptyString) d
     = (Raise (ValueError "Content must be a non-empty string"), d).
Proof.
  assert (forall c, (is_str c = false \/ c = VStr EmptyString) ->
            negb (truthy c) || negb (is_str c) = true) as Hguard.
  { intros c [Hc| ->]; [|done]. rewrite Hc. apply orb_true_r. }
  split_and!.
  - split.
    + intros [msg Hraise]. unfold check_toxicity in Hraise.
      destruct (negb (truthy content) || negb (is_str content)) eqn:Hg.
      * destruct content as [| | |s|]; try (by left).
        right. simpl in Hg. rewrite orb_false_r in Hg.
        apply negb_true_iff, not_true_iff_false in Hg.
        destruct (String.eqb_spec s EmptyString) as [->|]; [done|].
        by destruct Hg.
      * exfalso. revert Hraise. apply nve_bind; [by intros ? ?|].
        intros [|]; [|apply nve_rule_based].
        unfold _check_toxicity_ml. apply nve_try_except.
        intros. apply nve_rule_based.
    + intros Hc. exists "Content must be a non-empty string".
      unfold check_toxicity. by rewrite (Hguard _ Hc).
  - intros Hc w' d'. unfold check_toxicity. by rewrite (Hguard _ Hc).
  - done.
  - done.
Qed.

(** C7, amended, for [None]: rejected whatever the object and the model. *)
Lemma C7_invalid_input_witness :
  (exists msg,
     (check_toxicity (serving (1 # 2) (95 # 100)) VNone
                     (served_detector (1 # 2))).1
     = Raise (ValueError msg))
  /\ check_toxicity offline VNone new_object
     = (Raise (ValueError "Content must be a non-empty string"), new_object).
Proof.
  destruct (C7_invalid_input_is_non_string_or_empty
              (serving (1 # 2) (95 # 100)) VNone (served_detector (1 # 2)))
    as (Hiff & Hall & _).
  split.
  - apply Hiff. left. reflexivity.
  - apply Hall. left. reflexivity.
Defined.

(** The pattern at index 5, [\b(spam|troll|harassment)\b], belongs to the
    category harassment in [toxicity_categories]; index 6, the only index
    of toxic_behavior, is the index of no pattern. *)
Example spam_counts_as_harassment :
  exists v,
    check_toxicity offline (VStr "this is spam") rule_detector
    = (Ok v, rule_detector)
    /\ categories v = ["harassment"] /\ (toxicity_score v == 7 # 10)%Q.
Proof.
  eexists. split.
  - rewrite check_toxicity_str by done. apply rule_based_run.
  - by vm_compute.
Qed.

(** * Further properties of the detector *)

(** ** Texts *)

Ltac each_ascii c :=
  destruct c as [[] [] [] [] [] [] [] []]; vm_compute; try done.

Lemma chars_str_map f s : chars (str_map f s) = f <$> chars s.
Proof. induction s as [|c s IH]; csimpl; [done|]. by rewrite <-IH. Qed.

Lemma chars_str_filter p s :
  chars (str_filter p s) = List.filter p (chars s).
Proof.
  induction s as [|c s IH]; simpl; [done|].
  destruct (p c); simpl; by rewrite <-IH.
Qed.

Lemma length_chars s : length (chars s) = String.length s.
Proof. induction s as [|c s IH]; simpl; [done|]. by rewrite <-IH. Qed.

Lemma length_str_map f s : String.length (str_map f s) = String.length s.
Proof. induction s as [|c s IH]; simpl; [done|]. by rewrite IH. Qed.

Lemma length_str_filter p s :
  (String.length (str_filter p s) <= String.length s)%nat.
Proof.
  induction s as [|c s IH]; simpl; [done|]. destruct (p c); simpl; lia.
Qed.

Lemma length_collapse_ws_from b s :
  (String.length (collapse_ws_from b s) <= String.length s)%nat.
Proof.
  revert b. induction s as [|c s IH]; intros b; simpl; [done|].
  pose proof (IH true). pose proof (IH false).
  destruct (py_isspace c); [destruct b|]; simpl; lia.
Qed.

Lemma length_lstrip s : (String.length (lstrip s) <= String.length s)%nat.
Proof.
  induction s as [|c s IH]; simpl; [done|]. destruct (py_isspace c); simpl; lia.
Qed.

Lemma length_rstrip s : (String.length (rstrip s) <= String.length s)%nat.
Proof.
  induction s as [|c s IH]; simpl; [done|].
  destruct (rstrip s); [destruct (py_isspace c)|]; simpl in *; lia.
Qed.

Lemma length_strip s : (String.length (strip s) <= String.length s)%nat.
Proof.
  unfold strip. pose proof (length_rstrip (lstrip s)).
  pose proof (length_lstrip s). lia.
Qed.

Lemma length_take n s : String.length (take n s) = (n `min` String.length s)%nat.
Proof.
  revert s. induction n as [|n IH]; intros [|c s]; simpl; [done..|].
  by rewrite IH.
Qed.

Lemma Forall_chars_lstrip (P : ascii -> Prop) s :
  Forall P (chars s) -> Forall P (chars (lstrip s)).
Proof.
  induction s as [|c s IH]; simpl; [done|]. intros H.
  destruct (py_isspace c); [|done]. apply IH. by inversion H.
Qed.

Lemma Forall_chars_rstrip (P : ascii -> Prop) s :
  Forall P (chars s) -> Forall P (chars (rstrip s)).
Proof.
  induction s as [|c s IH]; simpl; [done|]. intros H.
  inversion H as [|? ? Hc Hs]; subst. specialize (IH Hs).
  destruct (rstrip s) as [|c' t]; [destruct (py_isspace c)|]; simpl.
  - constructor.
  - by repeat constructor.
  - by constructor.
Qed.

Lemma Forall_chars_strip (P : ascii -> Prop) s :
  Forall P (chars s) -> Forall P (chars (strip s)).
Proof. intros. by apply Forall_chars_rstrip, Forall_chars_lstrip. Qed.

Lemma Forall_chars_take (P : ascii -> Prop) n s :
  Forall P (chars s) -> Forall P (chars (take n s)).
Proof.
  revert s. induction n as [|n IH]; intros [|c s]; simpl; try by constructor.
  intros H. inversion H; subst. constructor; [done|by apply IH].
Qed.

(** After [re.sub(r'\s+', ' ', s)] the only whitespace is the space. *)
Lemma collapse_ws_spaces b s :
  Forall (fun c => py_isspace c = true -> c = " "%char)
         (chars (collapse_ws_from b s)).
Proof.
  revert b. induction s as [|c s IH]; intros b; simpl; [constructor|].
  destruct (py_isspace c) eqn:Hc; [destruct b|]; simpl.
  - apply IH.
  - constructor; [done|apply IH].
  - constructor; [congruence|apply IH].
Qed.

Lemma unleet_clean c :
  py_isspace c = false -> is_kept (unleet c) = true ->
  is_clean_char (unleet c) = true.
Proof. each_ascii c. Qed.

Lemma unleet_space : unleet " " = " "%char.
Proof. reflexivity. Qed.

Lemma clean_content_unfold s :
  _clean_content s
  = str_filter is_kept (str_map unleet (strip (collapse_ws (lower s)))).
Proof.
  unfold _clean_content, replace_class. f_equal.
  generalize (strip (collapse_ws (lower s))). intros t.
  induction t as [|c t IH]; simpl; [done|]. by rewrite <-IH.
Qed.

(** X1: the text that [_clean_content] hands to the patterns holds only
    lower-case letters, the digits 2, 6, 7, 8 and 9, and spaces. *)
Theorem X1_clean_content_alphabet (s : string) :
  Forall (fun c => is_clean_char c = true) (chars (_clean_content s)).
Proof.
  rewrite clean_content_unfold, chars_str_filter, chars_str_map.
  pose proof (Forall_chars_strip _ _ (collapse_ws_spaces false (lower s))) as H.
  fold (collapse_ws (lower s)) in H.
  induction H as [|c l Hc _ IH]; csimpl; [constructor|].
  destruct (is_kept (unleet c)) eqn:Hkept; [|done].
  constructor; [|done].
  destruct (py_isspace c) eqn:Hsp.
  - by rewrite (Hc eq_refl).
  - by apply unleet_clean.
Qed.

Lemma ml_replacement_char c :
  (py_isspace c = true -> c = " "%char) ->
  is_ml_char
    (if negb (py_isword c || py_isspace c
              || is_one_of ["."; "!"; "?"; ","; ";"; ":"; "-"; "'"; "034"]%char c)
     then " "%char else c) = true.
Proof.
  intros Hsp. destruct (py_isspace c) eqn:E.
  - rewrite (Hsp eq_refl). reflexivity.
  - revert E. clear Hsp. each_ascii c.
Qed.

(** X2: the text that [_clean_content_for_ml] hands to the model has at
    most 512 characters, is never longer than the input, and holds only
    characters of words, spaces and the punctuation marks . ! ? , ; : - '
    and the double quote. *)
Theorem X2_clean_content_for_ml_result (s : string) :
  (String.length (_clean_content_for_ml s) <= 512)%nat
  /\ (String.length (_clean_content_for_ml s) <= String.length s)%nat
  /\ Forall (fun c => is_ml_char c = true) (chars (_clean_content_for_ml s)).
Proof.
  unfold _clean_content_for_ml, replace_class.
  set (t := str_map _ _).
  assert (String.length t <= String.length s)%nat as Ht.
  { unfold t. rewrite length_str_map.
    pose proof (length_strip (collapse_ws s)).
    pose proof (length_collapse_ws_from false s). unfold collapse_ws in *. lia. }
  assert (Forall (fun c => is_ml_char c = true) (chars t)) as Hall.
  { unfold t. rewrite chars_str_map. apply Forall_fmap.
    eapply Forall_impl;
      [apply Forall_chars_strip, (collapse_ws_spaces false s)|].
    intros c Hc. by apply ml_replacement_char. }
  destruct (512 <? String.length t)%nat eqn:Hlen.
  - rewrite length_take. apply Nat.ltb_lt in Hlen.
    split_and!; [lia|lia|by apply Forall_chars_take].
  - apply Nat.ltb_ge in Hlen. split_and!; [lia|lia|done].
Qed.

Lemma str_map_compose f g s : str_map f (str_map g s) = str_map (f ∘ g) s.
Proof. induction s as [|c s IH]; simpl; [done|]. by rewrite IH. Qed.

Section space_preserving.
Variable f : ascii -> ascii.
Hypothesis f_space : forall c, py_isspace (f c) = py_isspace c.
Hypothesis f_blank : f " " = " "%char.

Lemma collapse_ws_from_map b s :
  collapse_ws_from b (str_map f s) = str_map f (collapse_ws_from b s).
Proof.
  revert b. induction s as [|c s IH]; intros b; simpl; [done|].
  rewrite f_space. destruct (py_isspace c); [destruct b|]; simpl;
    rewrite ?IH, ?f_blank; done.
Qed.

Lemma lstrip_map s : lstrip (str_map f s) = str_map f (lstrip s).
Proof.
  induction s as [|c s IH]; simpl; [done|].
  rewrite f_space. by destruct (py_isspace c).
Qed.

Lemma rstrip_map s : rstrip (str_map f s) = str_map f (rstrip s).
Proof.
  induction s as [|c s IH]; simpl; [done|].
  rewrite IH, f_space.
  destruct (rstrip s); [destruct (py_isspace c)|]; done.
Qed.

Lemma strip_map s : strip (str_map f s) = str_map f (strip s).
Proof. unfold strip. by rewrite lstrip_map, rstrip_map. Qed.
End space_preserving.

Lemma unleet_isspace c : py_isspace (unleet c) = py_isspace c.
Proof. each_ascii c. Qed.

(** [_clean_content] reads its input through [fold_char] only. *)
Lemma clean_content_fold s :
  _clean_content s
  = str_filter is_kept (strip (collapse_ws (str_map fold_char s))).
Proof.
  rewrite clean_content_unfold. f_equal. unfold collapse_ws, lower.
  rewrite <-(strip_map unleet unleet_isspace),
          <-(collapse_ws_from_map unleet unleet_isspace unleet_space).
  by rewrite str_map_compose.
Qed.

(** X3: on the pattern path two texts of code points below 256, where
    [str.lower] maps character to character, that differ only in the case
    of their letters and in the substitutions 4 or @ for a, 3 for e, 1 or
    ! for i, 0 for o, 5 or $ for s get the same verdict. *)
Theorem X3_pattern_verdict_ignores_case_and_leetspeak
    (w0 : world) (use_ml : bool) (d : detector) (w : world) (s1 s2 : string) :
  constructed w0 use_ml d -> use_ml_model d = false ->
  s1 <> "" ->
  str_map fold_char s1 = str_map fold_char s2 ->
  check_toxicity w (VStr s1) d = check_toxicity w (VStr s2) d.
Proof.
  intros Hc Hmode Hne Hfold. rewrite (constructed_rule _ _ _ Hc Hmode).
  assert (String.length s1 = String.length s2) as Hlen.
  { by rewrite <-(length_str_map fold_char s1), Hfold, length_str_map. }
  assert (s2 <> "") as Hne2.
  { intros ->. by destruct s1. }
  rewrite !check_toxicity_str by done. simpl.
  rewrite !rule_based_run. unfold rule_verdict, rule_confidence, rule_tally,
    rule_matches.
  by rewrite !clean_content_fold, Hfold, Hlen.
Qed.

(** X3 for a shouted, obfuscated insult and its plain form. *)
Lemma X3_pattern_verdict_witness :
  check_toxicity offline (VStr "1D10T you") rule_detector
  = check_toxicity offline (VStr "idiot YOU") rule_detector.
Proof.
  apply (X3_pattern_verdict_ignores_case_and_leetspeak offline false).
  - reflexivity.
  - reflexivity.
  - discriminate.
  - reflexivity.
Defined.

(** ** Ranges of the numbers in a verdict *)

Lemma round3_exact (k : Z) (x : Q) :
  (x == k # 1000)%Q -> (round x 3 == k # 1000)%Q.
Proof.
  intros Hx. apply Qle_antisym; [apply round3_le|apply round3_ge]; lra.
Qed.

Lemma round3_unit_interval (x : Q) :
  (0 <= x <= 1)%Q -> (0 <= round x 3 <= 1)%Q.
Proof.
  intros [H0 H1].
  assert (0 # 1000 <= round x 3)%Q by (apply round3_ge; lra).
  assert (round x 3 <= 1000 # 1000)%Q by (apply round3_le; lra).
  lra.
Qed.

Lemma rule_final_score_range (ms : list pattern_match) :
  (0 <= final_score (tally rule_weights (hits rule_categories ms)).1 <= 1)%Q.
Proof.
  pose proof (rule_final_score_bounds ms) as [Hzero Hpos]. simpl in *.
  destruct (decide ((tally rule_weights (hits rule_categories ms)).1 = []))
    as [Hnil|Hne].
  - rewrite (Hzero Hnil). lra.
  - split; [specialize (Hpos Hne); lra|].
    unfold final_score. rewrite bool_decide_eq_true_2 by done.
    apply Q.le_min_l.
Qed.

Lemma ml_confidence_range (s t : Q) : (0 <= ml_confidence s t <= 1)%Q.
Proof.
  unfold ml_confidence.
  destruct (Qle_bool s (1 # 10) || Qgeb s (9 # 10));
    split; name_minmax; by_cases_lra.
Qed.

Lemma rule_confidence_value (content : string) :
  ((length (rule_matches content) < 3)%nat ->
   (rule_confidence content
    == (300 + 200 * Z.of_nat (length (rule_matches content))) # 1000)%Q)
  /\ ((3 <= length (rule_matches content))%nat ->
      (rule_confidence content == 900 # 1000)%Q).
Proof.
  set (n := length (rule_matches content)). unfold rule_confidence. fold n.
  assert (inject_Z (Z.of_nat n) == Z.of_nat n # 1)%Q as Hn by reflexivity.
  split; intros Hlt.
  - assert (0 <= inject_Z (Z.of_nat n) <= 2)%Q as [? ?].
    { split; [change 0%Q with (inject_Z 0)|change 2%Q with (inject_Z 2)];
        rewrite <-Zle_Qle; lia. }
    assert ((300 + 200 * Z.of_nat n) # 1000
            == (3 # 10) + inject_Z (Z.of_nat n) * (2 # 10))%Q as ->.
    { unfold Qeq. simpl. lia. }
    apply Q.min_r. lra.
  - assert (3 <= inject_Z (Z.of_nat n))%Q.
    { change 3%Q with (inject_Z 3). rewrite <-Zle_Qle. lia. }
    assert (900 # 1000 == 9 # 10)%Q as -> by reflexivity.
    apply Q.min_l. lra.
Qed.

Lemma rule_confidence_range (content : string) :
  (3 # 10 <= rule_confidence content <= 9 # 10)%Q.
Proof.
  unfold rule_confidence.
  assert (0 <= inject_Z (Z.of_nat (length (rule_matches content))))%Q.
  { change 0%Q with (inject_Z 0). rewrite <-Zle_Qle. lia. }
  split; name_minmax; by_cases_lra.
Qed.

(** X4: the [toxicity_score] and the [confidence] of a verdict lie between 0
    and 1 on both paths, whatever number the model returns. *)
Theorem X4_score_and_confidence_in_unit_interval
    (w0 : world) (use_ml : bool) (d : detector) (w : world) (content : string) :
  constructed w0 use_ml d -> content <> "" ->
  (use_ml_model d = false ->
   exists v,
     check_toxicity w (VStr content) d = (Ok v, d)
     /\ (0 <= toxicity_score v <= 1)%Q /\ (0 <= confidence v <= 1)%Q)
  /\ (use_ml_model d = true ->
      forall p,
        model_probability w (_clean_content_for_ml content) (max_length_of d)
        = Ok p ->
        exists v,
          check_toxicity w (VStr content) d = (Ok v, d)
          /\ (0 <= toxicity_score v <= 1)%Q /\ (0 <= confidence v <= 1)%Q).
Proof.
  intros Hc Hne. split; intros Hmode.
  - rewrite (constructed_rule _ _ _ Hc Hmode).
    exists (rule_verdict w content). split; [|split].
    + rewrite check_toxicity_str by done. apply rule_based_run.
    + apply round3_unit_interval, rule_final_score_range.
    + apply round3_unit_interval.
      pose proof (rule_confidence_range content). lra.
  - intros p Hp. exists (ml_verdict w d content p). split; [|split].
    + rewrite check_toxicity_str, Hmode by done. by apply ml_run.
    + apply round3_unit_interval, ml_score_range.
    + apply round3_unit_interval, ml_confidence_range.
Qed.

(** X4 on each path; the model of the second process answers 7. *)
Lemma X4_unit_interval_witness :
  (exists v,
     check_toxicity offline (VStr "shit, idiot you") rule_detector
     = (Ok v, rule_detector)
     /\ (0 <= toxicity_score v <= 1)%Q /\ (0 <= confidence v <= 1)%Q)
  /\ (exists v,
        check_toxicity (serving (1 # 2) (7 # 1)) (VStr "hello")
                       (served_detector (1 # 2))
        = (Ok v, served_detector (1 # 2))
        /\ (0 <= toxicity_score v <= 1)%Q /\ (0 <= confidence v <= 1)%Q).
Proof.
  split.
  - refine (proj1 (X4_score_and_confidence_in_unit_interval
                     offline false rule_detector offline "shit, idiot you"
                     eq_refl _) eq_refl).
    discriminate.
  - refine (proj2 (X4_score_and_confidence_in_unit_interval
                     (serving (1 # 2) (7 # 1)) true (served_detector (1 # 2))
                     (serving (1 # 2) (7 # 1)) "hello" eq_refl _)
                  eq_refl (7 # 1) eq_refl).
    discriminate.
Defined.

(** X5: on the pattern path the confidence is 0.3 without a match, 0.5
    with one, 0.7 with two, and 0.9 from three matches on. *)
Theorem X5_pattern_confidence_saturates
    (w0 : world) (use_ml : bool) (d : detector) (w : world) (content : string) :
  constructed w0 use_ml d -> use_ml_model d = false ->
  exists v ms,
    _check_toxicity_rule_based w content d = (Ok v, d)
    /\ _find_toxic_patterns (_clean_content content) d = (Ok ms, d)
    /\ ((length ms < 3)%nat ->
        (confidence v == (3 # 10) + (2 # 10) * inject_Z (Z.of_nat (length ms)))%Q)
    /\ ((3 <= length ms)%nat -> (confidence v == 9 # 10)%Q).
Proof.
  intros Hc Hmode. rewrite (constructed_rule _ _ _ Hc Hmode).
  exists (rule_verdict w content), (rule_matches content).
  pose proof (rule_confidence_value content) as [Hlow Hhigh].
  split_and!.
  - apply rule_based_run.
  - done.
  - intros Hn. rewrite (round3_exact _ _ (Hlow Hn)).
    unfold Qeq. simpl. lia.
  - intros Hn. by rewrite (round3_exact _ _ (Hhigh Hn)).
Qed.

(** X5 for a text with four matches. *)
Lemma X5_pattern_confidence_witness :
  exists v ms,
    _check_toxicity_rule_based offline "shit damn spam troll" rule_detector
    = (Ok v, rule_detector)
    /\ _find_toxic_patterns (_clean_content "shit damn spam troll") rule_detector
       = (Ok ms, rule_detector)
    /\ ((3 <= length ms)%nat -> (confidence v == 9 # 10)%Q).
Proof.
  destruct (X5_pattern_confidence_saturates offline false rule_detector
              offline "shit damn spam troll" eq_refl eq_refl)
    as (v & ms & H1 & H2 & _ & H3).
  exists v, ms. split; [exact H1|]. split; [exact H2|exact H3].
Defined.

(** ** Categories that a verdict can name *)

Lemma ml_categories_cases (content : string) (score : Q) :
  let cats := _analyze_toxicity_categories_ml content score in
  (Qgtb score (3 # 10) = false -> cats = [])
  /\ (Qgtb score (3 # 10) = true -> Qgtb score (6 # 10) = true -> cats <> [])
  /\ ("general_toxicity" ∈ cats -> cats = ["general_toxicity"])
  /\ (forall c, c ∈ cats ->
        c ∈ ["profanity"; "hate_speech"; "harassment"; "threat";
             "general_toxicity"]).
Proof.
  unfold _analyze_toxicity_categories_ml.
  destruct (Qgtb score (3 # 10)), (Qgtb score (6 # 10));
    repeat match goal with
      | |- context [any_in ?ks ?s] => destruct (any_in ks s)
      end;
    vm_compute bool_decide; cbn [negb andb app];
    (split_and!;
     [try done; intros; exfalso; done
     |try done; by intros _ _ ?
     |try done; intros H; by repeat (apply elem_of_cons in H as [H|H];
                                 [discriminate H|]);
                          try (by apply elem_of_nil in H)
     |intros c H;
      repeat (apply elem_of_cons in H as [->|H];
              [apply (bool_decide_unpack _); by vm_compute|]);
      by apply elem_of_nil in H]).
Qed.

(** X6: on the model path the categories are empty when the score is at
    most 0.3 and non-empty when it is above 0.6; general_toxicity is never
    given together with another category; and no category other than
    profanity, hate_speech, harassment, threat and general_toxicity is ever
    given. *)
Theorem X6_model_path_categories
    (w0 : world) (use_ml : bool) (d : detector) (w : world) (content : string)
    (p : Q) :
  constructed w0 use_ml d -> use_ml_model d = true -> content <> "" ->
  model_probability w (_clean_content_for_ml content) (max_length_of d) = Ok p ->
  exists v,
    check_toxicity w (VStr content) d = (Ok v, d)
    /\ ((ml_score p <= 3 # 10)%Q -> categories v = [])
    /\ ((6 # 10 < ml_score p)%Q -> categories v <> [])
    /\ ("general_toxicity" ∈ categories v ->
        categories v = ["general_toxicity"])
    /\ (forall c, c ∈ categories v ->
          c ∈ ["profanity"; "hate_speech"; "harassment"; "threat";
               "general_toxicity"]).
Proof.
  intros Hc Hmode Hne Hp. exists (ml_verdict w d content p).
  pose proof (ml_categories_cases (_clean_content_for_ml content) (ml_score p))
    as (Hlow & Hhigh & Hgen & Hall).
  split; [|split; [|split; [|split]]]; simpl.
  - rewrite check_toxicity_str, Hmode by done. by apply ml_run.
  - intros Hs. apply Hlow. apply not_true_is_false.
    intros Hgt%Qgtb_true. lra.
  - intros Hs. apply Hhigh; apply Qgtb_true; lra.
  - exact Hgen.
  - exact Hall.
Qed.

(** X6 for a text without keyword and a model that answers 0.95. *)
Lemma X6_model_path_categories_witness :
  exists v,
    check_toxicity (serving (1 # 2) (95 # 100)) (VStr "hello")
                   (served_detector (1 # 2))
    = (Ok v, served_detector (1 # 2))
    /\ categories v <> [].
Proof.
  destruct (X6_model_path_categories
              (serving (1 # 2) (95 # 100)) true (served_detector (1 # 2))
              (serving (1 # 2) (95 # 100)) "hello" (95 # 100)
              eq_refl eq_refl ltac:(discriminate) eq_refl)
    as (v & H1 & _ & H2 & _).
  exists v. split; [exact H1|]. apply H2. reflexivity.
Defined.

(** ** Categories of the pattern path *)

Lemma all_matches_index patterns content (m : pattern_match) :
  m ∈ all_matches patterns content -> (m.2 < length patterns)%nat.
Proof.
  unfold all_matches. intros (l & Hm & Hl)%list_elem_of_join.
  apply elem_of_lookup_imap in Hl as (i & pattern & -> & Hi).
  apply list_elem_of_fmap in Hm as (caps & -> & _). simpl.
  by apply lookup_lt_Some in Hi.
Qed.

Lemma rule_hits_names content c :
  c ∈ hits rule_categories (rule_matches content) ->
  c ∈ ["profanity"; "hate_speech"; "harassment"].
Proof.
  unfold hits. intros (m & Hc & Hm)%list_elem_of_bind.
  apply all_matches_index in Hm. change (length rule_patterns) with 6%nat in Hm.
  destruct m as [caps i]. simpl in *.
  do 6 (destruct i as [|i];
        [vm_compute in Hc;
         apply list_elem_of_singleton in Hc as ->;
         apply (bool_decide_unpack _); by vm_compute|]).
  lia.
Qed.

(** X7: in pattern mode [get_detector_info] reports six patterns and the
    four categories profanity, hate_speech, harassment and toxic_behavior,
    but no verdict of the pattern path ever names toxic_behavior: its only
    pattern index, 6, is the index of no pattern.  In model mode
    [get_detector_info] reports the type ml_model. *)
Theorem X7_toxic_behavior_is_advertised_but_never_attributed
    (w0 : world) (use_ml : bool) (d : detector) :
  constructed w0 use_ml d ->
  (use_ml_model d = false ->
   (exists info,
      get_detector_info d = (Ok info, d)
      /\ detector_type info = "rule_based"
      /\ total_patterns info = Some 6%nat
      /\ info_categories info
         = Some ["profanity"; "hate_speech"; "harassment"; "toxic_behavior"])
   /\ forall w content,
        exists v,
          _check_toxicity_rule_based w content d = (Ok v, d)
          /\ (forall c, c ∈ categories v ->
                c ∈ ["profanity"; "hate_speech"; "harassment"])
          /\ "toxic_behavior" ∉ categories v)
  /\ (use_ml_model d = true ->
      exists info,
        get_detector_info d = (Ok info, d)
        /\ detector_type info = "ml_model"
        /\ total_patterns info = None /\ info_categories info = None).
Proof.
  intros Hc. split; intros Hmode.
  - rewrite (constructed_rule _ _ _ Hc Hmode). split.
    + eexists. split; [reflexivity|]. by vm_compute.
    + intros w content. exists (rule_verdict w content).
      assert (forall c, c ∈ categories (rule_verdict w content) ->
                c ∈ ["profanity"; "hate_speech"; "harassment"]) as Hall.
      { intros c Hin. simpl in Hin. apply elem_of_sorted_list in Hin.
        pose proof (tally_ok rule_weights
                      (hits rule_categories (rule_matches content)))
          as [_ _ _ Hids].
        apply Hids in Hin. by apply rule_hits_names in Hin. }
      split; [apply rule_based_run|]. split; [exact Hall|].
      intros Hin%Hall.
      repeat (apply elem_of_cons in Hin as [Hin|Hin]; [discriminate Hin|]).
      by apply elem_of_nil in Hin.
  - unfold get_detector_info. rewrite bind_run. unfold read. rewrite Hmode.
    eexists. split; [reflexivity|]. done.
Qed.

(** X7 for the object built without the library and a text with "spam". *)
Lemma X7_toxic_behavior_witness :
  exists v,
    _check_toxicity_rule_based offline "stop the spam" rule_detector
    = (Ok v, rule_detector)
    /\ "toxic_behavior" ∉ categories v.
Proof.
  destruct (proj1 (X7_toxic_behavior_is_advertised_but_never_attributed
                     offline false rule_detector eq_refl) eq_refl)
    as (_ & Hnever).
  destruct (Hnever offline "stop the spam") as (v & H1 & _ & H2).
  exists v. split; [exact H1|exact H2].
Defined.

(** ** The order of the matches *)

Lemma elem_of_dict (d : dict) k v :
  NoDup (keys d) -> (k, v) ∈ d <-> dict_get k d = Some v.
Proof.
  unfold keys. induction d as [|[k' v'] d IH]; csimpl; intros Hnd.
  - split; [by intros ?%elem_of_nil|done].
  - apply NoDup_cons in Hnd as [Hk Hnd]. rewrite elem_of_cons, (IH Hnd).
    destruct (String.eqb_spec k' k) as [->|Hne].
    + split; [|intros [= ->]; by left].
      intros [[= ->]|Hget]; [done|].
      exfalso. apply Hk. change (k ∈ keys d). apply dict_get_keys. eauto.
    + split; [|by right]. intros [[= -> ->]|?]; done.
Qed.

(** Two dictionaries with the same lookups hold the same entries. *)
Lemma dict_Permutation (d1 d2 : dict) :
  NoDup (keys d1) -> NoDup (keys d2) ->
  (forall k, dict_get k d1 = dict_get k d2) -> d1 ≡ₚ d2.
Proof.
  intros H1 H2 Hget. apply NoDup_Permutation.
  - by apply (NoDup_fmap_1 fst).
  - by apply (NoDup_fmap_1 fst).
  - intros [k v]. by rewrite !elem_of_dict, Hget.
Qed.

(** The entry of a category depends only on the number of its hits: the
    same additions are made whatever happens to other categories in
    between. *)
Lemma tally_get weights hs c :
  dict_get c (tally weights hs).1
  = if decide (count c hs = 0%nat) then None
    else Some (accumulated (weight_of weights c) (count c hs)).
Proof.
  unfold tally. induction hs as [|x hs IH] using rev_ind; [done|].
  rewrite fold_left_app, count_app, count_singleton. simpl.
  set (acc := fold_left (add_hit weights) hs ([], ∅)) in *.
  unfold add_hit. cbn [fst snd].
  destruct (decide (c = x)) as [<-|Hne].
  - rewrite dict_get_set_eq, Nat.add_1_r. rewrite decide_False by done.
    f_equal. simpl. f_equal.
    destruct (dict_mem c acc.1) eqn:Hmem.
    + rewrite IH. destruct (decide (count c hs = 0%nat)) as [Hz|Hnz]; [|done].
      apply dict_mem_keys, dict_get_keys in Hmem as [v Hv]. congruence.
    + rewrite dict_get_set_eq.
      destruct (decide (count c hs = 0%nat)) as [Hz|Hnz]; [by rewrite Hz|].
      assert (is_Some (dict_get c acc.1)) as Hs by (rewrite IH; eauto).
      apply dict_get_keys, dict_mem_keys in Hs. congruence.
  - rewrite Nat.add_0_r, dict_get_set_ne by done.
    destruct (dict_mem x acc.1); [done|]. by rewrite dict_get_set_ne.
Qed.

Lemma count_Permutation c (hs1 hs2 : list string) :
  hs1 ≡ₚ hs2 -> count c hs1 = count c hs2.
Proof. intros H. unfold count. by rewrite H. Qed.

Lemma hits_Permutation items (ms1 ms2 : list pattern_match) :
  ms1 ≡ₚ ms2 -> hits items ms1 ≡ₚ hits items ms2.
Proof. intros H. unfold hits. by rewrite H. Qed.

Lemma tally_Permutation weights (hs1 hs2 : list string) :
  hs1 ≡ₚ hs2 ->
  (tally weights hs1).1 ≡ₚ (tally weights hs2).1
  /\ (tally weights hs1).2 = (tally weights hs2).2.
Proof.
  intros H.
  pose proof (tally_ok weights hs1) as [Hnd1 _ _ Hids1].
  pose proof (tally_ok weights hs2) as [Hnd2 _ _ Hids2].
  split.
  - apply dict_Permutation; [done|done|].
    intros c. by rewrite !tally_get, (count_Permutation c _ _ H).
  - apply set_eq. intros c. by rewrite Hids1, Hids2, H.
Qed.

Lemma rule_score_matches_run ms :
  score_matches ms rule_detector
  = (Ok (tally rule_weights (hits rule_categories ms)), rule_detector).
Proof.
  apply score_matches_run; [done|done|apply rule_weights_total].
Qed.

(** X8: the order of the matches changes at most the insertion order of
    [category_scores].  For two lists of matches that are permutations of
    each other the loops of [_calculate_toxicity_score] end with the same
    [identified_categories] and with dictionaries that hold the same
    entries, each category with the same accumulated weight; the returned
    categories are the same, and each score is computed from its
    dictionary. *)
Theorem X8_match_order_changes_only_insertion_order
    (w0 : world) (use_ml : bool) (d : detector) (ms1 ms2 : list pattern_match) :
  constructed w0 use_ml d -> use_ml_model d = false ->
  ms1 ≡ₚ ms2 ->
  exists cs1 cs2 ids cats,
    score_matches ms1 d = (Ok (cs1, ids), d)
    /\ score_matches ms2 d = (Ok (cs2, ids), d)
    /\ cs1 ≡ₚ cs2
    /\ (forall c, dict_get c cs1 = dict_get c cs2)
    /\ _calculate_toxicity_score ms1 d = (Ok (final_score cs1, cats), d)
    /\ _calculate_toxicity_score ms2 d = (Ok (final_score cs2, cats), d).
Proof.
  intros Hc Hmode Hperm. rewrite (constructed_rule _ _ _ Hc Hmode).
  pose proof (hits_Permutation rule_categories _ _ Hperm) as Hhits.
  destruct (tally_Permutation rule_weights _ _ Hhits) as [Hcs Hids].
  exists (tally rule_weights (hits rule_categories ms1)).1,
         (tally rule_weights (hits rule_categories ms2)).1,
         (tally rule_weights (hits rule_categories ms1)).2,
         (sorted_list (tally rule_weights (hits rule_categories ms1)).2).
  split; [|split; [|split; [|split; [|split]]]].
  - by rewrite rule_score_matches_run, <-surjective_pairing.
  - by rewrite rule_score_matches_run, Hids, <-surjective_pairing.
  - exact Hcs.
  - intros c. by rewrite !tally_get, (count_Permutation c _ _ Hhits).
  - apply rule_calculate_run.
  - rewrite Hids. apply rule_calculate_run.
Qed.

(** X8 for a match of profanity and one of hate speech in both orders. *)
Lemma X8_match_order_witness :
  exists cs1 cs2 ids cats,
    score_matches [(["shit"], 0%nat); (["kys"], 2%nat)] rule_detector
    = (Ok (cs1, ids), rule_detector)
    /\ score_matches [(["kys"], 2%nat); (["shit"], 0%nat)] rule_detector
       = (Ok (cs2, ids), rule_detector)
    /\ cs1 ≡ₚ cs2
    /\ (forall c, dict_get c cs1 = dict_get c cs2)
    /\ _calculate_toxicity_score
         [(["shit"], 0%nat); (["kys"], 2%nat)] rule_detector
       = (Ok (final_score cs1, cats), rule_detector)
    /\ _calculate_toxicity_score
         [(["kys"], 2%nat); (["shit"], 0%nat)] rule_detector
       = (Ok (final_score cs2, cats), rule_detector).
Proof.
  apply (X8_match_order_changes_only_insertion_order offline false).
  - reflexivity.
  - reflexivity.
  - apply perm_swap.
Defined.

(** * Properties of the validators *)

Lemma strip_nonempty s : strip s <> EmptyString -> s <> EmptyString.
Proof. intros H ->. by apply H. Qed.

(** X9: [validate_content] accepts exactly the strings that are not blank
    and have at most 10000 characters, and a content that it accepts is
    never rejected by [check_toxicity]; in pattern mode the call returns a
    verdict. *)
Theorem X9_validated_content_is_accepted_by_the_detector (content : value) :
  (valid (validate_content content) = true
   <-> exists s, content = VStr s /\ strip s <> EmptyString
                 /\ (String.length s <= max_content_length)%nat)
  /\ (valid (validate_content content) = true ->
      forall w d,
        (forall msg, (check_toxicity w content d).1 <> Raise (ValueError msg))
        /\ exists v, check_toxicity w content rule_detector
                     = (Ok v, rule_detector)).
Proof.
  assert (valid (validate_content content) = true
          <-> exists s, content = VStr s /\ strip s <> EmptyString
                        /\ (String.length s <= max_content_length)%nat) as Hiff.
  { destruct content as [| | |s|]; simpl;
      try (split; [done|by intros (? & ? & _)]).
    destruct (Nat.eqb_spec (String.length (strip s)) 0) as [Hz|Hnz]; simpl.
    - split; [done|]. intros (? & [= <-] & Hne & _).
      by destruct (strip s).
    - destruct (Nat.ltb_spec max_content_length (String.length s)) as [Hl|Hl];
        simpl.
      + split; [done|]. intros (? & [= <-] & _ & ?). lia.
      + split; [|done]. intros _. exists s. split_and!; [done| |lia].
        intros E. by rewrite E in Hnz. }
  split; [exact Hiff|].
  intros (s & -> & Hne%strip_nonempty & _)%Hiff w d. split.
  - intros msg. rewrite check_toxicity_str by done.
    destruct (use_ml_model d); [|apply nve_rule_based].
    unfold _check_toxicity_ml. apply nve_try_except.
    intros. apply nve_rule_based.
  - eexists. rewrite check_toxicity_str by done. apply rule_based_run.
Qed.

(** X9 for a short text. *)
Lemma X9_validated_content_witness :
  exists v,
    check_toxicity offline (VStr "hello there") rule_detector
    = (Ok v, rule_detector).
Proof.
  apply (proj2 (X9_validated_content_is_accepted_by_the_detector
                  (VStr "hello there")) eq_refl offline rule_detector).
Defined.

Lemma lstrip_head s c t : lstrip s = String c t -> py_isspace c = false.
Proof.
  induction s as [|c' s IH]; simpl; [done|].
  destruct (py_isspace c') eqn:E; [done|]. by intros [= <- <-].
Qed.

Lemma rstrip_idemp s : rstrip (rstrip s) = rstrip s.
Proof.
  induction s as [|c s IH]; simpl; [done|].
  destruct (rstrip s) as [|c' t] eqn:E.
  - destruct (py_isspace c) eqn:Hc; simpl; [done|]. by rewrite Hc.
  - change (rstrip (String c (String c' t))) with
      (match rstrip (String c' t) with
       | EmptyString =>
           if py_isspace c then EmptyString else String c EmptyString
       | t' => String c t'
       end).
    by rewrite IH.
Qed.

Lemma rstrip_keeps_head c t :
  py_isspace c = false -> exists t', rstrip (String c t) = String c t'.
Proof.
  intros Hc. simpl. destruct (rstrip t); [rewrite Hc|]; eauto.
Qed.

Lemma strip_idemp s : strip (strip s) = strip s.
Proof.
  unfold strip. destruct (lstrip s) as [|c t] eqn:E; [done|].
  pose proof (lstrip_head _ _ _ E) as Hc.
  destruct (rstrip_keeps_head c t Hc) as [t' Ht']. rewrite Ht'.
  simpl lstrip. rewrite Hc, <-Ht'. apply rstrip_idemp.
Qed.

Lemma str_filter_id p s :
  Forall (fun c => p c = true) (chars s) -> str_filter p s = s.
Proof.
  induction s as [|c s IH]; simpl; [done|]. intros H.
  inversion H as [|? ? Hc Hs]; subst. rewrite Hc. by rewrite IH.
Qed.

Lemma take_id n s : (String.length s <= n)%nat -> take n s = s.
Proof.
  revert s. induction n as [|n IH]; intros [|c s]; simpl; try done; [lia|].
  intros H. rewrite IH; [done|lia].
Qed.

Lemma Forall_chars_str_filter p s :
  Forall (fun c => p c = true) (chars (str_filter p s)).
Proof.
  induction s as [|c s IH]; simpl; [constructor|].
  destruct (p c) eqn:E; [by constructor|done].
Qed.

Lemma sanitize_input_length (text : value) :
  (String.length (sanitize_input text) <= max_content_length)%nat.
Proof.
  destruct text as [| | |s|]; cbn [sanitize_input]; try apply Nat.le_0_l.
  pose proof (length_strip
                (take max_content_length
                      (str_filter (fun c => negb (is_control c)) s))) as H.
  rewrite length_take in H. lia.
Qed.

Lemma sanitize_input_stripped (text : value) :
  strip (sanitize_input text) = sanitize_input text.
Proof.
  destruct text as [| | |s|]; cbn [sanitize_input]; try done.
  apply strip_idemp.
Qed.

(** X10: the text that [sanitize_input] returns has at most 10000
    characters, none of them a control character of the removed class, has
    no whitespace at either end, and is left as it is by a second
    [sanitize_input]; what is not a string becomes the empty text. *)
Theorem X10_sanitize_input_result (text : value) :
  (String.length (sanitize_input text) <= max_content_length)%nat
  /\ Forall (fun c => is_control c = false) (chars (sanitize_input text))
  /\ strip (sanitize_input text) = sanitize_input text
  /\ sanitize_input (VStr (sanitize_input text)) = sanitize_input text
  /\ (is_str text = false -> sanitize_input text = EmptyString).
Proof.
  split; [apply sanitize_input_length|].
  assert (Forall (fun c => negb (is_control c) = true)
                 (chars (sanitize_input text))) as Hall.
  { destruct text as [| | |s|]; cbn [sanitize_input]; try constructor.
    apply Forall_chars_strip, Forall_chars_take, Forall_chars_str_filter. }
  split_and!.
  - eapply Forall_impl; [exact Hall|]. intros c. apply negb_true_iff.
  - apply sanitize_input_stripped.
  - cbn [sanitize_input].
    rewrite (str_filter_id _ _ Hall), (take_id _ _ (sanitize_input_length text)).
    apply sanitize_input_stripped.
  - by destruct text.
Qed.

Lemma validate_sanitized (text : value) :
  validate_content (VStr (sanitize_input text))
  = if String.eqb (sanitize_input text) EmptyString
    then {| valid := false; error := Some "Content cannot be empty" |}
    else {| valid := true; error := None |}.
Proof.
  pose proof (sanitize_input_length text) as Hlen.
  cbn [validate_content]. rewrite sanitize_input_stripped.
  destruct (sanitize_input text) as [|c t] eqn:E; [done|].
  assert ((max_content_length <? String.length (String c t))%nat = false) as ->
    by (by apply Nat.ltb_ge).
  done.
Qed.

(** X11: after [sanitize_input], [validate_content] fails in one way only:
    the text is accepted exactly when it is not empty, and otherwise the
    error is that the content cannot be empty. *)
Theorem X11_validation_after_sanitizing (text : value) :
  let checked := validate_content (VStr (sanitize_input text)) in
  (valid checked = true <-> sanitize_input text <> EmptyString)
  /\ (valid checked = true -> error checked = None)
  /\ (valid checked = false -> error checked = Some "Content cannot be empty").
Proof.
  cbv zeta. rewrite validate_sanitized.
  destruct (String.eqb_spec (sanitize_input text) EmptyString) as [->|Hne];
    cbn [valid error].
  - split_and!; [split; done|done|done].
  - split_and!; [split; done|done|done].
Qed.

(** ** Identifiers *)

Lemma at_end_cases s :
  at_end s = true <-> s = EmptyString \/ s = String "010" EmptyString.
Proof.
  destruct s as [|c [|c' t]]; simpl.
  - split; [by left|done].
  - split.
    + intros H%N.eqb_eq. right. f_equal.
      rewrite <-(ascii_N_embedding c). unfold code in H. by rewrite H.
    + by intros [|[= ->]].
  - split; [done|by intros [|]].
Qed.

Lemma id_char_not_newline c : is_id_char c = true -> (code c =? 10)%N = false.
Proof. each_ascii c. Qed.

Lemma append_empty_r s : String.append s EmptyString = s.
Proof.
  induction s as [|c s IH]; [done|].
  change (String c (s +:+ EmptyString) = String c s). by rewrite IH.
Qed.

Lemma id_chars_then_end_spec (lo hi n : nat) (s : string) :
  (n <= hi)%nat ->
  id_chars_then_end lo hi n s = true
  <-> exists body rest,
        s = String.append body rest /\ at_end rest = true
        /\ Forall (fun c => is_id_char c = true) (chars body)
        /\ (lo <= n + String.length body <= hi)%nat.
Proof.
  revert n. induction s as [|c t IH]; intros n Hn; simpl.
  - rewrite andb_true_r, Nat.leb_le. split.
    + intros Hlo. exists EmptyString, EmptyString. simpl.
      split_and!; [done|done|constructor|lia|lia].
    + intros (body & rest & Hs & _ & _ & Hlen & _).
      destruct body; [simpl in Hlen; lia|done].
  - destruct (is_id_char c && (n <? hi)%nat) eqn:Hstep.
    + apply andb_true_iff in Hstep as [Hc Hlt%Nat.ltb_lt].
      rewrite orb_true_iff, (IH (S n)) by lia. split.
      * intros [(body & rest & -> & Hend & Hall & Hlen)|Hstop].
        -- exists (String c body), rest. simpl.
           split_and!; [done|done|by constructor|lia|lia].
        -- apply andb_true_iff in Hstop as [Hlo%Nat.leb_le Hend].
           exists EmptyString, (String c t). simpl.
           split_and!; [done|done|constructor|lia|lia].
      * intros (body & rest & Hs & Hend & Hall & Hlen).
        destruct body as [|c' body]; simpl in *.
        -- right. change (String c t = rest) in Hs. subst rest.
           apply andb_true_iff. split; [|done].
           apply Nat.leb_le. lia.
        -- left. change (String c t = String c' (body +:+ rest)) in Hs.
           injection Hs as <- ->. exists body, rest.
           inversion Hall; subst. split_and!; [done|done|done|lia|lia].
    + rewrite andb_true_iff, Nat.leb_le. split.
      * intros [Hlo Hend]. exists EmptyString, (String c t). simpl.
        split_and!; [done|done|constructor|lia|lia].
      * intros (body & rest & Hs & Hend & Hall & Hlen).
        destruct body as [|c' body]; simpl in *.
        -- change (String c t = rest) in Hs. subst rest. split; [lia|done].
        -- exfalso. change (String c t = String c' (body +:+ rest)) in Hs.
           injection Hs as <- ->. inversion Hall as [|? ? Hc' ?]; subst.
           rewrite Hc' in Hstep. simpl in Hstep.
           apply Nat.ltb_ge in Hstep. lia.
Qed.

(** X12: [validate_yeet_id] and [validate_user_id] accept [None], reject
    what is neither [None] nor a string, and accept a string exactly when it
    is made of 1 to 50 letters, digits, hyphens and underscores, possibly
    followed by one newline: the [$] of the pattern also matches before a
    final newline. *)
Theorem X12_identifier_validation (id : value) :
  validate_user_id id = validate_yeet_id id
  /\ (validate_yeet_id id = true
      <-> id = VNone
          \/ exists body,
               (id = VStr body
                \/ id = VStr (String.append body (String "010" EmptyString)))
               /\ Forall (fun c => is_id_char c = true) (chars body)
               /\ (1 <= String.length body <= 50)%nat).
Proof.
  split; [by destruct id|].
  destruct id as [| | |s|]; simpl;
    try (split; [done|by intros [|(? & [|] & _)]]).
  - split; [by left|done].
  - unfold id_pattern_matches.
    rewrite (id_chars_then_end_spec 1 50 0 s) by lia. split.
    + intros (body & rest & -> & [->| ->]%at_end_cases & Hall & Hlen).
      * right. exists body. rewrite append_empty_r.
        split_and!; [by left|done|lia|lia].
      * right. exists body. split_and!; [by right|done|lia|lia].
    + intros [|(body & [[= ->]|[= ->]] & Hall & Hlen)]; [done| |].
      * exists body, EmptyString. rewrite append_empty_r.
        split_and!; [done|done|done|lia|lia].
      * exists body, (String "010" EmptyString).
        split_and!; [done|done|done|lia|lia].
Qed.

(** An identifier that ends with a newline is accepted. *)
Example identifier_with_final_newline_is_valid :
  validate_yeet_id (VStr (String.append "post-42" (String "010" EmptyString)))
  = true.
Proof. reflexivity. Qed.

(** * Properties of the routes *)

Lemma lift_run {A} (r : result A) (d : detector) : lift r d = (r, d).
Proof. reflexivity. Qed.

Lemma check_toxicity_frame w content d :
  check_toxicity w content d = ((check_toxicity w content d).1, d).
Proof.
  pose proof (read_only_check_toxicity w content d) as H.
  destruct (check_toxicity w content d) as [r d']. simpl in *. by subst.
Qed.

Lemma py_in_dict key kvs :
  py_in key (JDict kvs) = Ok (bool_decide (is_Some (assoc key kvs))).
Proof. reflexivity. Qed.

Lemma check_batch_item_run w d results i yeet :
  is_dict yeet = true ->
  check_batch_item w results (i, yeet) d
  = (Ok (results ++ [batch_item_result w d (i, yeet)]), d).
Proof.
  destruct yeet as [| | | | |kvs]; try done. intros _.
  unfold check_batch_item, batch_item_result, field. simpl pairs_of.
  rewrite bind_run, lift_run, py_in_dict.
  destruct (assoc "content" kvs) as [raw|] eqn:Hraw; simpl.
  - unfold try_except. rewrite bind_run, lift_run, Hraw.
    rewrite bind_run, (check_toxicity_frame w (to_value raw) d).
    by destruct (check_toxicity w (to_value raw) d).1.
  - done.
Qed.

Lemma check_batch_loop_run w d (items : list (nat * json)) results :
  Forall (fun item => is_dict item.2 = true) items ->
  for_each (check_batch_item w) results items d
  = (Ok (results ++ (batch_item_result w d <$> items)), d).
Proof.
  intros Hall. revert results.
  induction Hall as [|[i yeet] items Hd _ IH]; intros results.
  - cbn [for_each]. by rewrite fmap_nil, app_nil_r.
  - cbn [for_each]. rewrite bind_run, check_batch_item_run by done.
    by rewrite IH, fmap_cons, <-app_assoc.
Qed.

Lemma Forall_imap_snd (P : json -> Prop) (l : list json) :
  Forall P l ->
  Forall (fun item : nat * json => P item.2) (imap (fun i y => (i, y)) l).
Proof.
  intros Hall. apply Forall_forall. intros [i y] Hin.
  apply elem_of_lookup_imap in Hin as (j & y' & [= -> ->] & Hl).
  simpl. eapply Forall_forall; [exact Hall|].
  by eapply list_elem_of_lookup_2.
Qed.

Lemma read_only_check_batch_item w results item :
  read_only (check_batch_item w results item).
Proof.
  destruct item as [i yeet]. unfold check_batch_item.
  apply read_only_bind; [auto with frame|]. intros present.
  destruct (negb present).
  - repeat (apply read_only_bind; [auto with frame|intros ?]). auto with frame.
  - apply read_only_try_except.
    + apply read_only_bind; [auto with frame|intros ?].
      apply read_only_bind; [apply read_only_check_toxicity|intros ?].
      repeat (apply read_only_bind; [auto with frame|intros ?]).
      auto with frame.
    + intros e.
      repeat (apply read_only_bind; [auto with frame|intros ?]).
      auto with frame.
Qed.

Lemma read_only_respond b code : read_only (respond b code).
Proof. apply read_only_ret. Qed.

Lemma read_only_check_yeet_toxicity w req :
  read_only (check_yeet_toxicity w req).
Proof.
  unfold check_yeet_toxicity.
  apply read_only_try_except; [|intros; apply read_only_respond].
  destruct (negb (is_json req)); [apply read_only_respond|].
  apply read_only_bind; [auto with frame|intros data].
  apply read_only_bind; [auto with frame|intros present].
  destruct (negb present); [apply read_only_respond|].
  apply read_only_bind; [auto with frame|intros raw].
  apply read_only_bind; [auto with frame|intros yeet_id].
  apply read_only_bind; [auto with frame|intros user_id].
  repeat (match goal with
          | |- read_only (if ?b then _ else _) =>
              destruct b; [apply read_only_respond|]
          end).
  apply read_only_bind; [apply read_only_check_toxicity|intros ?].
  apply read_only_respond.
Qed.

Lemma read_only_check_batch_toxicity w req :
  read_only (check_batch_toxicity w req).
Proof.
  unfold check_batch_toxicity.
  apply read_only_try_except; [|intros; apply read_only_respond].
  destruct (negb (is_json req)); [apply read_only_respond|].
  apply read_only_bind; [auto with frame|intros data].
  apply read_only_bind; [auto with frame|intros present].
  apply read_only_bind.
  { destruct (negb present); [auto with frame|].
    apply read_only_bind; auto with frame. }
  intros usable. destruct (negb usable); [apply read_only_respond|].
  apply read_only_bind; [auto with frame|intros yeets].
  repeat (match goal with
          | |- read_only (if ?b then _ else _) =>
              destruct b; [apply read_only_respond|]
          end).
  apply read_only_bind; [|intros; apply read_only_respond].
  apply read_only_for_each. intros. apply read_only_check_batch_item.
Qed.

(** The statuses that the routes use. *)
Lemma try_respond_status (m : action response) (b : body) (d : detector) :
  (forall d' r, m d = (Ok r, d') ->
     status r = 200%nat \/ status r = 400%nat) ->
  exists r,
    (try_except m (fun _ => respond b 500) d).1 = Ok r
    /\ (status r = 200 \/ status r = 400 \/ status r = 500)%nat.
Proof.
  intros Hm. unfold try_except.
  destruct (m d) as [[r|e] d'] eqn:E.
  - exists r. split; [done|]. destruct (Hm d' r eq_refl); auto.
  - eexists. split; [reflexivity|]. simpl. auto.
Qed.

Lemma route_answers (m : action response) (b : body) (d : detector) :
  read_only (try_except m (fun _ => respond b 500)) ->
  (forall d' r, m d = (Ok r, d') ->
     status r = 200%nat \/ status r = 400%nat) ->
  exists r,
    try_except m (fun _ => respond b 500) d = (Ok r, d)
    /\ (status r = 200 \/ status r = 400 \/ status r = 500)%nat.
Proof.
  intros Hframe Hm. destruct (try_respond_status m b d Hm) as (r & Hr & Hs).
  exists r. split; [|exact Hs]. specialize (Hframe d).
  destruct (try_except _ _ d) as [r' d']. simpl in *. by subst.
Qed.

Lemma bind_inv {A B} (m : action A) (f : A -> action B) d r d' :
  (m ≫= f) d = (Ok r, d') ->
  exists a d0, m d = (Ok a, d0) /\ f a d0 = (Ok r, d').
Proof.
  rewrite bind_run. destruct (m d) as [[a|e] d0]; [eauto|done].
Qed.

(** X13: whatever the request and the state of the detector, the two
    routes let no exception escape, answer with status 200, 400 or 500, and
    leave the detector as it was. *)
Theorem X13_routes_always_answer (w : world) (req : request) (d : detector) :
  (exists r,
     check_yeet_toxicity w req d = (Ok r, d)
     /\ (status r = 200 \/ status r = 400 \/ status r = 500)%nat)
  /\ (exists r,
        check_batch_toxicity w req d = (Ok r, d)
        /\ (status r = 200 \/ status r = 400 \/ status r = 500)%nat).
Proof.
  split.
  - apply route_answers; [apply read_only_check_yeet_toxicity|].
    intros d' r.
    destruct (negb (is_json req)); [intros [= <- _]; auto|].
    intros (data & d1 & _ & H)%bind_inv. revert H.
    intros (present & d2 & _ & H)%bind_inv. revert H.
    destruct (negb present); [intros [= <- _]; auto|].
    intros (raw & d3 & _ & H)%bind_inv. revert H.
    intros (yid & d4 & _ & H)%bind_inv. revert H.
    intros (uid & d5 & _ & H)%bind_inv. revert H. cbv zeta.
    repeat (match goal with
            | |- (if ?b then _ else _) _ = _ -> _ =>
                destruct b; [intros [= <- _]; auto|]
            end).
    intros (v & d6 & _ & [= <- _])%bind_inv. auto.
  - apply route_answers; [apply read_only_check_batch_toxicity|].
    intros d' r.
    destruct (negb (is_json req)); [intros [= <- _]; auto|].
    intros (data & d1 & _ & H)%bind_inv. revert H.
    intros (present & d2 & _ & H)%bind_inv. revert H.
    intros (usable & d3 & _ & H)%bind_inv. revert H.
    destruct (negb usable); [intros [= <- _]; auto|].
    intros (yeets & d4 & _ & H)%bind_inv. revert H. cbv zeta.
    repeat (match goal with
            | |- (if ?b then _ else _) _ = _ -> _ =>
                destruct b; [intros [= <- _]; auto|]
            end).
    intros (results & d5 & _ & [= <- _])%bind_inv. auto.
Qed.

Lemma check_batch_run w d kvs yeets :
  assoc "yeets" kvs = Some (JList yeets) ->
  Forall (fun y => is_dict y = true) yeets ->
  check_batch_toxicity w (json_request (JDict kvs)) d
  = (Ok (if Nat.eqb (length yeets) 0 then
           {| payload := ErrorBody (Some "Yeets array cannot be empty") None;
              status := 400 |}
         else if (100 <? length yeets)%nat then
           {| payload :=
                ErrorBody (Some "Batch size cannot exceed 100 yeets") None;
              status := 400 |}
         else
           {| payload :=
                BatchBody (imap (fun i y => batch_item_result w d (i, y)) yeets)
                          (length yeets);
              status := 200 |}), d).
Proof.
  intros Hyeets Hall. unfold check_batch_toxicity, try_except, json_request.
  cbn [is_json get_json negb].
  rewrite bind_run, lift_run, bind_run, lift_run, py_in_dict, Hyeets.
  rewrite bool_decide_eq_true_2 by eauto.
  cbn [negb]. rewrite bind_run, bind_run, lift_run. cbn [py_getitem].
  rewrite Hyeets, ret_run. cbn [is_list negb].
  rewrite bind_run, lift_run. cbn [elements_of].
  destruct (Nat.eqb (length yeets) 0); [done|].
  destruct (100 <? length yeets)%nat; [done|].
  rewrite bind_run, check_batch_loop_run
    by (by apply (Forall_imap_snd (fun y => is_dict y = true))).
  unfold respond. rewrite ret_run, app_nil_l, fmap_imap, length_imap.
  done.
Qed.

(** X14: for a batch of 1 to 100 objects the batch route answers 200 with
    one result for each object, in their order, and [total_processed] is
    the number of objects; an object without content gets an error entry,
    one whose content the detector rejects gets the text of the exception,
    and the others get their verdict.  An empty batch and a batch of more
    than 100 objects are answered with 400. *)
Theorem X14_batch_answers_each_object
    (w : world) (d : detector) (kvs : list (string * json))
    (yeets : list json) :
  assoc "yeets" kvs = Some (JList yeets) ->
  Forall (fun y => is_dict y = true) yeets ->
  exists r,
    check_batch_toxicity w (json_request (JDict kvs)) d = (Ok r, d)
    /\ (status r = 200%nat <-> (1 <= length yeets <= 100)%nat)
    /\ (status r = 400%nat <-> ~ (1 <= length yeets <= 100)%nat)
    /\ ((1 <= length yeets <= 100)%nat ->
        exists results,
          payload r = BatchBody results (length yeets)
          /\ length results = length yeets
          /\ forall i yeet,
               yeets !! i = Some yeet ->
               results !! i = Some (batch_item_result w d (i, yeet))).
Proof.
  intros Hyeets Hall. eexists. split; [by apply check_batch_run|].
  destruct (Nat.eqb_spec (length yeets) 0) as [Hz|Hnz]; simpl.
  { split_and!; [split; [done|lia]|split; [lia|done]|lia]. }
  destruct (Nat.ltb_spec 100 (length yeets)) as [Hbig|Hok]; simpl.
  { split_and!; [split; [done|lia]|split; [lia|done]|lia]. }
  split_and!; [split; [lia|done]|split; [done|lia]|].
  intros _. eexists. split_and!; [done|apply length_imap|].
  intros i yeet Hi. by rewrite list_lookup_imap, Hi.
Qed.

(** X14 for a batch of one text without match and one object without
    content. *)
Lemma X14_batch_witness :
  exists r,
    check_batch_toxicity offline
      (json_request
         (JDict [("yeets",
                  JList [JDict [("content", JStr "hello")];
                         JDict [("yeet_id", JStr "a1")]])]))
      rule_detector
    = (Ok r, rule_detector)
    /\ (status r = 200%nat <-> (1 <= 2 <= 100)%nat).
Proof.
  destruct (X14_batch_answers_each_object offline rule_detector
              [("yeets",
                JList [JDict [("content", JStr "hello")];
                       JDict [("yeet_id", JStr "a1")]])]
              [JDict [("content", JStr "hello")];
               JDict [("yeet_id", JStr "a1")]]
              eq_refl ltac:(by repeat constructor))
    as (r & H1 & H2 & _).
  exists r. split; [exact H1|exact H2].
Defined.

Lemma for_each_raises {A B} (body : A -> B -> action A) (x : B) (l : list B)
    (a : A) (d : detector) :
  (forall a x, read_only (body a x)) ->
  x ∈ l ->
  (forall a d', exists e, (body a x d').1 = Raise e) ->
  exists e, for_each body a l d = (Raise e, d).
Proof.
  intros Hframe Hin Hraise. revert a.
  induction l as [|y l IH]; intros a; [by apply elem_of_nil in Hin|].
  cbn [for_each]. rewrite bind_run.
  pose proof (Hframe a y d) as Hd.
  destruct (body a y d) as [[a'|e] d'] eqn:E; simpl in Hd; subst d'.
  - apply elem_of_cons in Hin as [->|Hin]; [|by apply IH].
    destruct (Hraise a d) as [e He]. rewrite E in He. done.
  - eauto.
Qed.

Lemma check_batch_item_scalar w results i yeet d :
  is_scalar yeet = true ->
  exists e, (check_batch_item w results (i, yeet) d).1 = Raise e.
Proof.
  destruct yeet; try done; intros _; eexists; reflexivity.
Qed.

(** X15: one element of the batch that is [null], a boolean or a number
    makes the batch route answer 500 for the whole batch, whatever the
    other elements are. *)
Theorem X15_batch_fails_as_a_whole_on_a_scalar_element
    (w : world) (d : detector) (kvs : list (string * json))
    (yeets : list json) (yeet : json) :
  assoc "yeets" kvs = Some (JList yeets) ->
  (length yeets <= 100)%nat ->
  yeet ∈ yeets -> is_scalar yeet = true ->
  check_batch_toxicity w (json_request (JDict kvs)) d
  = (Ok {| payload :=
             ErrorBody (Some "Internal server error")
                       (Some "Failed to process batch toxicity check");
           status := 500 |}, d).
Proof.
  intros Hyeets Hlen Hin Hscalar.
  unfold check_batch_toxicity, try_except, json_request.
  cbn [is_json get_json negb].
  rewrite bind_run, lift_run, bind_run, lift_run, py_in_dict, Hyeets.
  rewrite bool_decide_eq_true_2 by eauto.
  cbn [negb]. rewrite bind_run, bind_run, lift_run. cbn [py_getitem].
  rewrite Hyeets, ret_run. cbn [is_list negb].
  rewrite bind_run, lift_run. cbn [elements_of].
  destruct (Nat.eqb_spec (length yeets) 0) as [Hz|_].
  { destruct yeets; [by apply elem_of_nil in Hin|done]. }
  destruct (Nat.ltb_spec 100 (length yeets)) as [?|_]; [lia|].
  rewrite bind_run.
  apply list_elem_of_lookup in Hin as [i Hi].
  destruct (for_each_raises (check_batch_item w) (i, yeet)
              (imap (fun i y => (i, y)) yeets) [] d) as [e He].
  - intros. apply read_only_check_batch_item.
  - apply elem_of_lookup_imap. eauto.
  - intros. by apply check_batch_item_scalar.
  - by rewrite He.
Qed.

(** X15 for a batch with a number after a text. *)
Lemma X15_batch_scalar_witness :
  check_batch_toxicity offline
    (json_request
       (JDict [("yeets", JList [JDict [("content", JStr "hello")]; JNum 7])]))
    rule_detector
  = (Ok {| payload :=
             ErrorBody (Some "Internal server error")
                       (Some "Failed to process batch toxicity check");
           status := 500 |}, rule_detector).
Proof.
  apply (X15_batch_fails_as_a_whole_on_a_scalar_element offline rule_detector
           _ [JDict [("content", JStr "hello")]; JNum 7] (JNum 7)).
  - reflexivity.
  - simpl. lia.
  - right. left.
  - reflexivity.
Defined.

Lemma check_yeet_run w d kvs raw :
  assoc "content" kvs = Some raw ->
  check_yeet_toxicity w (json_request (JDict kvs)) d
  = (Ok (if String.eqb (sanitize_input (to_value raw)) EmptyString then
           {| payload := ErrorBody (Some "Content cannot be empty") None;
              status := 400 |}
         else if negb (validate_yeet_id
                         (to_value (field "yeet_id" (JDict kvs)))) then
           {| payload := ErrorBody (Some "Invalid yeet_id format") None;
              status := 400 |}
         else if negb (validate_user_id
                         (to_value (field "user_id" (JDict kvs)))) then
           {| payload := ErrorBody (Some "Invalid user_id format") None;
              status := 400 |}
         else
           match (check_toxicity w (VStr (sanitize_input (to_value raw))) d).1
           with
           | Ok v =>
               {| payload := VerdictBody v (field "yeet_id" (JDict kvs))
                                         (field "user_id" (JDict kvs));
                  status := 200 |}
           | Raise _ =>
               {| payload :=
                    ErrorBody (Some "Internal server error")
                              (Some "Failed to check content toxicity");
                  status := 500 |}
           end), d).
Proof.
  intros Hraw. unfold check_yeet_toxicity, try_except, json_request, field.
  cbn [is_json get_json negb pairs_of].
  rewrite bind_run, lift_run, bind_run, lift_run, py_in_dict, Hraw.
  rewrite bool_decide_eq_true_2 by eauto.
  cbn [negb]. rewrite bind_run, lift_run. cbn [py_getitem]. rewrite Hraw.
  rewrite bind_run, lift_run. cbn [py_get].
  rewrite bind_run, lift_run. cbv zeta.
  rewrite validate_sanitized.
  destruct (String.eqb (sanitize_input (to_value raw)) EmptyString);
    cbn [valid error negb]; [done|].
  destruct (validate_yeet_id _); cbn [negb]; [|done].
  destruct (validate_user_id _); cbn [negb]; [|done].
  rewrite bind_run,
    (check_toxicity_frame w (VStr (sanitize_input (to_value raw))) d).
  by destruct (check_toxicity w _ d).1.
Qed.

(** X16: in pattern mode the check route answers a request whose object
    has a content with 200 exactly when the sanitized content is not empty
    and both identifiers are valid, and then with the verdict of the
    detector on the sanitized content; otherwise it answers 400, and for
    an empty sanitized content the error is that the content cannot be
    empty. *)
Theorem X16_check_route_in_pattern_mode
    (w0 : world) (use_ml : bool) (d : detector) (w : world)
    (kvs : list (string * json)) (raw : json) :
  constructed w0 use_ml d -> use_ml_model d = false ->
  assoc "content" kvs = Some raw ->
  let content := sanitize_input (to_value raw) in
  let yeet_id := field "yeet_id" (JDict kvs) in
  let user_id := field "user_id" (JDict kvs) in
  exists r,
    check_yeet_toxicity w (json_request (JDict kvs)) d = (Ok r, d)
    /\ (status r = 200 \/ status r = 400)%nat
    /\ (status r = 200%nat
        <-> content <> EmptyString
            /\ validate_yeet_id (to_value yeet_id) = true
            /\ validate_user_id (to_value user_id) = true)
    /\ (status r = 200%nat ->
        exists v,
          check_toxicity w (VStr content) d = (Ok v, d)
          /\ payload r = VerdictBody v yeet_id user_id)
    /\ (content = EmptyString ->
        payload r = ErrorBody (Some "Content cannot be empty") None).
Proof.
  intros Hc Hmode Hraw content yeet_id user_id.
  rewrite (constructed_rule _ _ _ Hc Hmode).
  eexists. split; [by apply check_yeet_run|].
  fold content yeet_id user_id.
  destruct (String.eqb_spec content EmptyString) as [Hempty|Hne].
  { cbn [status payload].
    split_and!; [by right|split; [done|by intros [? _]]|done|done]. }
  destruct (validate_yeet_id (to_value yeet_id)); cbn [negb status payload];
    [|split_and!; [by right|split; [done|by intros (_ & ? & _)]|done|done]].
  destruct (validate_user_id (to_value user_id)); cbn [negb status payload];
    [|split_and!; [by right|split; [done|by intros (_ & _ & ?)]|done|done]].
  rewrite check_toxicity_str, rule_based_run by done. cbn [fst status payload].
  split_and!; [by left|split; done| |done].
  intros _. by eexists.
Qed.

(** X16 for a request with a text and an identifier. *)
Lemma X16_check_route_witness :
  exists r,
    check_yeet_toxicity offline
      (json_request (JDict [("content", JStr " idiot you ");
                            ("yeet_id", JStr "post-42")]))
      rule_detector
    = (Ok r, rule_detector)
    /\ (status r = 200 \/ status r = 400)%nat.
Proof.
  destruct (X16_check_route_in_pattern_mode offline false rule_detector offline
              [("content", JStr " idiot you "); ("yeet_id", JStr "post-42")]
              (JStr " idiot you ") eq_refl eq_refl eq_refl)
    as (r & H1 & H2 & _).
  exists r. split; [exact H1|exact H2].
Defined.

Lemma Forall_chars_str_filter_keep (P : ascii -> Prop) p s :
  Forall P (chars s) -> Forall P (chars (str_filter p s)).
Proof.
  induction s as [|c s IH]; simpl; [done|]. intros H.
  inversion H; subst. destruct (p c); [constructor|]; auto.
Qed.

Lemma lstrip_blank s :
  Forall (fun c => py_isspace c = true) (chars s) -> lstrip s = EmptyString.
Proof.
  induction s as [|c s IH]; simpl; [done|]. intros H.
  inversion H as [|? ? Hc Hs]; subst. rewrite Hc. by apply IH.
Qed.

Lemma sanitize_input_blank s :
  Forall (fun c => py_isspace c = true) (chars s) ->
  sanitize_input (VStr s) = EmptyString.
Proof.
  intros H. cbn [sanitize_input]. unfold strip.
  rewrite lstrip_blank; [done|].
  by apply Forall_chars_take, Forall_chars_str_filter_keep.
Qed.

(** X17: a content made of whitespace only is refused by the check route
    with status 400, while the batch route, which neither sanitizes nor
    validates, hands it to the detector and returns its verdict. *)
Theorem X17_blank_content_check_refuses_batch_scores
    (w0 : world) (use_ml : bool) (d : detector) (w : world) (s : string) :
  constructed w0 use_ml d -> use_ml_model d = false ->
  s <> EmptyString ->
  Forall (fun c => py_isspace c = true) (chars s) ->
  check_yeet_toxicity w (json_request (JDict [("content", JStr s)])) d
  = (Ok {| payload := ErrorBody (Some "Content cannot be empty") None;
           status := 400 |}, d)
  /\ exists v,
       check_toxicity w (VStr s) d = (Ok v, d)
       /\ check_batch_toxicity w
            (json_request
               (JDict [("yeets", JList [JDict [("content", JStr s)]])])) d
          = (Ok {| payload := BatchBody [ResultVerdict v JNull JNull] 1;
                   status := 200 |}, d).
Proof.
  intros Hc Hmode Hne Hblank. rewrite (constructed_rule _ _ _ Hc Hmode). split.
  - rewrite (check_yeet_run _ _ _ (JStr s)) by done.
    cbn [to_value]. by rewrite sanitize_input_blank.
  - exists (rule_verdict w s).
    assert (check_toxicity w (VStr s) rule_detector
            = (Ok (rule_verdict w s), rule_detector)) as Hv.
    { rewrite check_toxicity_str by done. apply rule_based_run. }
    split; [exact Hv|].
    rewrite (check_batch_run _ _ _ [JDict [("content", JStr s)]])
      by (by repeat constructor).
    cbn [length Nat.eqb Nat.ltb Nat.leb imap]. unfold batch_item_result.
    cbn [snd pairs_of assoc String.eqb Ascii.eqb Bool.eqb to_value].
    by rewrite Hv.
Qed.

(** X17 for a content of three spaces. *)
Lemma X17_blank_content_witness :
  check_yeet_toxicity offline (json_request (JDict [("content", JStr "   ")]))
                      rule_detector
  = (Ok {| payload := ErrorBody (Some "Content cannot be empty") None;
           status := 400 |}, rule_detector).
Proof.
  apply (X17_blank_content_check_refuses_batch_scores
           offline false rule_detector offline "   ").
  - reflexivity.
  - reflexivity.
  - discriminate.
  - by repeat constructor.
Defined.

(** X18: in model mode, when the model raises, a valid request gets 500
    from the check route, and a text in a batch gets an error entry with
    the text of the [AttributeError] of the fallback. *)
Theorem X18_model_failure_through_the_routes
    (w0 : world) (use_ml : bool) (d : detector) (w : world) (s : string) :
  constructed w0 use_ml d -> use_ml_model d = true ->
  (forall text n, exists e, model_probability w text n = Raise e) ->
  sanitize_input (VStr s) <> EmptyString ->
  check_yeet_toxicity w (json_request (JDict [("content", JStr s)])) d
  = (Ok {| payload :=
             ErrorBody (Some "Internal server error")
                       (Some "Failed to check content toxicity");
           status := 500 |}, d)
  /\ check_batch_toxicity w
       (json_request (JDict [("yeets", JList [JDict [("content", JStr s)]])]))
       d
     = (Ok {| payload :=
                BatchBody
                  [ResultError
                     "Failed to check toxicity: 'ToxicityDetector' object has no attribute 'compiled_patterns'"
                     JNull JNull] 1;
              status := 200 |}, d).
Proof.
  intros Hc Hmode Hfail Hsan.
  destruct (constructed_ml _ _ _ Hc Hmode) as (Hnone & _ & _).
  assert (forall t, t <> EmptyString ->
            check_toxicity w (VStr t) d
            = (Raise (AttributeError "compiled_patterns"), d)) as Hraise.
  { intros t Ht. rewrite check_toxicity_str, Hmode by done.
    destruct (Hfail (_clean_content_for_ml t) (max_length_of d)) as [e He].
    by apply (ml_failure_run w d t e). }
  split.
  - rewrite (check_yeet_run _ _ _ (JStr s)) by done. cbn [to_value].
    destruct (String.eqb_spec (sanitize_input (VStr s)) EmptyString); [done|].
    cbn [field pairs_of assoc String.eqb Ascii.eqb Bool.eqb default to_value
         validate_yeet_id validate_user_id negb].
    by rewrite Hraise.
  - assert (s <> EmptyString) as Hne by (by intros ->).
    rewrite (check_batch_run _ _ _ [JDict [("content", JStr s)]])
      by (by repeat constructor).
    cbn [length Nat.eqb Nat.ltb Nat.leb imap]. unfold batch_item_result.
    cbn [snd pairs_of assoc String.eqb Ascii.eqb Bool.eqb to_value].
    by rewrite Hraise.
Qed.

(** X18 for the text "hello". *)
Lemma X18_model_failure_witness :
  check_yeet_toxicity (failing (1 # 2))
    (json_request (JDict [("content", JStr "hello")]))
    (served_detector (1 # 2))
  = (Ok {| payload :=
             ErrorBody (Some "Internal server error")
                       (Some "Failed to check content toxicity");
           status := 500 |}, served_detector (1 # 2)).
Proof.
  apply (X18_model_failure_through_the_routes
           (failing (1 # 2)) true (served_detector (1 # 2)) (failing (1 # 2))
           "hello").
  - reflexivity.
  - reflexivity.
  - intros text n. eexists. reflexivity.
  - discriminate.
Defined.

(** * Construction *)

(** X19: [ToxicityDetector(use_ml_model)] never raises; the object is in
    model mode exactly when the model was asked for, the library is
    installed and the model loads; and the tables of the rules are
    assigned exactly in pattern mode. *)
Theorem X19_construction_modes (w : world) (use_ml : bool) :
  exists d,
    constructed w use_ml d
    /\ (use_ml_model d = true
        <-> use_ml = true /\ transformers_available w = true
            /\ forall e, model_load w <> LoadFailed e)
    /\ (use_ml_model d = false
        <-> is_Some (compiled_patterns d) /\ is_Some (severity_weights d))
    /\ (use_ml_model d = false -> d = rule_detector).
Proof.
  unfold constructed, __init__, _initialize_ml_model.
  rewrite !bind_run. unfold setattr, read. cbn [fst snd use_ml_model
    set_use_ml_model new_object].
  destruct use_ml, (transformers_available w); cbn [andb];
    try (exists rule_detector; split; [reflexivity|];
         split_and!; [split; [done|by intros (? & ? & _)]
                     |split; [by eauto|done]|done]).
  unfold try_except. rewrite bind_run.
  destruct (model_load w) as [t n name| |e] eqn:Hload.
  - eexists. split; [reflexivity|]. cbn.
    split_and!; [split; done|split; [done|by intros [[? ?] _]]|done].
  - eexists. split; [reflexivity|]. cbn.
    split_and!; [split; done|split; [done|by intros [[? ?] _]]|done].
  - exists rule_detector. split; [reflexivity|].
    split_and!; [split; [done|intros (_ & _ & H); by destruct (H e)]
                |split; [by eauto|done]|done].
Qed.
